(** * Off-chain governance voting in NIX Core

    A shallow embedding of the two vote-cast paths of the wallet,

    - [OffChainGovernance::vote]        (src/qt/offchaingovernance.cpp), and
    - [postoffchainproposals]           (src/wallet/rpcwallet.cpp),

    together with the pieces of wallet state they read and write: the
    transaction map scanned for staking outputs, the governance entries
    kept in the wallet database, the process-wide [g_governance] client and
    the requests it puts on the wire. *)

From Stdlib Require Import ZArith Ascii String List Lia.
From Stdlib.Strings Require Import Byte.
From stdpp Require Import base list strings gmap.

Local Open Scope Z_scope.
#[local] Set Warnings "-clear-no-such-hyp".

(** ** Machine integers *)

Definition INT_MIN : Z := - 2 ^ 31.
Definition INT_MAX : Z := 2 ^ 31 - 1.

(** Two's-complement reduction to [w] bits, the result of signed
    arithmetic on the targets the wallet is built for. *)
Definition wrap (w : Z) (x : Z) : Z :=
  (x + 2 ^ (w - 1)) mod 2 ^ w - 2 ^ (w - 1).

Definition wrap32 : Z -> Z := wrap 32.
Definition wrap64 : Z -> Z := wrap 64.

(** ** Strings *)

(** The double-quote character, written in the source as an escaped
    quote inside string literals. *)
Definition dq : string := String (ascii_of_nat 34) EmptyString.

(** [std::stoi(const std::string&)], base 10, as specified through
    [strtol]: leading white space is skipped, one optional sign is read,
    then the longest run of decimal digits; trailing characters are
    ignored.  [None] stands for the two exceptions the function throws:
    [std::invalid_argument] when no digit was read, [std::out_of_range]
    when the value does not fit an [int]. *)
Definition isspace (c : ascii) : bool :=
  let n := Z.of_nat (nat_of_ascii c) in
  (n =? 32) || ((9 <=? n) && (n <=? 13)).

Fixpoint skip_spaces (s : string) : string :=
  match s with
  | String c s' => if isspace c then skip_spaces s' else s
  | EmptyString => EmptyString
  end.

Definition digit_of (c : ascii) : option Z :=
  let n := Z.of_nat (nat_of_ascii c) in
  if (48 <=? n) && (n <=? 57) then Some (n - 48) else None.

Fixpoint read_digits (s : string) (acc : option Z) : option Z :=
  match s with
  | String c s' =>
      match digit_of c with
      | Some d => read_digits s' (Some (10 * default 0 acc + d))
      | None => acc
      end
  | EmptyString => acc
  end.

Definition read_sign (s : string) : bool * string :=
  match s with
  | String "-"%char s' => (true, s')
  | String "+"%char s' => (false, s')
  | _ => (false, s)
  end.

Definition stoi (s : string) : option Z :=
  let '(neg, digits) := read_sign (skip_spaces s) in
  match read_digits digits None with
  | None => None
  | Some v =>
      let r := if neg then - v else v in
      if (INT_MIN <=? r) && (r <=? INT_MAX) then Some r else None
  end.

(** ** Data *)

(** [CScript] is a byte vector; [std::find] compares scripts with its
    [operator==]. *)
Definition CScript := list byte.

#[global] Instance byte_eq_dec : EqDecision byte := Byte.byte_eq_dec.

Record CTxOut := { nValue : Z; scriptPubKey : CScript }.

(** What the cast paths read of a wallet transaction: [IsCoinStake()],
    [GetTxTime()] and the outputs [tx->vout]. *)
Record CWalletTx := {
  IsCoinStake : bool;
  GetTxTime : Z;
  vout : list CTxOut
}.

Definition uint256 := Z.

(** [CKeyID] is a 160-bit hash; [IsNull] holds of the all-zero value
    that [GetKeyForDestination] returns when it finds no key. *)
Definition CKeyID := Z.
Definition IsNull (k : CKeyID) : bool := k =? 0.

(** [Proposals] and [Votes] are declared in
    governance/networking-governance.h; every field the two paths read
    is a [std::string]. *)
Record Proposals := {
  name : string;
  details : string;
  address : string;
  amount : string;
  txid : string;
  end_time : string;
  votes_affirm : string;
  votes_oppose : string;
  vote_id : string
}.

(** A default-constructed [Proposals]. *)
Definition Proposals_default : Proposals :=
  {| name := EmptyString; details := EmptyString; address := EmptyString;
     amount := EmptyString; txid := EmptyString; end_time := EmptyString;
     votes_affirm := EmptyString; votes_oppose := EmptyString;
     vote_id := EmptyString |}.

Record Votes := {
  v_vote_id : string;
  v_address : string;
  weight : string
}.

Record CGovernanceEntry := { voteID : string; voteWeight : Z }.

Inductive RequestTypes := GET_PROPOSALS | CAST_VOTE.

(** One call of [g_governance.SendRequests(type, json)]. *)
Record Request := { req_type : RequestTypes; req_json : string }.

(** The fields of [g_governance] the callers read once [isReady()]. *)
Record CGovernance := {
  proposals : list Proposals;
  votes : list Votes;
  statusOK : bool
}.

(** What the coordination service makes of a request.  [None]: the
    client never becomes ready, and the caller's
    [while(!g_governance.isReady()){}] spins for ever. *)
Record Reply := {
  r_statusOK : bool;
  r_proposals : list Proposals;
  r_votes : list Votes
}.

Definition Service := Request -> option Reply.

(** ** The governance ledger in the wallet database *)

Inductive LedgerError := DuplicateVoteError.

Definition GovernanceLedger := list CGovernanceEntry.

(** Modelled from the spec: [CWalletDB::ListGovernanceEntries] (wallet
    database code, not among the sources).  [List() -> []GovernanceEntry]
    over a persisted append-only record. *)
Definition ListGovernanceEntries (db : GovernanceLedger) : list CGovernanceEntry :=
  db.

(** Modelled from the spec: [Exists(voteID) -> bool] of the ledger. *)
Definition EntryExists (id : string) (db : GovernanceLedger) : bool :=
  existsb (fun e => String.eqb id (voteID e)) db.

(** Modelled from the spec: [CWalletDB::WriteGovernanceEntry] (wallet
    database code, not among the sources).  [Write] fails with
    [DuplicateVoteError] if an entry for that vote identifier already
    exists, re-checked by the store on write; otherwise the entry is
    appended. *)
Definition WriteGovernanceEntry (e : CGovernanceEntry) (db : GovernanceLedger)
  : LedgerError + GovernanceLedger :=
  if EntryExists (voteID e) db then inl DuplicateVoteError else inr (db ++ [e]).

(** Modelled from the spec: [EraseAll()] of the ledger. *)
Definition EraseAll (db : GovernanceLedger) : GovernanceLedger := [].

(** Both call sites drop the value [WriteGovernanceEntry] returns. *)
Definition write_ignoring_result (e : CGovernanceEntry) (db : GovernanceLedger)
  : GovernanceLedger :=
  match WriteGovernanceEntry e db with
  | inr db' => db'
  | inl _ => db
  end.

(** The loop both paths run over the listed entries:
    [for(auto entry: govEntries) if(vote_id == entry.voteID) ...],
    leaving at the first hit. *)
Definition findVoted (vote_id : string) (govEntries : list CGovernanceEntry)
  : option CGovernanceEntry :=
  List.find (fun entry => String.eqb vote_id (voteID entry)) govEntries.

(** ** Vote weight *)

(** [CAmount voteWeight = 0; for (i ...) { if (votes[i].vote_id != vote_id)
    continue; voteWeight += std::stoi(votes[i].weight); }].  [CAmount] is
    [int64_t].  [None] when [std::stoi] throws. *)
Fixpoint tallyFrom (vote_id : string) (vs : list Votes) (voteWeight : Z) : option Z :=
  match vs with
  | [] => Some voteWeight
  | v :: rest =>
      if negb (String.eqb (v_vote_id v) vote_id) then tallyFrom vote_id rest voteWeight
      else match stoi (weight v) with
           | None => None
           | Some w => tallyFrom vote_id rest (wrap64 (voteWeight + w))
           end
  end.

Definition tally (vote_id : string) (vs : list Votes) : option Z :=
  tallyFrom vote_id vs 0.

(** The RPC builds its result in the same loop:
    [end.pushKV("Vote " + std::to_string(i), votes[i].toJSONString())],
    kept here as the index and the record. *)
Fixpoint matchingVotesFrom (vote_id : string) (vs : list Votes) (i : nat)
  : list (nat * Votes) :=
  match vs with
  | [] => []
  | v :: rest =>
      if negb (String.eqb (v_vote_id v) vote_id) then matchingVotesFrom vote_id rest (S i)
      else (i, v) :: matchingVotesFrom vote_id rest (S i)
  end.

Definition matchingVotes (vote_id : string) (vs : list Votes) : list (nat * Votes) :=
  matchingVotesFrom vote_id vs 0%nat.

(** ** Script, key and hashing primitives

    Declared in script/, key.h, hash.h, base58.h and utilstrencodings.h,
    none of which is among the sources: the cast paths are modelled over
    any implementation of them. *)
Class Primitives := {
  CTxDestination : Type;
  CKey : Type;
  CHashWriter : Type;
  (** [script.IsPayToScriptHashAny()] *)
  IsPayToScriptHashAny : CScript -> bool;
  (** [ExtractDestination(script, dest)]: the value left in [dest] *)
  ExtractDestination : CScript -> CTxDestination;
  IsValidDestination : CTxDestination -> bool;
  EncodeDestination : CTxDestination -> string;
  (** the magic prefix of signed messages *)
  strMessageMagic : string;
  (** [CHashWriter ss(SER_GETHASH, 0)], [ss << s] and [ss.GetHash()] *)
  hash_writer_new : CHashWriter;
  hash_write : CHashWriter -> string -> CHashWriter;
  GetHash : CHashWriter -> uint256;
  (** [key.SignCompact(hash, vchSig)]: [None] when it returns false *)
  SignCompact : CKey -> uint256 -> option (list byte);
  EncodeBase64 : list byte -> string
}.

Section Governance.

Context `{prim : Primitives}.

(** What the cast paths use of [CWallet]: the transaction map in
    iteration order, [::IsMine] on the wallet ([true] when it does not
    answer [ISMINE_NO]), the key store, and the lock state
    [EnsureWalletIsUnlocked] tests. *)
Record CWallet := {
  mapWallet : list (uint256 * CWalletTx);
  IsMine : CScript -> bool;
  GetKeyForDestination : CTxDestination -> CKeyID;
  GetKey : CKeyID -> option CKey;
  IsLocked : bool;
  IsHDEnabled : bool;
  fUnlockForStakingOnly : bool
}.

(** *** StakeAddressCollector *)

(** The inner loop [for(auto& vout: wtx.tx->vout)]. *)
Definition collectOutputs (w : CWallet) (votingAddresses : list CScript)
    (outs : list CTxOut) : list CScript :=
  fold_left
    (fun acc vout =>
       if negb (IsMine w (scriptPubKey vout)) then acc
       else if IsPayToScriptHashAny (scriptPubKey vout) then acc
       else if bool_decide (scriptPubKey vout ∈ acc) then acc
       else acc ++ [scriptPubKey vout])
    outs votingAddresses.

(** The outer loop [for (auto& mapping: pwallet->mapWallet)], over the
    test that makes it [continue]. *)
Definition collectVotingAddresses (w : CWallet) (skip : CWalletTx -> bool)
  : list CScript :=
  fold_left
    (fun acc mapping =>
       let wtx := snd mapping in
       if skip wtx then acc else collectOutputs w acc (vout wtx))
    (mapWallet w) [].

(** offchaingovernance.cpp: [if(!wtx.IsCoinStake()) continue;] *)
Definition skip_gui (wtx : CWalletTx) : bool :=
  negb (IsCoinStake wtx).

(** rpcwallet.cpp: [const int64_t vote_timeframe = 46 * 60 * 60 * 24;] and
    [if(!wtx.IsCoinStake() || wtx.GetTxTime() < (current_time - vote_timeframe))
    continue;] *)
Definition vote_timeframe : Z := 46 * 60 * 60 * 24.

Definition skip_rpc (current_time : Z) (wtx : CWalletTx) : bool :=
  negb (IsCoinStake wtx)
  || (GetTxTime wtx <? wrap64 (current_time - vote_timeframe)).

(** *** BallotSigner *)

(** Why an address cannot be signed for.  In the words of the error
    taxonomy: [AddressDecoding] is the address-resolution error, [NoKeyID]
    and [NoWalletKey] are the key-unavailable error, [SignFailed] is the
    signing error. *)
Inductive SignError :=
| AddressDecoding   (* !IsValidDestination(dest) *)
| NoKeyID           (* keyID.IsNull() *)
| NoWalletKey       (* !pwallet->GetKey(keyID, key) *)
| SignFailed.       (* !key.SignCompact(...) *)

Definition strMessage (vote_id decision : string) : string :=
  vote_id +:+ "_" +:+ decision.

(** [ss << strMessageMagic; ss << strMessage; ss.GetHash()] *)
Definition messageHash (msg : string) : uint256 :=
  GetHash (hash_write (hash_write hash_writer_new strMessageMagic) msg).

(** The object appended to [postMessage] for one address. *)
Definition ballotJSON (vote_id strAddress sig64 decision : string) : string :=
  "{" +:+ dq +:+ "voteid" +:+ dq +:+ ":" +:+ dq +:+ vote_id
  +:+ dq +:+ "," +:+ dq +:+ "address" +:+ dq +:+ ":" +:+ dq +:+ strAddress
  +:+ dq +:+ "," +:+ dq +:+ "signature" +:+ dq +:+ ":" +:+ dq +:+ sig64
  +:+ dq +:+ "," +:+ dq +:+ "ballot" +:+ dq +:+ ":" +:+ dq +:+ decision
  +:+ dq +:+ "}".

(** The body of [for(auto &addrScript: votingAddresses)] up to the
    signature. *)
Definition signBallot (w : CWallet) (vote_id decision : string)
    (addrScript : CScript) : SignError + string :=
  let dest := ExtractDestination addrScript in
  let strAddress := EncodeDestination dest in
  if negb (IsValidDestination dest) then inl AddressDecoding
  else
    let keyID := GetKeyForDestination w dest in
    if IsNull keyID then inl NoKeyID
    else match GetKey w keyID with
         | None => inl NoWalletKey
         | Some key =>
             match SignCompact key (messageHash (strMessage vote_id decision)) with
             | None => inl SignFailed
             | Some vchSig =>
                 inr (ballotJSON vote_id strAddress (EncodeBase64 vchSig) decision)
             end
         end.

(** The whole loop, threading [int id] and [postMessage]; it is left at
    the first address that cannot be signed for. *)
Fixpoint signBallots (w : CWallet) (vote_id decision : string)
    (votingAddresses : list CScript) (id : Z) (postMessage : string)
  : SignError + string :=
  match votingAddresses with
  | [] => inr postMessage
  | addrScript :: rest =>
      match signBallot w vote_id decision addrScript with
      | inl e => inl e
      | inr obj =>
          let postMessage :=
            if negb (id =? 0) then postMessage +:+ "," else postMessage in
          signBallots w vote_id decision rest (wrap32 (id + 1)) (postMessage +:+ obj)
      end
  end.

(** *** GovernanceClient *)

(** The process state the cast paths touch. *)
Record Node := {
  fInitialBlockDownload : bool;      (* IsInitialBlockDownload() *)
  pwallet : CWallet;
  walletdb : GovernanceLedger;
  g_governance : CGovernance;
  wire : list Request                (* requests sent, oldest first *)
}.

Definition set_walletdb (db : GovernanceLedger) (n : Node) : Node :=
  {| fInitialBlockDownload := fInitialBlockDownload n; pwallet := pwallet n;
     walletdb := db; g_governance := g_governance n; wire := wire n |}.

Definition set_governance (g : CGovernance) (n : Node) : Node :=
  {| fInitialBlockDownload := fInitialBlockDownload n; pwallet := pwallet n;
     walletdb := walletdb n; g_governance := g; wire := wire n |}.

(** Modelled from the spec: [g_governance.SendRequests(type, json)]
    (governance/networking-governance.cpp is not among the sources).  The
    call is fire-and-forget against an external channel: it puts one
    request on the wire. *)
Definition SendRequests (rq : Request) (n : Node) : Node :=
  {| fInitialBlockDownload := fInitialBlockDownload n; pwallet := pwallet n;
     walletdb := walletdb n; g_governance := g_governance n;
     wire := wire n ++ [rq] |}.

(** Modelled from the spec: how a reply fills the client
    (governance/networking-governance.cpp is not among the sources).
    Responses populate the in-memory proposal collection and the vote
    record collection respectively, and set the status flag. *)
Definition fill (t : RequestTypes) (r : Reply) (g : CGovernance) : CGovernance :=
  match t with
  | GET_PROPOSALS =>
      {| proposals := r_proposals r; votes := votes g; statusOK := r_statusOK r |}
  | CAST_VOTE =>
      {| proposals := proposals g; votes := r_votes r; statusOK := r_statusOK r |}
  end.

(** The caller's [while(!g_governance.isReady()){}] followed by its reads
    of the client: the loop ends when the service has replied and the reply
    has filled the client; [None] when it never ends. *)
Definition awaitReady (svc : Service) (rq : Request) (n : Node) : option Node :=
  match svc rq with
  | None => None
  | Some r => Some (set_governance (fill (req_type rq) r (g_governance n)) n)
  end.

(** Both paths: [if(voteWeight != 0){ ... walletdb.WriteGovernanceEntry(govVote); }] *)
Definition storeVote (vote_id : string) (voteWeight : Z) (n : Node) : Node :=
  if negb (voteWeight =? 0)
  then set_walletdb
         (write_ignoring_result {| voteID := vote_id; voteWeight := voteWeight |}
            (walletdb n)) n
  else n.

(** *** The GUI path: [OffChainGovernance::vote] *)

Record GuiInput := {
  selectedRow : option string;   (* column 0 of the selected row; None: !sel.isValid() *)
  unlockGranted : bool;          (* ctx.isValid() *)
  confirmed : bool               (* the dialog answered QMessageBox::Yes *)
}.

Inductive GuiExit :=
| G_NoSelection                  (* l.219 *)
| G_NotSynced                    (* l.223 *)
| G_UnlockCancelled              (* l.238 *)
| G_AlreadyVoted (w : Z)         (* l.259 *)
| G_NotConfirmed                 (* l.280 *)
| G_SignError (e : SignError)    (* l.324, 330, 336, 346 *)
| G_SpinsOnCast                  (* l.368 never ends *)
| G_VoteNotSuccessful            (* l.372 *)
| G_StoiThrows                   (* l.381 *)
| G_SpinsOnRefresh (w : Z)       (* l.392 shown, l.397 never ends *)
| G_Success (w : Z).             (* l.392 shown, l.399 *)

(** [for(Proposals proposals: g_governance.proposals) if(name == proposals.name)
    { selectedProp = proposals; break; }] over a default-constructed
    [selectedProp]. *)
Definition lookupProposal (name_ : string) (ps : list Proposals) : Proposals :=
  default Proposals_default
    (List.find (fun p => String.eqb name_ (name p)) ps).

(** The slot runs under [LOCK2(cs_main, pwallet->cs_wallet)], so nothing
    else touches the wallet database between its ledger check and its
    write.  The messages it emits are kept as the exit it leaves by; the
    assignment to [last_refresh_time] is of no consequence here. *)
Definition vote (ui : GuiInput) (decision : string) (svc : Service) (n : Node)
  : GuiExit * Node :=
  match selectedRow ui with
  | None => (G_NoSelection, n)
  | Some name_ =>
  if fInitialBlockDownload n then (G_NotSynced, n) else
  if negb (unlockGranted ui) then (G_UnlockCancelled, n) else
  let selectedProp := lookupProposal name_ (proposals (g_governance n)) in
  let vote_id := vote_id selectedProp in
  match findVoted vote_id (ListGovernanceEntries (walletdb n)) with
  | Some entry => (G_AlreadyVoted (voteWeight entry), n)
  | None =>
  if negb (confirmed ui) then (G_NotConfirmed, n) else
  let votingAddresses := collectVotingAddresses (pwallet n) skip_gui in
  match signBallots (pwallet n) vote_id decision votingAddresses 0 "[" with
  | inl e => (G_SignError e, n)
  | inr postMessage =>
  let rq := {| req_type := CAST_VOTE; req_json := postMessage +:+ "]" |} in
  let n1 := SendRequests rq n in
  match awaitReady svc rq n1 with
  | None => (G_SpinsOnCast, n1)
  | Some n2 =>
  if negb (statusOK (g_governance n2)) then (G_VoteNotSuccessful, n2) else
  match tally vote_id (votes (g_governance n2)) with
  | None => (G_StoiThrows, n2)
  | Some voteWeight =>
  let n3 := storeVote vote_id voteWeight n2 in
  let rq' := {| req_type := GET_PROPOSALS; req_json := EmptyString |} in
  let n4 := SendRequests rq' n3 in
  match awaitReady svc rq' n4 with
  | None => (G_SpinsOnRefresh voteWeight, n4)
  | Some n5 => (G_Success voteWeight, n5)
  end end end end end end.

(** *** The RPC path: [postoffchainproposals] *)

Record JSONRPCRequest := { fHelp : bool; params : list string }.

Inductive RpcExit :=
| R_Help                         (* l.6061 runtime_error *)
| R_UnlockNeeded                 (* EnsureWalletIsUnlocked, l.90 *)
| R_StakingOnly                  (* EnsureWalletIsUnlocked, l.94 *)
| R_AlreadyVoted (w : Z)         (* l.6084 *)
| R_SignError (e : SignError)    (* l.6136, 6141, 6146, 6155 *)
| R_SpinsOnCast                  (* l.6175 never ends *)
| R_NotCasted                    (* l.6179 *)
| R_StoiThrows                   (* l.6191 *)
| R_Return (end_ : list (nat * Votes)).  (* l.6202 *)

(** [current_time] is the value of [std::time(0)] at the call.  The
    handler too holds [cs_main] and the wallet lock throughout. *)
Definition postoffchainproposals (request : JSONRPCRequest) (current_time : Z)
    (svc : Service) (n : Node) : RpcExit * Node :=
  match fHelp request, params request with
  | false, [vote_id; decision] =>
  if IsLocked (pwallet n) then (R_UnlockNeeded, n) else
  if IsHDEnabled (pwallet n) && fUnlockForStakingOnly (pwallet n)
  then (R_StakingOnly, n) else
  match findVoted vote_id (ListGovernanceEntries (walletdb n)) with
  | Some entry => (R_AlreadyVoted (voteWeight entry), n)
  | None =>
  let votingAddresses :=
    collectVotingAddresses (pwallet n) (skip_rpc current_time) in
  match signBallots (pwallet n) vote_id decision votingAddresses 0 "[" with
  | inl e => (R_SignError e, n)
  | inr postMessage =>
  let rq := {| req_type := CAST_VOTE; req_json := postMessage +:+ "]" |} in
  let n1 := SendRequests rq n in
  match awaitReady svc rq n1 with
  | None => (R_SpinsOnCast, n1)
  | Some n2 =>
  if negb (statusOK (g_governance n2)) then (R_NotCasted, n2) else
  match tally vote_id (votes (g_governance n2)) with
  | None => (R_StoiThrows, n2)
  | Some voteWeight =>
  (R_Return (matchingVotes vote_id (votes (g_governance n2))),
   storeVote vote_id voteWeight n2)
  end end end end
  | _, _ => (R_Help, n)
  end.

(** *** Predicates used to state what the paths do *)

(** An output the inner loop stores, when its script is not stored yet. *)
Definition eligibleOutput (w : CWallet) (s : CScript) (o : CTxOut) : Prop :=
  scriptPubKey o = s /\ IsMine w s = true /\ IsPayToScriptHashAny s = false.

(** [obj] is a ballot for [addrScript] signed, with the key the wallet
    holds for it, over the hash of the magic prefix followed by
    [vote_id + "_" + decision]. *)
Definition signedBallot (w : CWallet) (vote_id decision : string)
    (addrScript : CScript) (obj : string) : Prop :=
  let dest := ExtractDestination addrScript in
  IsValidDestination dest = true
  /\ IsNull (GetKeyForDestination w dest) = false
  /\ exists (key : CKey) (vchSig : list byte),
       GetKey w (GetKeyForDestination w dest) = Some key
       /\ SignCompact key
            (GetHash (hash_write (hash_write hash_writer_new strMessageMagic)
                        (vote_id +:+ "_" +:+ decision)))
          = Some vchSig
       /\ obj = ballotJSON vote_id (EncodeDestination dest)
                  (EncodeBase64 vchSig) decision.

(** The objects of a request body one after the other, a comma before
    each but the first ([comma] tells whether one is due). *)
Fixpoint joinBallots (comma : bool) (objs : list string) : string :=
  match objs with
  | [] => EmptyString
  | obj :: rest =>
      (if comma then "," else EmptyString) +:+ obj +:+ joinBallots true rest
  end.

(** The nodes a wallet can be in: it starts with an empty ledger, and
    the ledger is touched only by casts on either path and by erasing all
    entries. *)
Inductive reachable : Node -> Prop :=
| reach_fresh (n : Node) :
    walletdb n = [] -> reachable n
| reach_rpc (n : Node) (request : JSONRPCRequest) (current_time : Z)
    (svc : Service) :
    reachable n ->
    reachable (snd (postoffchainproposals request current_time svc n))
| reach_gui (n : Node) (ui : GuiInput) (decision : string) (svc : Service) :
    reachable n ->
    reachable (snd (vote ui decision svc n))
| reach_erase (n : Node) :
    reachable n ->
    reachable (set_walletdb (EraseAll (walletdb n)) n).

End Governance.

(** ** Sample data

    A stand-in implementation of the primitives and a few wallets, used to
    run the paths on concrete inputs. *)
Module Sample.

(** Scripts are two bytes here: an opcode and a key number.  A script
    starting with [OP_HASH160] counts as script-hash; the destination is
    the script itself and is valid when its key number is not 255; the
    hash of the written strings is their total length. *)
#[export] Instance prims : Primitives := {|
  CTxDestination := CScript;
  CKey := Z;
  CHashWriter := string;
  IsPayToScriptHashAny s := match s with xa9 :: _ => true | _ => false end;
  ExtractDestination s := s;
  IsValidDestination d := match d with [_; xff] => false | [_; _] => true | _ => false end;
  EncodeDestination d := string_of_list_byte d;
  strMessageMagic := "NIX Signed Message:";
  hash_writer_new := EmptyString;
  hash_write ss s := ss +:+ s;
  GetHash ss := Z.of_nat (String.length ss);
  SignCompact key h := if key =? 7 then None else Some [x53; x49; x47];
  EncodeBase64 v := string_of_list_byte v
|}.

Definition sLegacy : CScript := [x76; x41].     (* owned, key 65 *)
Definition sBech32 : CScript := [x00; x42].     (* owned, key 66 *)
Definition sP2SH : CScript := [xa9; x43].       (* owned, script-hash *)
Definition sForeign : CScript := [x76; x44].    (* not owned *)
Definition sOld : CScript := [x76; x45].        (* owned, key 69 *)

Definition out (s : CScript) : CTxOut := {| nValue := 50; scriptPubKey := s |}.

Definition now : Z := 1600000000.

(** Two recent coinstakes, a coinstake older than 46 days and a plain
    payment. *)
Definition txs : list (uint256 * CWalletTx) :=
  [ (1, {| IsCoinStake := true; GetTxTime := now - 3600;
           vout := [out sLegacy; out sP2SH; out sForeign] |});
    (2, {| IsCoinStake := true; GetTxTime := now - 7200;
           vout := [out sBech32; out sLegacy] |});
    (3, {| IsCoinStake := true; GetTxTime := now - 47 * 86400;
           vout := [out sOld] |});
    (4, {| IsCoinStake := false; GetTxTime := now - 60;
           vout := [out sBech32] |}) ].

Definition keyOf (d : CScript) : CKeyID :=
  match d with
  | [_; b] => Z.of_N (Byte.to_N b)
  | _ => 0
  end.

Definition walletWith (m : list (uint256 * CWalletTx)) : CWallet :=
  {| mapWallet := m;
     IsMine s := negb (bool_decide (s = sForeign));
     GetKeyForDestination := keyOf;
     GetKey k := Some k;
     IsLocked := false;
     IsHDEnabled := true;
     fUnlockForStakingOnly := false |}.

Definition wallet : CWallet := walletWith txs.

(** A wallet that staked to a script whose key cannot sign. *)
Definition sUnsignable : CScript := [x76; x07]. (* owned, key 7 *)

Definition walletUnsignable : CWallet :=
  walletWith
    [ (1, {| IsCoinStake := true; GetTxTime := now - 3600;
             vout := [out sLegacy; out sUnsignable; out sBech32] |}) ].

Definition noVotes : CGovernance :=
  {| proposals := []; votes := []; statusOK := false |}.

Definition nodeWith (ibd : bool) (w : CWallet) (db : GovernanceLedger)
    (g : CGovernance) : Node :=
  {| fInitialBlockDownload := ibd; pwallet := w; walletdb := db;
     g_governance := g; wire := [] |}.

(** The records of the aggregation example. *)
Definition records : list Votes :=
  [ {| v_vote_id := "p1"; v_address := "a"; weight := "10" |};
    {| v_vote_id := "p1"; v_address := "b"; weight := "5" |};
    {| v_vote_id := "p2"; v_address := "c"; weight := "100" |} ].

(** A service that accepts every request and counts the given records. *)
Definition serviceCounting (vs : list Votes) : Service :=
  fun _ => Some {| r_statusOK := true; r_proposals := []; r_votes := vs |}.

(** Two proposals shown under one display name. *)
Definition prop (n v : string) : Proposals :=
  {| name := n; details := EmptyString; address := EmptyString;
     amount := "1"; txid := EmptyString; end_time := "0";
     votes_affirm := "0"; votes_oppose := "0"; vote_id := v |}.

Definition twins : CGovernance :=
  {| proposals := [prop "Fund" "v1"; prop "Fund" "v2"]; votes := [];
     statusOK := true |}.

Definition rpc (v d : string) : JSONRPCRequest :=
  {| fHelp := false; params := [v; d] |}.

Definition click (n : string) : GuiInput :=
  {| selectedRow := Some n; unlockGranted := true; confirmed := true |}.

End Sample.

(** ** The aggregate the service's records stand for

    In the words of the spec a weight is a non-negative integer amount,
    and the aggregate is the sum of the [weight] field of every record
    whose identifier matches.  The definitions below follow those words,
    not the code: a weight field is read as the decimal numeral of a
    natural number, of whatever size. *)
Definition matches (vote_id : string) (v : Votes) : bool :=
  String.eqb (v_vote_id v) vote_id.

(** The place of a character among the ten digits, if it is one. *)
Fixpoint placeIn (c : ascii) (digits : list ascii) (i : Z) : option Z :=
  match digits with
  | [] => None
  | x :: rest => if Ascii.eqb x c then Some i else placeIn c rest (i + 1)
  end.

Definition numeralDigit (c : ascii) : option Z :=
  placeIn c (list_ascii_of_string "0123456789") 0.

Fixpoint numeralFrom (s : string) (acc : Z) : option Z :=
  match s with
  | EmptyString => Some acc
  | String c s' =>
      match numeralDigit c with
      | Some d => numeralFrom s' (10 * acc + d)
      | None => None
      end
  end.

(** The amount a weight field denotes; [None] when the field is not a
    numeral. *)
Definition weightAmount (v : Votes) : option Z :=
  match weight v with
  | EmptyString => None
  | s => numeralFrom s 0
  end.

Fixpoint sumOfAmounts (vs : list Votes) : option Z :=
  match vs with
  | [] => Some 0
  | v :: rest =>
      match weightAmount v, sumOfAmounts rest with
      | Some a, Some t => Some (a + t)
      | _, _ => None
      end
  end.

Definition sumMatching (vote_id : string) (vs : list Votes) : option Z :=
  sumOfAmounts (List.filter (matches vote_id) vs).

(** * The rest of the governance code

    The handlers of [OffChainGovernance] around the proposal table, and
    the wallet RPCs that stand beside [postoffchainproposals]. *)

(** ** The proposal table of the GUI *)

(** The two intervals are macros of qt/offchaingovernance.h, and
    [DateTimeStrFormat] (here at the one format the widget uses,
    [%Y-%m-%d %H:%M]) is declared in utiltime.h; neither file is among the
    sources. *)
Class Display := {
  FILTER_COOLDOWN_SECONDS : Z;
  UPDATE_SECONDS : Z;
  DateTimeStrFormat : Z -> string
}.

(** [GetTime()]: every call takes the next reading of the clock. *)
Record Clock := { reading : nat -> Z; reads : nat }.

Definition GetTime (c : Clock) : Z * Clock :=
  (reading c (reads c), {| reading := reading c; reads := S (reads c) |}).

(** One row of [tableWidgetProposals], columns 0 to 4. *)
Record Row := {
  nameItem : string;
  amountItem : string;
  expirationItem : string;
  affirmItem : string;
  opposeItem : string
}.

(** What [countLabel] shows. *)
Inductive CountLabel :=
| LabelUnset
| LabelPleaseWait (n : Z)      (* strprintf("Please wait... %d", n) *)
| LabelUpdating                (* "Updating..." *)
| LabelRows (n : nat).         (* QString::number(rowCount()) *)

(** The members of the widget the handlers use.  [nTimeListUpdated] is
    the function-local static of [updateProposalList], [None] until the
    declaration is first reached.  [rows] holds the table with row 0 first,
    as the insertions leave it; how the view orders the rows once sorting
    is enabled again is the table's own business. *)
Record OffChainGovernance := {
  fFilterUpdated : bool;
  nTimeFilterUpdated : Z;
  nTimeListUpdated : option Z;
  strCurrentFilter : string;
  countLabel : CountLabel;
  rows : list Row;
  sortingEnabled : bool
}.

(** [QString::contains(const QString&)], case sensitive: the text read
    as the string of its bytes. *)
Fixpoint contains (s sub : string) : bool :=
  String.prefix sub s
  || match s with
     | EmptyString => false
     | String _ s' => contains s' sub
     end.

(** The text a row is filtered on. *)
Definition strToFilter (r : Row) : string :=
  nameItem r +:+ " " +:+ amountItem r +:+ " " +:+ expirationItem r +:+ " "
  +:+ affirmItem r +:+ " " +:+ opposeItem r.

(** A line feed. *)
Definition nl : string := String (ascii_of_nat 10) EmptyString.

(** The dialog [on_tableWidgetProposals_doubleClicked] shows. *)
Record Dialog := { windowTitle : string; dialogText : string }.

Inductive DialogExit :=
| D_NoSelection            (* selection.isEmpty() *)
| D_Threw                  (* std::stoi(selectedProp.end_time) throws *)
| D_Shown (d : Dialog).

Inductive UpdateExit :=
| U_NoLock                       (* l.85 *)
| U_Wait (nSecondsToWait : Z)    (* l.95 *)
| U_Threw                        (* l.112, std::stoi throws *)
| U_Done.                        (* l.138 *)

Inductive RefreshExit :=
| Rf_Spins                       (* l.431 never ends *)
| Rf_Updated (e : UpdateExit).

Inductive UiEvent :=
| EvUpdate (fLockAcquired landed : bool)   (* updateProposalList() is called *)
| EvFilter (strFilterIn : string)          (* the filter text changes *)
| EvRefresh (fLockAcquired landed : bool). (* the refresh button is clicked *)

Section ProposalTable.

Context `{prim : Primitives} `{disp : Display}.

(** The widget in its process: the clock, its members and the node. *)
Record Gui := { clock : Clock; widget : OffChainGovernance; node : Node }.

(** The row made of a proposal whose [end_time] reads as [t]. *)
Definition rowOf (prop : Proposals) (t : Z) : Row :=
  {| nameItem := name prop; amountItem := amount prop;
     expirationItem := DateTimeStrFormat t;
     affirmItem := votes_affirm prop; opposeItem := votes_oppose prop |}.

(** The loop [BOOST_FOREACH(Proposals & prop, g_governance.proposals)]:
    every kept row goes in at position 0.  The flag is false when
    [std::stoi(prop.end_time)] threw, the table being left as it was at
    that moment. *)
Fixpoint insertRows (filter : string) (ps : list Proposals) (table : list Row)
  : list Row * bool :=
  match ps with
  | [] => (table, true)
  | prop :: rest =>
      match stoi (end_time prop) with
      | None => (table, false)
      | Some t =>
          let row := rowOf prop t in
          if negb (String.eqb filter EmptyString)
             && negb (contains (strToFilter row) filter)
          then insertRows filter rest table
          else insertRows filter rest (row :: table)
      end
  end.

(** [updateProposalList] sends its request and reads
    [g_governance.proposals] at once, without polling [isReady()]:
    [landed] tells whether the reply has filled the client by then. *)
Definition landing (landed : bool) (svc : Service) (rq : Request) (n : Node) : Node :=
  if landed
  then match svc rq with
       | Some r => set_governance (fill (req_type rq) r (g_governance n)) n
       | None => n
       end
  else n.

Definition updateProposalList (fLockAcquired landed : bool) (svc : Service)
    (g : Gui) : UpdateExit * Gui :=
  if negb fLockAcquired then (U_NoLock, g) else
  let u := widget g in
  let '(listUpdated, c1) :=
    match nTimeListUpdated u with
    | Some t => (t, clock g)
    | None => GetTime (clock g)
    end in
  let '(t, c2) := GetTime c1 in
  let nSecondsToWait :=
    if fFilterUpdated u
    then wrap64 (wrap64 (nTimeFilterUpdated u - t) + FILTER_COOLDOWN_SECONDS)
    else wrap64 (wrap64 (listUpdated - t) + UPDATE_SECONDS) in
  let label :=
    if fFilterUpdated u then LabelPleaseWait nSecondsToWait else countLabel u in
  if 0 <? nSecondsToWait
  then (U_Wait nSecondsToWait,
        {| clock := c2;
           widget := {| fFilterUpdated := fFilterUpdated u;
                        nTimeFilterUpdated := nTimeFilterUpdated u;
                        nTimeListUpdated := Some listUpdated;
                        strCurrentFilter := strCurrentFilter u;
                        countLabel := label; rows := rows u;
                        sortingEnabled := sortingEnabled u |};
           node := node g |})
  else
    let '(t', c3) := GetTime c2 in
    let rq := {| req_type := GET_PROPOSALS; req_json := EmptyString |} in
    let n1 := landing landed svc rq (SendRequests rq (node g)) in
    let '(table, finished) :=
      insertRows (strCurrentFilter u) (proposals (g_governance n1)) [] in
    (if finished then U_Done else U_Threw,
     {| clock := c3;
        widget := {| fFilterUpdated := false;
                     nTimeFilterUpdated := nTimeFilterUpdated u;
                     nTimeListUpdated := Some t';
                     strCurrentFilter := strCurrentFilter u;
                     countLabel := if finished then LabelRows (length table)
                                   else LabelUpdating;
                     rows := table;
                     sortingEnabled := finished |};
        node := n1 |}).

Definition on_filterLineEdit_textChanged (strFilterIn : string) (g : Gui) : Gui :=
  let u := widget g in
  let '(t, c) := GetTime (clock g) in
  {| clock := c;
     widget := {| fFilterUpdated := true;
                  nTimeFilterUpdated := t;
                  nTimeListUpdated := nTimeListUpdated u;
                  strCurrentFilter := strFilterIn;
                  countLabel := LabelPleaseWait FILTER_COOLDOWN_SECONDS;
                  rows := rows u;
                  sortingEnabled := sortingEnabled u |};
     node := node g |}.

(** [last_refresh_time = 0; g_governance.SendRequests(GET_PROPOSALS);
    while(!g_governance.isReady()){} updateProposalList();] *)
Definition on_refreshListButton_clicked (fLockAcquired landed : bool)
    (svc : Service) (g : Gui) : RefreshExit * Gui :=
  let rq := {| req_type := GET_PROPOSALS; req_json := EmptyString |} in
  let n1 := SendRequests rq (node g) in
  match awaitReady svc rq n1 with
  | None => (Rf_Spins, {| clock := clock g; widget := widget g; node := n1 |})
  | Some n2 =>
      let '(e, g') :=
        updateProposalList fLockAcquired landed svc
          {| clock := clock g; widget := widget g; node := n2 |} in
      (Rf_Updated e, g')
  end.

(** [selection] lists the names in column 0 of the selected rows.  The
    handler takes the first of them, whatever index it is called with. *)
Definition on_tableWidgetProposals_doubleClicked (selection : list string)
    (n : Node) : DialogExit :=
  match selection with
  | [] => D_NoSelection
  | name_ :: _ =>
      let selectedProp := lookupProposal name_ (proposals (g_governance n)) in
      match stoi (end_time selectedProp) with
      | None => D_Threw
      | Some t =>
          let expiration := DateTimeStrFormat t in
          D_Shown
            {| windowTitle := name_;
               dialogText :=
                 "Name: " +:+ name selectedProp +:+ nl +:+ nl
                 +:+ "Details: " +:+ details selectedProp +:+ nl +:+ nl
                 +:+ "Address: " +:+ address selectedProp +:+ nl +:+ nl
                 +:+ "Amount: " +:+ amount selectedProp +:+ nl +:+ nl
                 +:+ "TxID: " +:+ txid selectedProp +:+ nl +:+ nl
                 +:+ "Expiration: " +:+ expiration +:+ nl +:+ nl
                 +:+ "Votes Affirm: " +:+ votes_affirm selectedProp +:+ nl +:+ nl
                 +:+ "Votes Oppose: " +:+ votes_oppose selectedProp +:+ nl |}
      end
  end.

(** [for (const QModelIndex& index : selection)
    on_tableWidgetProposals_doubleClicked(index);] behind its guard
    ([ready]: the wallet model, its requests model and the selection model
    are all there).  A throw ends the loop. *)
Fixpoint expandEach (indices selection : list string) (n : Node) : list DialogExit :=
  match indices with
  | [] => []
  | _ :: rest =>
      match on_tableWidgetProposals_doubleClicked selection n with
      | D_Threw => [D_Threw]
      | e => e :: expandEach rest selection n
      end
  end.

Definition on_expandProposalButton_clicked (ready : bool)
    (selection : list string) (n : Node) : list DialogExit :=
  if negb ready then [] else expandEach selection selection n.

(** A session of the table: the events in turn, until one of them does
    not return.  The result lists the values [updateProposalList] gave
    [nTimeListUpdated] when it went on to request and redraw. *)
Fixpoint session (svc : Service) (evs : list UiEvent) (g : Gui) : list Z * Gui :=
  match evs with
  | [] => ([], g)
  | EvFilter s :: rest => session svc rest (on_filterLineEdit_textChanged s g)
  | EvUpdate l a :: rest =>
      let '(e, g') := updateProposalList l a svc g in
      match e with
      | U_Done =>
          let '(ts, g'') := session svc rest g' in
          (default 0 (nTimeListUpdated (widget g')) :: ts, g'')
      | U_Threw => ([default 0 (nTimeListUpdated (widget g'))], g')
      | _ => session svc rest g'
      end
  | EvRefresh l a :: rest =>
      let '(e, g') := on_refreshListButton_clicked l a svc g in
      match e with
      | Rf_Updated U_Done =>
          let '(ts, g'') := session svc rest g' in
          (default 0 (nTimeListUpdated (widget g')) :: ts, g'')
      | Rf_Updated U_Threw => ([default 0 (nTimeListUpdated (widget g'))], g')
      | Rf_Spins => ([], g')
      | _ => session svc rest g'
      end
  end.

(** Successive times at least [m] apart, the first at least [m] after
    [prev] when there is one. *)
Fixpoint spacedFrom (m : Z) (prev : option Z) (ts : list Z) : Prop :=
  match ts with
  | [] => True
  | t :: rest =>
      match prev with Some r => r + m <= t | None => True end
      /\ spacedFrom m (Some t) rest
  end.

(** [x] is a reading taken off the clock [rd] before [g]. *)
Definition readBefore (rd : nat -> Z) (g : Gui) (x : Z) : Prop :=
  exists k : nat, (k < reads (clock g))%nat /\ x = rd k.

(** What a session keeps true once the table was redrawn at [r]. *)
Definition sinceRedraw (rd : nat -> Z) (last : option Z) (g : Gui) : Prop :=
  reading (clock g) = rd
  /\ match last with
     | None => True
     | Some r =>
         nTimeListUpdated (widget g) = Some r
         /\ readBefore rd g r
         /\ (fFilterUpdated (widget g) = true ->
             r <= nTimeFilterUpdated (widget g)
             /\ readBefore rd g (nTimeFilterUpdated (widget g)))
     end.

(** The row [updateProposalList] shows for a proposal, if any. *)
Definition shownRow (filter : string) (prop : Proposals) : option Row :=
  match stoi (end_time prop) with
  | None => None
  | Some t =>
      let row := rowOf prop t in
      if String.eqb filter EmptyString || contains (strToFilter row) filter
      then Some row else None
  end.

End ProposalTable.

(** ** A table to run

    Sample values for the two intervals and a stand-in for the date
    format; a clock that advances by a fixed step at each of its first million
    readings; a
    widget as its constructor leaves it and a service that lists given
    proposals. *)
Module Scenario.

Import Sample.

#[export] Instance display : Display := {|
  FILTER_COOLDOWN_SECONDS := 3;
  UPDATE_SECONDS := 60;
  DateTimeStrFormat t := if t <? 86400 then "1970-01-01" else "later"
|}.

Definition clockEvery (step : Z) : Clock :=
  {| reading k := now + step * Z.min (Z.of_nat k) 1000000; reads := 0 |}.

Definition constructed : OffChainGovernance :=
  {| fFilterUpdated := false; nTimeFilterUpdated := now;
     nTimeListUpdated := None; strCurrentFilter := EmptyString;
     countLabel := LabelUnset; rows := []; sortingEnabled := true |}.

(** The widget [since] seconds after a redraw, the filter set to [f]. *)
Definition idle (since : Z) (f : string) : OffChainGovernance :=
  {| fFilterUpdated := false; nTimeFilterUpdated := now - 200;
     nTimeListUpdated := Some (now - since); strCurrentFilter := f;
     countLabel := LabelRows 0; rows := []; sortingEnabled := true |}.

Definition undated (n : string) : Proposals :=
  {| name := n; details := EmptyString; address := EmptyString;
     amount := "1"; txid := EmptyString; end_time := "soon";
     votes_affirm := "0"; votes_oppose := "0"; vote_id := "v9" |}.

Definition listed : list Proposals :=
  [prop "Fund" "v1"; prop "Park" "v2"; prop "Fund" "v3"].

Definition serviceListing (ps : list Proposals) : Service :=
  fun _ => Some {| r_statusOK := true; r_proposals := ps; r_votes := [] |}.

Definition holding (ps : list Proposals) : CGovernance :=
  {| proposals := ps; votes := []; statusOK := true |}.

Definition gui (step : Z) (u : OffChainGovernance) (ps : list Proposals) : Gui :=
  {| clock := clockEvery step; widget := u;
     node := nodeWith false wallet [] (holding ps) |}.

End Scenario.

(** ** The governance RPCs beside the cast *)

(** What [getvoteweight] reads beyond the members of [CWalletTx] the cast
    paths use, given by transaction id (the key of [mapWallet]), and of
    the chain and the script classes (validation.h, chainparams.h and
    script/script.h are not among the sources).  [GetProofOfStakeReward h]
    stands for [Params().GetProofOfStakeReward(chainActive[h], 0)]. *)
Class ChainView := {
  IsInMainChain : uint256 -> bool;
  fHeightCached : uint256 -> bool;
  nCachedHeight : uint256 -> Z;
  chainActive_Height : Z;
  GetProofOfStakeReward : Z -> Z;
  IsPayToWitnessKeyHash_CS : CScript -> bool;
  IsPayToWitnessKeyHash : CScript -> bool
}.

(** Modelled from the spec: [CWalletDB::EraseGovernanceEntry] (wallet
    database code, not among the sources).  The ledger holds one record
    per cast vote, keyed by vote identifier: erasing an entry removes the
    record under its identifier.  [refused] tells for which entries the
    database reports failure, leaving the ledger as it is. *)
Definition EraseGovernanceEntry (refused : CGovernanceEntry -> bool)
    (e : CGovernanceEntry) (db : GovernanceLedger) : bool * GovernanceLedger :=
  if refused e then (false, db)
  else (true, List.filter (fun x => negb (String.eqb (voteID x) (voteID e))) db).

Inductive UnlockNeeded :=
| PassphraseNeeded     (* l.90 *)
| StakingOnly.         (* l.94 *)

Inductive WeightExit :=
| W_Help                           (* l.6210 runtime_error *)
| W_Return (nVoteWeight : Z).      (* l.6257; the reply shows (double)nVoteWeight/COIN *)

Inductive EraseExit :=
| E_Help                           (* l.6265 runtime_error *)
| E_Locked (why : UnlockNeeded)    (* EnsureWalletIsUnlocked *)
| E_EraseFailed                    (* l.6281 *)
| E_Return (entries_erased : Z).   (* l.6288 *)

Inductive ProposalsExit :=
| P_Help                           (* l.6031 runtime_error *)
| P_Spins                          (* l.6035 never ends *)
| P_Error                          (* l.6039 *)
| P_Return (end_ : list (nat * Proposals)).  (* l.6048 *)

Section GovernanceRPC.

Context `{prim : Primitives} `{chain : ChainView}.

Definition EnsureWalletIsUnlocked (w : CWallet) : option UnlockNeeded :=
  if IsLocked w then Some PassphraseNeeded
  else if IsHDEnabled w && fUnlockForStakingOnly w then Some StakingOnly
  else None.

(** *** [getvoteweight] *)

(** The inner loop over [wtx.tx->vout], [height] being
    [wtx.fHeightCached ? wtx.nCachedHeight : chainActive.Height()].
    [CAmount] is [int64_t]. *)
Definition weighOutputs (w : CWallet) (height : Z) (outs : list CTxOut)
    (nVoteWeight : Z) : Z :=
  fold_left
    (fun acc vout =>
       if negb (IsMine w (scriptPubKey vout)) then acc
       else if IsPayToScriptHashAny (scriptPubKey vout) then acc
       else if IsPayToWitnessKeyHash_CS (scriptPubKey vout)
               || IsPayToWitnessKeyHash (scriptPubKey vout)
       then wrap64 (acc + GetProofOfStakeReward height)
       else wrap64 (acc + nValue vout))
    outs nVoteWeight.

(** [wtx.IsCoinStake() && wtx.IsInMainChain()
     && wtx.GetTxTime() >= start_time && wtx.GetTxTime() <= end_time] *)
Definition inWindow (start_time end_time : Z) (mapping : uint256 * CWalletTx)
  : bool :=
  IsCoinStake (snd mapping) && IsInMainChain (fst mapping)
  && (start_time <=? GetTxTime (snd mapping))
  && (GetTxTime (snd mapping) <=? end_time).

Definition weighWallet (w : CWallet) (start_time end_time : Z)
    (m : list (uint256 * CWalletTx)) (nVoteWeight : Z) : Z :=
  fold_left
    (fun acc mapping =>
       if negb (inWindow start_time end_time mapping) then acc
       else
         let height :=
           if fHeightCached (fst mapping) then nCachedHeight (fst mapping)
           else chainActive_Height in
         weighOutputs w height (vout (snd mapping)) acc)
    m nVoteWeight.

(** The two parameters are read with [get_int64()]: they are given here
    as the numbers they hold. *)
Definition getvoteweight (fHelp : bool) (params : list Z) (w : CWallet)
  : WeightExit :=
  match fHelp, params with
  | false, [start_time; end_time] =>
      W_Return (weighWallet w start_time end_time (mapWallet w) 0)
  | _, _ => W_Help
  end.

(** *** [erasegoventries] *)

(** [for(auto &entry: govEntries)
    { if(!walletdb.EraseGovernanceEntry(entry)) throw ...; i++; }],
    [i] an [int]. *)
Fixpoint eraseEach (refused : CGovernanceEntry -> bool)
    (govEntries : list CGovernanceEntry) (db : GovernanceLedger) (i : Z)
  : option Z * GovernanceLedger :=
  match govEntries with
  | [] => (Some i, db)
  | entry :: rest =>
      let '(ok, db') := EraseGovernanceEntry refused entry db in
      if negb ok then (None, db')
      else eraseEach refused rest db' (wrap32 (i + 1))
  end.

Definition erasegoventries (refused : CGovernanceEntry -> bool)
    (request : JSONRPCRequest) (n : Node) : EraseExit * Node :=
  if fHelp request || (0 <? Z.of_nat (length (params request)))
  then (E_Help, n) else
  match EnsureWalletIsUnlocked (pwallet n) with
  | Some why => (E_Locked why, n)
  | None =>
      let govEntries := ListGovernanceEntries (walletdb n) in
      let '(i, db') := eraseEach refused govEntries (walletdb n) 0 in
      (match i with Some i => E_Return i | None => E_EraseFailed end,
       set_walletdb db' n)
  end.

(** *** [getoffchainproposals] *)

(** [end.pushKV("Proposal " + std::to_string(i), proposals[i].toJSONString())],
    kept as the index and the proposal. *)
Fixpoint proposalsFrom (ps : list Proposals) (i : nat) : list (nat * Proposals) :=
  match ps with
  | [] => []
  | p :: rest => (i, p) :: proposalsFrom rest (S i)
  end.

Definition getoffchainproposals (request : JSONRPCRequest) (svc : Service)
    (n : Node) : ProposalsExit * Node :=
  if fHelp request || (0 <? Z.of_nat (length (params request)))
  then (P_Help, n) else
  let rq := {| req_type := GET_PROPOSALS; req_json := EmptyString |} in
  let n1 := SendRequests rq n in
  match awaitReady svc rq n1 with
  | None => (P_Spins, n1)
  | Some n2 =>
      if negb (statusOK (g_governance n2)) then (P_Error, n2)
      else (P_Return (proposalsFrom (proposals (g_governance n2)) 0), n2)
  end.

End GovernanceRPC.

(** ** Sums the weight stands for *)

Section Gains.

Context `{prim : Primitives} `{chain : ChainView}.

(** What one output adds to the weight. *)
Definition gainOfOutput (w : CWallet) (height : Z) (o : CTxOut) : Z :=
  if negb (IsMine w (scriptPubKey o)) then 0
  else if IsPayToScriptHashAny (scriptPubKey o) then 0
  else if IsPayToWitnessKeyHash_CS (scriptPubKey o)
          || IsPayToWitnessKeyHash (scriptPubKey o)
  then GetProofOfStakeReward height
  else nValue o.

(** What one transaction adds to the weight of a window. *)
Definition gainOfTx (w : CWallet) (start_time end_time : Z)
    (mapping : uint256 * CWalletTx) : Z :=
  if inWindow start_time end_time mapping
  then
    let height :=
      if fHeightCached (fst mapping) then nCachedHeight (fst mapping)
      else chainActive_Height in
    foldr Z.add 0 (map (gainOfOutput w height) (vout (snd mapping)))
  else 0.

Definition gainOfWallet (w : CWallet) (start_time end_time : Z) : Z :=
  foldr Z.add 0 (map (gainOfTx w start_time end_time) (mapWallet w)).

End Gains.

(** A chain to weigh the sample wallet on: transaction 1 is cached at
    height 100, transaction 2 is not in the main chain, and scripts that
    start with a zero byte are witness key hashes. *)
Module SampleChain.

#[export] Instance view : ChainView := {|
  IsInMainChain h := negb (h =? 2);
  fHeightCached h := h =? 1;
  nCachedHeight h := 100;
  chainActive_Height := 120;
  GetProofOfStakeReward h := if h <? 110 then 8 else 4;
  IsPayToWitnessKeyHash_CS s := false;
  IsPayToWitnessKeyHash s := match s with x00 :: _ => true | _ => false end
|}.

End SampleChain.

(** ** Which wallet a request is for *)

Definition WALLET_ENDPOINT_BASE : string := "/wallet/".

(** [s.substr(pos)] for [pos <= s.size()]. *)
Fixpoint substr_from (pos : nat) (s : string) : string :=
  match pos, s with
  | O, _ => s
  | S pos', String _ s' => substr_from pos' s'
  | S _, EmptyString => EmptyString
  end.

Inductive ResolveError :=
| RPC_WALLET_NOT_FOUND        (* l.58 *)
| RPC_METHOD_NOT_FOUND        (* l.80 *)
| RPC_WALLET_NOT_SPECIFIED.   (* l.83 *)

Section Resolve.

(** The loaded wallets [::vpwallets] with their names, and [urlDecode]
    (httpserver.h, not among the sources). *)
Context {Wallet : Type} (GetName : Wallet -> string) (urlDecode : string -> string).

(** [inr None] is the null pointer. *)
Definition GetWalletForJSONRPCRequest (URI : string) (fHelp : bool)
    (vpwallets : list Wallet) : ResolveError + option Wallet :=
  if String.eqb (substring 0 (String.length WALLET_ENDPOINT_BASE) URI)
       WALLET_ENDPOINT_BASE
  then
    let requestedWallet :=
      urlDecode (substr_from (String.length WALLET_ENDPOINT_BASE) URI) in
    match List.find (fun pwallet => String.eqb (GetName pwallet) requestedWallet)
            vpwallets with
    | Some pwallet => inr (Some pwallet)
    | None => inl RPC_WALLET_NOT_FOUND
    end
  else
    inr (if (length vpwallets =? 1)%nat
            || (fHelp && (0 <? length vpwallets)%nat)
         then head vpwallets else None).

Definition EnsureWalletIsAvailable (pwallet : option Wallet)
    (avoidException : bool) (vpwallets : list Wallet) : ResolveError + bool :=
  match pwallet with
  | Some _ => inr true
  | None =>
      if avoidException then inr false
      else match vpwallets with
           | [] => inl RPC_METHOD_NOT_FOUND
           | _ => inl RPC_WALLET_NOT_SPECIFIED
           end
  end.

(** How the wallet handlers open:
    [CWallet * const pwallet = GetWalletForJSONRPCRequest(request);
     if (!EnsureWalletIsAvailable(pwallet, request.fHelp)) return NullUniValue;]
    [inr None] is the return of [NullUniValue]. *)
Definition walletOfRequest (URI : string) (fHelp : bool)
    (vpwallets : list Wallet) : ResolveError + option Wallet :=
  match GetWalletForJSONRPCRequest URI fHelp vpwallets with
  | inl e => inl e
  | inr pwallet =>
      match EnsureWalletIsAvailable pwallet fHelp vpwallets with
      | inl e => inl e
      | inr false => inr None
      | inr true => inr pwallet
      end
  end.

End Resolve.

(** ** [lockunspent] and [listlockunspent] *)

Record COutPoint := { hash : uint256; n : Z }.

#[export] Instance COutPoint_eq_dec : EqDecision COutPoint.
Proof. solve_decision. Defined.

(** One element of the array of the second parameter, the types checked
    at l.3192: ["txid"] as its string, ["vout"] as what [get_int()] makes
    of it. *)
Record OutputParam := { o_txid : string; o_vout : Z }.

(** The set of locked coins of the wallet with its five operations, and
    what else the handler calls (wallet/wallet.cpp, utilstrencodings.h and
    uint256.h are not among the sources). *)
Class CoinLocks := {
  LockedCoins : Type;
  LockCoin : COutPoint -> LockedCoins -> LockedCoins;
  UnlockCoin : COutPoint -> LockedCoins -> LockedCoins;
  UnlockAllCoins : LockedCoins -> LockedCoins;
  IsLockedCoin : LockedCoins -> uint256 -> Z -> bool;
  ListLockedCoins : LockedCoins -> list COutPoint;
  IsSpent : uint256 -> Z -> bool;
  IsHex : string -> bool;
  uint256S : string -> uint256
}.

(** The operations behave as those of a set of outpoints. *)
Class CoinLocksSet `{CoinLocks} : Prop := {
  locked_LockCoin : forall o s h k,
    IsLockedCoin (LockCoin o s) h k
    = bool_decide (o = {| hash := h; n := k |}) || IsLockedCoin s h k;
  locked_UnlockCoin : forall o s h k,
    IsLockedCoin (UnlockCoin o s) h k
    = negb (bool_decide (o = {| hash := h; n := k |})) && IsLockedCoin s h k;
  locked_UnlockAllCoins : forall s h k,
    IsLockedCoin (UnlockAllCoins s) h k = false;
  locked_ListLockedCoins : forall s o,
    o ∈ ListLockedCoins s <-> IsLockedCoin s (hash o) (n o) = true
}.

Inductive LockError :=
| ExpectedHexTxid          (* l.3200 *)
| VoutMustBePositive       (* l.3205 *)
| UnknownTransaction       (* l.3212 *)
| VoutOutOfBounds          (* l.3218 *)
| ExpectedUnspentOutput    (* l.3222 *)
| ExpectedLockedOutput     (* l.3228 *)
| OutputAlreadyLocked.     (* l.3232 *)

Inductive LockExit :=
| L_Help                   (* l.3128 runtime_error *)
| L_Error (e : LockError)
| L_True.                  (* l.3177, l.3244 *)

Section LockUnspent.

Context `{prim : Primitives} `{locks : CoinLocks}.

(** [pwallet->mapWallet.find(outpt.hash)] *)
Definition mapWallet_find (h : uint256) (m : list (uint256 * CWalletTx))
  : option CWalletTx :=
  snd <$> List.find (fun mapping => fst mapping =? h) m.

(** The body of the first loop for one element: the outpoint, or the
    error thrown. *)
Definition checkOutput (w : CWallet) (s : LockedCoins) (fUnlock : bool)
    (o : OutputParam) : LockError + COutPoint :=
  if negb (IsHex (o_txid o)) then inl ExpectedHexTxid else
  let nOutput := o_vout o in
  if nOutput <? 0 then inl VoutMustBePositive else
  let outpt := {| hash := uint256S (o_txid o); n := nOutput |} in
  match mapWallet_find (hash outpt) (mapWallet w) with
  | None => inl UnknownTransaction
  | Some trans =>
      if Z.of_nat (length (vout trans)) <=? n outpt then inl VoutOutOfBounds else
      if IsSpent (hash outpt) (n outpt) then inl ExpectedUnspentOutput else
      let is_locked := IsLockedCoin s (hash outpt) (n outpt) in
      if fUnlock && negb is_locked then inl ExpectedLockedOutput else
      if negb fUnlock && is_locked then inl OutputAlreadyLocked else
      inr outpt
  end.

(** [for (idx ...) { ...; outputs.push_back(outpt); }] *)
Fixpoint checkOutputs (w : CWallet) (s : LockedCoins) (fUnlock : bool)
    (output_params : list OutputParam) (outputs : list COutPoint)
  : LockError + list COutPoint :=
  match output_params with
  | [] => inr outputs
  | o :: rest =>
      match checkOutput w s fUnlock o with
      | inl e => inl e
      | inr outpt => checkOutputs w s fUnlock rest (outputs ++ [outpt])
      end
  end.

(** [for (const COutPoint& outpt : outputs)
    { if (fUnlock) UnlockCoin(outpt); else LockCoin(outpt); }] *)
Definition setLockStatus (fUnlock : bool) (outputs : list COutPoint)
    (s : LockedCoins) : LockedCoins :=
  fold_left
    (fun s outpt => if fUnlock then UnlockCoin outpt s else LockCoin outpt s)
    outputs s.

(** A request with one or two parameters that pass the type checks of
    l.3170, l.3180 and l.3192: [fUnlock] is the first, [output_params]
    the second, [None] when it is absent or null. *)
Definition lockunspent (fHelp fUnlock : bool)
    (output_params : option (list OutputParam)) (w : CWallet)
    (s : LockedCoins) : LockExit * LockedCoins :=
  if fHelp then (L_Help, s) else
  match output_params with
  | None => (L_True, if fUnlock then UnlockAllCoins s else s)
  | Some output_params =>
      match checkOutputs w s fUnlock output_params [] with
      | inl e => (L_Error e, s)
      | inr outputs => (L_True, setLockStatus fUnlock outputs s)
      end
  end.

(** [listlockunspent], for a request that is not one for help: the
    transaction id (shown by the handler as [GetHex()]) and [(int)outpt.n]
    of every locked outpoint. *)
Definition listlockunspent (s : LockedCoins) : list (uint256 * Z) :=
  map (fun outpt => (hash outpt, wrap32 (n outpt))) (ListLockedCoins s).

(** The outpoint an element of the request stands for. *)
Definition outPointOf (o : OutputParam) : COutPoint :=
  {| hash := uint256S (o_txid o); n := o_vout o |}.

(** An element the first loop lets through. *)
Definition lockable (w : CWallet) (s : LockedCoins) (fUnlock : bool)
    (o : OutputParam) : Prop :=
  IsHex (o_txid o) = true
  /\ (exists trans,
        mapWallet_find (uint256S (o_txid o)) (mapWallet w) = Some trans
        /\ 0 <= o_vout o < Z.of_nat (length (vout trans)))
  /\ IsSpent (uint256S (o_txid o)) (o_vout o) = false
  /\ IsLockedCoin s (uint256S (o_txid o)) (o_vout o) = fUnlock.

End LockUnspent.

(** ** [getstakingaverage] *)

Inductive StakingExit :=
| S_Help                     (* l.5524 runtime_error *)
| S_Wait                     (* l.5530 *)
| S_DivisionByZero           (* l.5551, stakeVector empty *)
| S_Return (average_stake_amount : Z).

(** [averageStake += stakeVector[i]], an [int64_t]. *)
Definition sumStakes (stakeVector : list Z) : Z :=
  fold_left (fun averageStake v => wrap64 (averageStake + v)) stakeVector 0.

(** The heights [startHeight <= it < nHeight] in rising order. *)
Definition sampledHeights (nHeight : Z) : list Z :=
  let sample := if nHeight <? 500 then nHeight else 500 in
  let startHeight := wrap32 (nHeight - sample) in
  seqZ startHeight (nHeight - startHeight).

(** [nHeight] is [chainActive.Tip()->nHeight]; [readBlock it] is
    [block.vtx[0]->vout[0].nValue] of the block at height [it] when
    [ReadBlockFromDisk] succeeds on it; [COIN] is the constant of amount.h
    (not among the sources).  [averageStake/stakeVector.size()] divides an
    [int64_t] by a [size_t], so both the quotient and its division by
    [COIN] are unsigned. *)
Definition getstakingaverage (COIN : Z) (fHelp : bool) (nParams : nat)
    (fInitialBlockDownload : bool) (nHeight : Z) (readBlock : Z -> option Z)
  : StakingExit :=
  if fHelp || (0 <? nParams)%nat then S_Help else
  if fInitialBlockDownload then S_Wait else
  let stakeVector := omap readBlock (sampledHeights nHeight) in
  let averageStake := sumStakes stakeVector in
  match stakeVector with
  | [] => S_DivisionByZero
  | _ =>
      S_Return
        (((averageStake mod 2 ^ 64) / Z.of_nat (length stakeVector))
         / (COIN mod 2 ^ 64))
  end.

(** ** [walletpassphrase] and [walletlock] *)

(** [std::string::c_str()] read back as a string: the bytes before the
    first zero byte. *)
Fixpoint c_str (s : string) : string :=
  match s with
  | EmptyString => EmptyString
  | String c s' =>
      if Ascii.eqb c Ascii.zero then EmptyString else String c (c_str s')
  end.

Inductive PassphraseExit :=
| WP_Help                  (* l.2876 runtime_error *)
| WP_WrongEncState         (* l.2906 *)
| WP_NegativeTimeout       (* l.2920 *)
| WP_Incorrect             (* l.2930 *)
| WP_EmptyPassphrase       (* l.2934 runtime_error *)
| WP_Null.                 (* l.2963 *)

Inductive WalletLockExit :=
| WL_Help                  (* l.3026 runtime_error *)
| WL_WrongEncState         (* l.3048 *)
| WL_Null.                 (* l.3054 *)

Section Passphrase.

Context `{prim : Primitives}.

(** What the two handlers call on the wallet (wallet/wallet.cpp and
    wallet/crypter.cpp are not among the sources).  [Unlock] gives what it
    returns and the wallet it leaves. *)
Class KeyStore := {
  IsCrypted : CWallet -> bool;
  Unlock : string -> CWallet -> bool * CWallet;
  Lock : CWallet -> CWallet;
  TopUpKeyPool : CWallet -> CWallet
}.

(** What the handlers rely on: a passphrase that is accepted leaves the
    wallet unlocked, and neither [Unlock] nor [TopUpKeyPool] changes
    whether the wallet is an HD wallet or, for the latter, locked. *)
Class KeyStoreLaws `{KeyStore} : Prop := {
  Unlock_unlocks : forall p w w',
    Unlock p w = (true, w') ->
    IsLocked w' = false /\ IsHDEnabled w' = IsHDEnabled w;
  TopUpKeyPool_keeps : forall w,
    IsLocked (TopUpKeyPool w) = IsLocked w
    /\ IsHDEnabled (TopUpKeyPool w) = IsHDEnabled w
    /\ fUnlockForStakingOnly (TopUpKeyPool w) = fUnlockForStakingOnly w
}.

Context `{keys : KeyStore}.

(** The wallet with [nRelockTime] and the timer [lockwallet(<name>)] of
    the RPC server: [Some t] when [LockWallet] is due in [t] seconds. *)
Record WalletSession := {
  wallet_ : CWallet;
  nRelockTime : Z;
  lockTimer : option Z
}.

Definition set_fUnlockForStakingOnly (b : bool) (w : CWallet) : CWallet :=
  {| mapWallet := mapWallet w; IsMine := IsMine w;
     GetKeyForDestination := GetKeyForDestination w; GetKey := GetKey w;
     IsLocked := IsLocked w; IsHDEnabled := IsHDEnabled w;
     fUnlockForStakingOnly := b |}.

(** A request with two or three parameters of the right types:
    [passphrase], [timeout] as [get_int64()] reads it, and [stakingonly]
    when it is given.  [now] is what [GetTime()] returns. *)
Definition walletpassphrase (fHelp : bool) (passphrase : string) (timeout : Z)
    (stakingonly : option bool) (now : Z) (ws : WalletSession)
  : PassphraseExit * WalletSession :=
  if fHelp then (WP_Help, ws) else
  if negb (IsCrypted (wallet_ ws)) then (WP_WrongEncState, ws) else
  let strWalletPass := c_str passphrase in
  let nSleepTime := timeout in
  if nSleepTime <? 0 then (WP_NegativeTimeout, ws) else
  let nSleepTime := if 2 ^ 30 <? nSleepTime then 2 ^ 30 else nSleepTime in
  if (0 <? String.length strWalletPass)%nat
  then
    let '(ok, w1) := Unlock strWalletPass (wallet_ ws) in
    if negb ok
    then (WP_Incorrect,
          {| wallet_ := w1; nRelockTime := nRelockTime ws;
             lockTimer := lockTimer ws |})
    else
      let w2 := TopUpKeyPool w1 in
      let fWalletUnlockStakingOnly := default false stakingonly in
      let w3 :=
        if IsHDEnabled w2
        then set_fUnlockForStakingOnly fWalletUnlockStakingOnly w2 else w2 in
      if (0 <? nSleepTime) || negb fWalletUnlockStakingOnly
      then (WP_Null,
            {| wallet_ := w3; nRelockTime := wrap64 (now + nSleepTime);
               lockTimer := Some nSleepTime |})
      else (WP_Null, {| wallet_ := w3; nRelockTime := 0; lockTimer := None |})
  else (WP_EmptyPassphrase, ws).

Definition walletlock (fHelp : bool) (nParams : nat) (ws : WalletSession)
  : WalletLockExit * WalletSession :=
  if fHelp || negb (nParams =? 0)%nat then (WL_Help, ws) else
  if negb (IsCrypted (wallet_ ws)) then (WL_WrongEncState, ws) else
  (WL_Null,
   {| wallet_ := Lock (wallet_ ws); nRelockTime := 0;
      lockTimer := lockTimer ws |}).

End Passphrase.

(** ** Sample stores *)

Module SampleStores.

Import Sample.

#[export] Instance COutPoint_countable : Countable COutPoint :=
  inj_countable' (fun o => (hash o, n o))
    (fun p => {| hash := fst p; n := snd p |})
    (fun o => match o with Build_COutPoint _ _ => eq_refl end).

(** Locked coins as a finite set of outpoints; transaction ids are
    written as two digits. *)
#[export] Instance coins : CoinLocks := {|
  LockedCoins := gset COutPoint;
  LockCoin o s := {[ o ]} ∪ s;
  UnlockCoin o s := s ∖ {[ o ]};
  UnlockAllCoins _ := ∅;
  IsLockedCoin s h k := bool_decide ({| hash := h; n := k |} ∈ s);
  ListLockedCoins s := elements s;
  IsSpent h k := (h =? 2) && (k =? 0);
  IsHex s := negb (String.eqb s "xx");
  uint256S s :=
    if String.eqb s "01" then 1 else if String.eqb s "02" then 2 else 0
|}.

(** An encrypted wallet whose passphrase is [secret]. *)
#[export] Instance keys : KeyStore := {|
  IsCrypted _ := true;
  Unlock p w :=
    if String.eqb p "secret"
    then (true,
          {| mapWallet := mapWallet w; IsMine := IsMine w;
             GetKeyForDestination := GetKeyForDestination w;
             GetKey := GetKey w; IsLocked := false;
             IsHDEnabled := IsHDEnabled w;
             fUnlockForStakingOnly := fUnlockForStakingOnly w |})
    else (false, w);
  Lock w :=
    {| mapWallet := mapWallet w; IsMine := IsMine w;
       GetKeyForDestination := GetKeyForDestination w;
       GetKey := GetKey w; IsLocked := true;
       IsHDEnabled := IsHDEnabled w;
       fUnlockForStakingOnly := fUnlockForStakingOnly w |};
  TopUpKeyPool w := w
|}.

(** The sample wallet locked, as an HD wallet or not. *)
Definition lockedWallet (hd : bool) : CWallet :=
  {| mapWallet := txs; IsMine := IsMine wallet;
     GetKeyForDestination := keyOf; GetKey k := Some k;
     IsLocked := true; IsHDEnabled := hd; fUnlockForStakingOnly := false |}.

Definition atRest (hd : bool) : WalletSession :=
  {| wallet_ := lockedWallet hd; nRelockTime := 0; lockTimer := None |}.

End SampleStores.

(** * Properties *)

(** ** Integers and parsing *)

Lemma wrap64_small (x : Z) : - 2 ^ 63 <= x < 2 ^ 63 -> wrap64 x = x.
Proof.
  intros Hx. unfold wrap64, wrap.
  change (2 ^ (64 - 1)) with (2 ^ 63).
  rewrite Z.mod_small; lia.
Qed.

Lemma wrap64_range (x : Z) : - 2 ^ 63 <= wrap64 x < 2 ^ 63.
Proof.
  unfold wrap64, wrap. change (2 ^ (64 - 1)) with (2 ^ 63).
  pose proof (Z.mod_pos_bound (x + 2 ^ 63) (2 ^ 64) ltac:(lia)). lia.
Qed.

Lemma wrap64_add_l (a b : Z) : wrap64 (wrap64 a + b) = wrap64 (a + b).
Proof.
  unfold wrap64, wrap. change (2 ^ (64 - 1)) with (2 ^ 63). f_equal.
  replace ((a + 2 ^ 63) mod 2 ^ 64 - 2 ^ 63 + b + 2 ^ 63)
    with ((a + 2 ^ 63) mod 2 ^ 64 + b) by lia.
  rewrite Zplus_mod_idemp_l. f_equal. lia.
Qed.

Lemma wrap64_add_r (a b : Z) : wrap64 (a + wrap64 b) = wrap64 (a + b).
Proof. rewrite (Z.add_comm a), wrap64_add_l. f_equal. lia. Qed.

Lemma stoi_range (s : string) (v : Z) :
  stoi s = Some v -> INT_MIN <= v <= INT_MAX.
Proof.
  unfold stoi. destruct (read_sign (skip_spaces s)) as [neg digits].
  destruct (read_digits digits None) as [d|]; [|discriminate].
  destruct (_ && _) eqn:Hr; [|discriminate].
  intros [= <-]. apply andb_prop in Hr as [? ?]. lia.
Qed.

(** ** VoteWeightAggregator *)









(** The example of the spec: records [p1:10], [p1:5] and [p2:100]
    tally to 15 for [p1]. *)
Example tally_of_the_example :
  sumMatching "p1" Sample.records = Some 15
  /\ tally "p1" Sample.records = Some 15.
Proof. split; reflexivity. Qed.


(** ** GovernanceLedger *)

Lemma EntryExists_elem (id : string) (db : GovernanceLedger) :
  EntryExists id db = true <-> exists e, e ∈ db /\ voteID e = id.
Proof.
  unfold EntryExists. rewrite existsb_exists. split.
  - intros (e & Hin & Heq). exists e. split; [by apply list_elem_of_In|].
    symmetry. by apply String.eqb_eq.
  - intros (e & Hin & <-). exists e. split; [by apply list_elem_of_In|].
    apply String.eqb_refl.
Qed.

Lemma findVoted_Some (id : string) (db : GovernanceLedger) (e : CGovernanceEntry) :
  findVoted id db = Some e -> e ∈ db /\ voteID e = id.
Proof.
  intros Hf. apply find_some in Hf as [Hin Heq]. split.
  - by apply list_elem_of_In.
  - symmetry. by apply String.eqb_eq.
Qed.

Lemma findVoted_EntryExists (id : string) (db : GovernanceLedger) :
  EntryExists id db = true -> exists e, findVoted id db = Some e.
Proof.
  unfold EntryExists, findVoted. induction db as [|e db IH]; [discriminate|].
  cbn. destruct (String.eqb id (voteID e)); eauto.
Qed.

Lemma findVoted_None (id : string) (db : GovernanceLedger) :
  findVoted id db = None -> EntryExists id db = false.
Proof.
  intros Hf. destruct (EntryExists id db) eqn:Hex; [|reflexivity].
  apply findVoted_EntryExists in Hex as [e He]. congruence.
Qed.

Lemma write_fresh (e : CGovernanceEntry) (db : GovernanceLedger) :
  EntryExists (voteID e) db = false -> write_ignoring_result e db = db ++ [e].
Proof.
  intros Hex. unfold write_ignoring_result, WriteGovernanceEntry.
  by rewrite Hex.
Qed.

(** C3.  Writing an entry whose vote identifier is already in the
    ledger at the moment of the write is rejected with
    [DuplicateVoteError], whatever an earlier existence check by the caller
    had answered. *)
Theorem write_rejects_duplicate (e : CGovernanceEntry) (db0 db : GovernanceLedger) :
  EntryExists (voteID e) db0 = false ->
  EntryExists (voteID e) db = true ->
  WriteGovernanceEntry e db = inl DuplicateVoteError.
Proof.
  intros _ Hnow. unfold WriteGovernanceEntry. by rewrite Hnow.
Qed.

Lemma write_rejects_duplicate_witness :
  WriteGovernanceEntry {| voteID := "p1"; voteWeight := 7 |}
    [ {| voteID := "p1"; voteWeight := 15 |} ] = inl DuplicateVoteError.
Proof.
  apply (write_rejects_duplicate _ []); reflexivity.
Defined.

(** The race itself: the caller checks, another writer gets in first,
    and the caller's own write is turned down. *)
Corollary racing_write_rejected (e e' : CGovernanceEntry) (db0 db1 : GovernanceLedger) :
  voteID e' = voteID e ->
  EntryExists (voteID e) db0 = false ->
  WriteGovernanceEntry e' db0 = inr db1 ->
  WriteGovernanceEntry e db1 = inl DuplicateVoteError.
Proof.
  intros Hid Hchk Hw. unfold WriteGovernanceEntry in Hw |- *.
  rewrite Hid, Hchk in Hw. injection Hw as <-.
  assert (EntryExists (voteID e) (db0 ++ [e']) = true) as ->; [|reflexivity].
  apply EntryExists_elem. exists e'. split; [|done].
  apply elem_of_app. right. by apply list_elem_of_singleton.
Qed.

Section Facts.

Context `{prim : Primitives}.

(** ** StakeAddressCollector *)

Lemma collectOutputs_elem (w : CWallet) (outs : list CTxOut) :
  forall (acc : list CScript) (s : CScript),
    s ∈ collectOutputs w acc outs <->
    s ∈ acc \/ exists o, o ∈ outs /\ eligibleOutput w s o.
Proof.
  unfold collectOutputs, eligibleOutput.
  induction outs as [|o outs IH]; intros acc s; cbn [fold_left].
  - split; [auto|]. intros [?|(o & Ho & _)]; [done|]. by apply elem_of_nil in Ho.
  - rewrite IH. clear IH. setoid_rewrite elem_of_cons.
    destruct (IsMine w (scriptPubKey o)) eqn:Hmine; cbn [negb];
      [|naive_solver congruence].
    destruct (IsPayToScriptHashAny (scriptPubKey o)) eqn:Hp2sh;
      [naive_solver congruence|].
    case_bool_decide as Hdup; [naive_solver|].
    rewrite elem_of_app, list_elem_of_singleton. naive_solver.
Qed.

Lemma collectOutputs_NoDup (w : CWallet) (outs : list CTxOut) :
  forall acc : list CScript, NoDup acc -> NoDup (collectOutputs w acc outs).
Proof.
  unfold collectOutputs.
  induction outs as [|o outs IH]; intros acc Hnd; cbn [fold_left]; [done|].
  apply IH.
  destruct (negb _); [done|]. destruct (IsPayToScriptHashAny _); [done|].
  case_bool_decide as Hdup; [done|].
  apply NoDup_app. split_and!; [done| |apply NoDup_singleton].
  intros x Hx Hx'. apply list_elem_of_singleton in Hx'. by subst x.
Qed.

Lemma collectFrom_elem (w : CWallet) (skip : CWalletTx -> bool)
    (m : list (uint256 * CWalletTx)) :
  forall (acc : list CScript) (s : CScript),
    s ∈ fold_left
          (fun acc mapping =>
             if skip (snd mapping) then acc
             else collectOutputs w acc (vout (snd mapping))) m acc <->
    s ∈ acc \/
    exists mapping o, mapping ∈ m /\ skip (snd mapping) = false /\
      o ∈ vout (snd mapping) /\ eligibleOutput w s o.
Proof.
  induction m as [|mp m IH]; intros acc s; cbn [fold_left].
  - split; [auto|]. intros [?|(mp & o & Hmp & _)]; [done|].
    by apply elem_of_nil in Hmp.
  - rewrite IH. clear IH. setoid_rewrite elem_of_cons.
    destruct (skip (snd mp)) eqn:Hskip; [naive_solver congruence|].
    rewrite collectOutputs_elem. naive_solver.
Qed.

(** What either collector returns, for the test [skip] it was run with:
    the scripts of the owned, non-script-hash outputs of the transactions
    that pass the test. *)
Lemma collectVotingAddresses_elem (w : CWallet) (skip : CWalletTx -> bool)
    (s : CScript) :
  s ∈ collectVotingAddresses w skip <->
  exists mapping o, mapping ∈ mapWallet w /\ skip (snd mapping) = false /\
    o ∈ vout (snd mapping) /\ eligibleOutput w s o.
Proof.
  unfold collectVotingAddresses. rewrite collectFrom_elem.
  split; [|auto]. intros [Hs|?]; [|done]. by apply elem_of_nil in Hs.
Qed.

Lemma collectVotingAddresses_NoDup (w : CWallet) (skip : CWalletTx -> bool) :
  NoDup (collectVotingAddresses w skip).
Proof.
  unfold collectVotingAddresses.
  generalize (NoDup_nil_2 (A := CScript)). generalize (@nil CScript).
  induction (mapWallet w) as [|mp m IH]; intros acc Hnd; cbn [fold_left]; [done|].
  apply IH. destruct (skip (snd mp)); [done|].
  by apply collectOutputs_NoDup.
Qed.


(** ** The exchange with the service *)

Lemma awaitReady_Some (svc : Service) (rq : Request) (n n' : Node) :
  awaitReady svc rq n = Some n' ->
  exists r, svc rq = Some r
    /\ n' = set_governance (fill (req_type rq) r (g_governance n)) n.
Proof.
  unfold awaitReady. destruct (svc rq) as [r|]; [|discriminate].
  intros [= <-]. eauto.
Qed.

Lemma storeVote_other (vote_id : string) (w : Z) (n : Node) :
  fInitialBlockDownload (storeVote vote_id w n) = fInitialBlockDownload n
  /\ pwallet (storeVote vote_id w n) = pwallet n
  /\ g_governance (storeVote vote_id w n) = g_governance n
  /\ wire (storeVote vote_id w n) = wire n.
Proof. unfold storeVote. by destruct (negb (w =? 0)). Qed.

Lemma storeVote_walletdb (vote_id : string) (w : Z) (n : Node) :
  w <> 0 -> findVoted vote_id (walletdb n) = None ->
  walletdb (storeVote vote_id w n)
  = walletdb n ++ [{| voteID := vote_id; voteWeight := w |}].
Proof.
  intros Hw Hnone. unfold storeVote.
  destruct (Z.eqb_spec w 0) as [?|_]; [done|]. cbn.
  rewrite write_fresh; [done|]. by apply findVoted_None.
Qed.

Lemma findVoted_app_new (vote_id : string) (w : Z) (db : GovernanceLedger) :
  findVoted vote_id db = None ->
  findVoted vote_id (db ++ [{| voteID := vote_id; voteWeight := w |}])
  = Some {| voteID := vote_id; voteWeight := w |}.
Proof.
  unfold findVoted. induction db as [|e db IH]; cbn.
  - by rewrite String.eqb_refl.
  - destruct (String.eqb vote_id (voteID e)); [discriminate|]. exact IH.
Qed.

(** Unfold a cast path in a hypothesis and split on every test it makes. *)
Ltac path_cases Hcall :=
  unfold vote, postoffchainproposals, ListGovernanceEntries in Hcall;
  repeat (case_match; simplify_eq/=);
  repeat match goal with
         | Hr : awaitReady _ _ _ = Some _ |- _ =>
             apply awaitReady_Some in Hr as (? & ? & ->)
         end;
  cbn [walletdb wire pwallet g_governance fInitialBlockDownload
       set_governance set_walletdb SendRequests req_type] in *.

(** What a call that reached its end went through. *)
Lemma rpc_return_inv (request : JSONRPCRequest) (vote_id decision : string)
    (current_time : Z) (svc : Service) (n n1 : Node)
    (end_ : list (nat * Votes)) :
  params request = [vote_id; decision] ->
  postoffchainproposals request current_time svc n = (R_Return end_, n1) ->
  exists (postMessage : string) (r : Reply) (w : Z),
    let rq := {| req_type := CAST_VOTE; req_json := postMessage +:+ "]" |} in
    (fHelp request = false /\ IsLocked (pwallet n) = false
     /\ IsHDEnabled (pwallet n) && fUnlockForStakingOnly (pwallet n) = false)
    /\ findVoted vote_id (walletdb n) = None
    /\ signBallots (pwallet n) vote_id decision
         (collectVotingAddresses (pwallet n) (skip_rpc current_time)) 0 "["
       = inr postMessage
    /\ svc rq = Some r /\ r_statusOK r = true
    /\ tally vote_id (r_votes r) = Some w
    /\ end_ = matchingVotes vote_id (r_votes r)
    /\ n1 = storeVote vote_id w
              (set_governance (fill CAST_VOTE r (g_governance n))
                 (SendRequests rq n)).
Proof.
  intros Hpar Hcall. path_cases Hcall.
  eexists _, _, _. cbn zeta. split_and!; try done.
  by apply negb_false_iff.
Qed.

Lemma gui_success_inv (ui : GuiInput) (name_ decision : string)
    (svc : Service) (n n1 : Node) (w : Z) :
  selectedRow ui = Some name_ ->
  vote ui decision svc n = (G_Success w, n1) ->
  let vote_id := vote_id (lookupProposal name_ (proposals (g_governance n))) in
  exists (postMessage : string) (r r' : Reply),
    let rq := {| req_type := CAST_VOTE; req_json := postMessage +:+ "]" |} in
    let rq' := {| req_type := GET_PROPOSALS; req_json := EmptyString |} in
    (fInitialBlockDownload n = false /\ unlockGranted ui = true
     /\ confirmed ui = true)
    /\ findVoted vote_id (walletdb n) = None
    /\ signBallots (pwallet n) vote_id decision
         (collectVotingAddresses (pwallet n) skip_gui) 0 "["
       = inr postMessage
    /\ svc rq = Some r /\ r_statusOK r = true
    /\ tally vote_id (r_votes r) = Some w
    /\ svc rq' = Some r'
    /\ n1 = let n3 := storeVote vote_id w
                        (set_governance (fill CAST_VOTE r (g_governance n))
                           (SendRequests rq n)) in
            set_governance (fill GET_PROPOSALS r' (g_governance n3))
              (SendRequests rq' n3).
Proof.
  intros Hsel Hcall vid. path_cases Hcall.
  eexists _, _, _. cbn zeta. split_and!; try done.
  all: by apply negb_false_iff.
Qed.

(** ** Repeat voting *)

Lemma rpc_already_voted (request : JSONRPCRequest) (vote_id decision : string)
    (current_time : Z) (svc : Service) (n : Node) :
  fHelp request = false ->
  params request = [vote_id; decision] ->
  IsLocked (pwallet n) = false ->
  IsHDEnabled (pwallet n) && fUnlockForStakingOnly (pwallet n) = false ->
  EntryExists vote_id (walletdb n) = true ->
  exists entry, entry ∈ walletdb n /\ voteID entry = vote_id
    /\ postoffchainproposals request current_time svc n
       = (R_AlreadyVoted (voteWeight entry), n).
Proof.
  intros Hhelp Hpar Hlock Hstake Hex.
  destruct (findVoted_EntryExists _ _ Hex) as [entry He].
  destruct (findVoted_Some _ _ _ He) as [Hin Hid].
  exists entry. split_and!; [done..|].
  unfold postoffchainproposals, ListGovernanceEntries.
  by rewrite Hhelp, Hpar, Hlock, Hstake, He.
Qed.

Lemma gui_already_voted (ui : GuiInput) (name_ decision : string)
    (svc : Service) (n : Node) :
  selectedRow ui = Some name_ ->
  fInitialBlockDownload n = false ->
  unlockGranted ui = true ->
  let vote_id := vote_id (lookupProposal name_ (proposals (g_governance n))) in
  EntryExists vote_id (walletdb n) = true ->
  exists entry, entry ∈ walletdb n /\ voteID entry = vote_id
    /\ vote ui decision svc n = (G_AlreadyVoted (voteWeight entry), n).
Proof.
  intros Hsel Hibd Hunlock vid Hex.
  destruct (findVoted_EntryExists _ _ Hex) as [entry He].
  destruct (findVoted_Some _ _ _ He) as [Hin Hid].
  exists entry. split_and!; [done..|].
  unfold vote, ListGovernanceEntries.
  rewrite Hsel, Hibd, Hunlock. cbn [negb]. fold vid. by rewrite He.
Qed.

Lemma rpc_second_cast (request : JSONRPCRequest) (vote_id decision : string)
    (current_time : Z) (svc : Service) (n n1 : Node)
    (end_ : list (nat * Votes)) (w : Z) :
  params request = [vote_id; decision] ->
  postoffchainproposals request current_time svc n = (R_Return end_, n1) ->
  tally vote_id (votes (g_governance n1)) = Some w ->
  w <> 0 ->
  forall (decision' : string) (current_time' : Z) (svc' : Service),
    postoffchainproposals {| fHelp := false; params := [vote_id; decision'] |}
      current_time' svc' n1
    = (R_AlreadyVoted w, n1).
Proof.
  intros Hpar Hcall Htally Hw decision' t' svc'.
  destruct (rpc_return_inv _ _ _ _ _ _ _ _ Hpar Hcall)
    as (pm & r & w' & (Hhelp & Hlock & Hstake) & Hnone & _ & _ & _ & Hw' & _ & Hn1).
  cbn zeta in Hn1.
  destruct (storeVote_other vote_id w'
              (set_governance (fill CAST_VOTE r (g_governance n))
                 (SendRequests {| req_type := CAST_VOTE; req_json := pm +:+ "]" |} n)))
    as (_ & Hwal & Hgov & _).
  rewrite <- Hn1 in Hwal, Hgov.
  cbn [pwallet g_governance set_governance SendRequests] in Hwal, Hgov.
  rewrite Hgov in Htally. cbn [votes fill] in Htally.
  assert (w' = w) as -> by congruence.
  pose proof (storeVote_walletdb vote_id w _ Hw
                (Hnone : findVoted vote_id (walletdb
                   (set_governance (fill CAST_VOTE r (g_governance n))
                      (SendRequests
                         {| req_type := CAST_VOTE; req_json := pm +:+ "]" |} n)))
                   = None)) as Hdb.
  rewrite <- Hn1 in Hdb. cbn [walletdb set_governance SendRequests] in Hdb.
  unfold postoffchainproposals, ListGovernanceEntries. cbn [fHelp params].
  by rewrite Hwal, Hlock, Hstake, Hdb, (findVoted_app_new _ _ _ Hnone).
Qed.

Lemma gui_second_cast (ui : GuiInput) (name_ decision : string)
    (svc : Service) (n n1 : Node) (w : Z) :
  selectedRow ui = Some name_ ->
  vote ui decision svc n = (G_Success w, n1) ->
  w <> 0 ->
  forall (ui' : GuiInput) (name' decision' : string) (svc' : Service),
    selectedRow ui' = Some name' ->
    unlockGranted ui' = true ->
    vote_id (lookupProposal name' (proposals (g_governance n1)))
    = vote_id (lookupProposal name_ (proposals (g_governance n))) ->
    vote ui' decision' svc' n1 = (G_AlreadyVoted w, n1).
Proof.
  intros Hsel Hcall Hw ui' name' decision' svc' Hsel' Hunlock' Hsame.
  destruct (gui_success_inv _ _ _ _ _ _ _ Hsel Hcall)
    as (pm & r & r' & (Hibd & _ & _) & Hnone & _ & _ & _ & _ & _ & Hn1).
  cbn zeta in Hn1.
  set (vid := vote_id (lookupProposal name_ (proposals (g_governance n)))) in *.
  set (n2 := set_governance (fill CAST_VOTE r (g_governance n))
               (SendRequests {| req_type := CAST_VOTE; req_json := pm +:+ "]" |} n))
    in *.
  destruct (storeVote_other vid w n2) as (Hibd3 & _ & _ & _).
  pose proof (storeVote_walletdb vid w n2 Hw Hnone) as Hdb.
  unfold vote, ListGovernanceEntries. rewrite Hsel', Hunlock', Hsame.
  fold vid. subst n1. cbn [fInitialBlockDownload walletdb set_governance SendRequests].
  rewrite Hibd3, Hdb. cbn [fInitialBlockDownload n2 set_governance SendRequests walletdb].
  rewrite Hibd. cbn [negb].
  by rewrite (findVoted_app_new _ _ _ Hnone).
Qed.

(** C1.  On either path, a cast that gets as far as the ledger
    check and finds an entry for its vote identifier stops there: it
    reports that the wallet has voted already, with the weight recorded in
    that entry, and leaves the node as it was, so that nothing is sent.  A
    cast that follows one which completed with a nonzero counted weight on
    the same identifier is such a cast, and reports that weight. *)
Theorem repeat_vote_rejected :
  (forall (request : JSONRPCRequest) (vote_id decision : string)
      (current_time : Z) (svc : Service) (n : Node),
      fHelp request = false ->
      params request = [vote_id; decision] ->
      IsLocked (pwallet n) = false ->
      IsHDEnabled (pwallet n) && fUnlockForStakingOnly (pwallet n) = false ->
      EntryExists vote_id (walletdb n) = true ->
      exists entry, entry ∈ walletdb n /\ voteID entry = vote_id
        /\ postoffchainproposals request current_time svc n
           = (R_AlreadyVoted (voteWeight entry), n))
  /\ (forall (ui : GuiInput) (name_ decision : string) (svc : Service) (n : Node),
      selectedRow ui = Some name_ ->
      fInitialBlockDownload n = false ->
      unlockGranted ui = true ->
      EntryExists (vote_id (lookupProposal name_ (proposals (g_governance n))))
        (walletdb n) = true ->
      exists entry, entry ∈ walletdb n
        /\ voteID entry = vote_id (lookupProposal name_ (proposals (g_governance n)))
        /\ vote ui decision svc n = (G_AlreadyVoted (voteWeight entry), n))
  /\ (forall (request : JSONRPCRequest) (vote_id decision : string)
      (current_time : Z) (svc : Service) (n n1 : Node)
      (end_ : list (nat * Votes)) (w : Z),
      params request = [vote_id; decision] ->
      postoffchainproposals request current_time svc n = (R_Return end_, n1) ->
      tally vote_id (votes (g_governance n1)) = Some w ->
      w <> 0 ->
      forall (decision' : string) (current_time' : Z) (svc' : Service),
        postoffchainproposals
          {| fHelp := false; params := [vote_id; decision'] |}
          current_time' svc' n1
        = (R_AlreadyVoted w, n1))
  /\ (forall (ui : GuiInput) (name_ decision : string) (svc : Service)
      (n n1 : Node) (w : Z),
      selectedRow ui = Some name_ ->
      vote ui decision svc n = (G_Success w, n1) ->
      w <> 0 ->
      forall (ui' : GuiInput) (name' decision' : string) (svc' : Service),
        selectedRow ui' = Some name' ->
        unlockGranted ui' = true ->
        vote_id (lookupProposal name' (proposals (g_governance n1)))
        = vote_id (lookupProposal name_ (proposals (g_governance n))) ->
        vote ui' decision' svc' n1 = (G_AlreadyVoted w, n1)).
Proof.
  split_and!.
  - apply rpc_already_voted.
  - apply gui_already_voted.
  - apply rpc_second_cast.
  - apply gui_second_cast.
Qed.

(** ** What reaches the ledger *)

Lemma storeVote_zero (vote_id : string) (n : Node) : storeVote vote_id 0 n = n.
Proof. reflexivity. Qed.

Lemma rpc_ledger_effect (request : JSONRPCRequest) (current_time : Z)
    (svc : Service) (n n' : Node) (e : RpcExit) :
  postoffchainproposals request current_time svc n = (e, n') ->
  walletdb n' = walletdb n
  \/ exists (vote_id decision postMessage : string) (r : Reply) (w : Z),
       params request = [vote_id; decision]
       /\ findVoted vote_id (walletdb n) = None
       /\ svc {| req_type := CAST_VOTE; req_json := postMessage +:+ "]" |} = Some r
       /\ r_statusOK r = true
       /\ tally vote_id (r_votes r) = Some w /\ w <> 0
       /\ walletdb n' = walletdb n ++ [{| voteID := vote_id; voteWeight := w |}].
Proof.
  intros Hcall. path_cases Hcall; try by left.
  match goal with Ht : tally _ _ = Some ?z |- _ => destruct (decide (z = 0)) as [->|Hz] end.
  - left. by rewrite storeVote_zero.
  - right. eexists _, _, _, _, _. split_and!; try done.
    + by apply negb_false_iff.
    + by rewrite storeVote_walletdb.
Qed.

Lemma gui_ledger_effect (ui : GuiInput) (decision : string)
    (svc : Service) (n n' : Node) (e : GuiExit) :
  vote ui decision svc n = (e, n') ->
  walletdb n' = walletdb n
  \/ exists (name_ postMessage : string) (r : Reply) (w : Z),
       selectedRow ui = Some name_
       /\ findVoted (vote_id (lookupProposal name_ (proposals (g_governance n))))
            (walletdb n) = None
       /\ svc {| req_type := CAST_VOTE; req_json := postMessage +:+ "]" |} = Some r
       /\ r_statusOK r = true
       /\ tally (vote_id (lookupProposal name_ (proposals (g_governance n))))
            (r_votes r) = Some w /\ w <> 0
       /\ walletdb n' = walletdb n
            ++ [{| voteID := vote_id (lookupProposal name_ (proposals (g_governance n)));
                   voteWeight := w |}].
Proof.
  intros Hcall. path_cases Hcall; try by left.
  all: match goal with Ht : tally _ _ = Some ?z |- _ =>
         destruct (decide (z = 0)) as [->|Hz] end;
    [left; by rewrite storeVote_zero|].
  all: right; eexists _, _, _, _; split_and!; try done;
    [by apply negb_false_iff | by rewrite storeVote_walletdb].
Qed.

Lemma rpc_not_already_voted (vote_id decision : string) (current_time : Z)
    (svc : Service) (n : Node) (w : Z) :
  findVoted vote_id (walletdb n) = None ->
  fst (postoffchainproposals {| fHelp := false; params := [vote_id; decision] |}
         current_time svc n) <> R_AlreadyVoted w.
Proof.
  intros Hnone.
  destruct (postoffchainproposals _ _ _ _) as [e n'] eqn:Hcall.
  path_cases Hcall; congruence.
Qed.

Lemma gui_not_already_voted (ui : GuiInput) (name_ decision : string)
    (svc : Service) (n : Node) (w : Z) :
  selectedRow ui = Some name_ ->
  findVoted (vote_id (lookupProposal name_ (proposals (g_governance n))))
    (walletdb n) = None ->
  fst (vote ui decision svc n) <> G_AlreadyVoted w.
Proof.
  intros Hsel Hnone.
  destruct (vote _ _ _ _) as [e n'] eqn:Hcall.
  path_cases Hcall; congruence.
Qed.

(** Every entry a wallet ever holds has a nonzero weight, and no two
    entries share a vote identifier. *)
Lemma reachable_ledger (n : Node) :
  reachable n ->
  Forall (fun x => voteWeight x <> 0) (walletdb n)
  /\ NoDup (map voteID (walletdb n)).
Proof.
  induction 1 as [n Hn|n request t svc _ [IHw IHu]|n ui d svc _ [IHw IHu]|n _ _].
  - rewrite Hn. split; constructor.
  - destruct (postoffchainproposals request t svc n) as [e n'] eqn:Hcall.
    cbn [snd].
    destruct (rpc_ledger_effect _ _ _ _ _ _ Hcall)
      as [->|(v & d & pm & r & w & _ & Hnone & _ & _ & _ & Hw & ->)]; [done|].
    split.
    + apply Forall_app. split; [done|]. by apply Forall_singleton.
    + rewrite map_app. apply NoDup_app. split_and!; [done| |apply NoDup_singleton].
      intros x Hx Hx'. apply list_elem_of_singleton in Hx'. cbn in Hx'. subst x.
      apply list_elem_of_fmap in Hx as (y & Hy & Hin).
      apply findVoted_None in Hnone.
      assert (EntryExists v (walletdb n) = true); [|congruence].
      apply EntryExists_elem. eauto.
  - destruct (vote ui d svc n) as [e n'] eqn:Hcall. cbn [snd].
    destruct (gui_ledger_effect _ _ _ _ _ _ Hcall)
      as [->|(nm & pm & r & w & _ & Hnone & _ & _ & _ & Hw & ->)]; [done|].
    set (v := vote_id (lookupProposal nm (proposals (g_governance n)))) in *.
    split.
    + apply Forall_app. split; [done|]. by apply Forall_singleton.
    + rewrite map_app. apply NoDup_app. split_and!; [done| |apply NoDup_singleton].
      intros x Hx Hx'. apply list_elem_of_singleton in Hx'. cbn in Hx'. subst x.
      apply list_elem_of_fmap in Hx as (y & Hy & Hin).
      apply findVoted_None in Hnone.
      assert (EntryExists v (walletdb n) = true); [|congruence].
      apply EntryExists_elem. eauto.
  - cbn. split; constructor.
Qed.

(** C2.  On either path the ledger changes only by one appended
    entry, and only if the service answered the [CAST_VOTE] request with
    status OK and the tally of the matching records is not zero; entries
    with weight zero are therefore never added, and no wallet that started
    with an empty ledger ever holds one.  A cast that completes with
    a tally of zero leaves the ledger as it was, and a later cast on the
    same vote identifier is not turned down as a repeat. *)
Theorem ledger_written_only_on_counted_success :
  (forall (request : JSONRPCRequest) (current_time : Z) (svc : Service)
      (n n' : Node) (e : RpcExit),
      postoffchainproposals request current_time svc n = (e, n') ->
      (walletdb n' = walletdb n
       \/ exists (vote_id decision postMessage : string) (r : Reply) (w : Z),
            params request = [vote_id; decision]
            /\ findVoted vote_id (walletdb n) = None
            /\ svc {| req_type := CAST_VOTE; req_json := postMessage +:+ "]" |}
               = Some r
            /\ r_statusOK r = true
            /\ tally vote_id (r_votes r) = Some w /\ w <> 0
            /\ walletdb n' = walletdb n
                 ++ [{| voteID := vote_id; voteWeight := w |}])
      /\ (Forall (fun x => voteWeight x <> 0) (walletdb n) ->
          Forall (fun x => voteWeight x <> 0) (walletdb n')))
  /\ (forall (ui : GuiInput) (decision : string) (svc : Service)
      (n n' : Node) (e : GuiExit),
      vote ui decision svc n = (e, n') ->
      (walletdb n' = walletdb n
       \/ exists (name_ postMessage : string) (r : Reply) (w : Z),
            selectedRow ui = Some name_
            /\ findVoted
                 (vote_id (lookupProposal name_ (proposals (g_governance n))))
                 (walletdb n) = None
            /\ svc {| req_type := CAST_VOTE; req_json := postMessage +:+ "]" |}
               = Some r
            /\ r_statusOK r = true
            /\ tally (vote_id (lookupProposal name_ (proposals (g_governance n))))
                 (r_votes r) = Some w /\ w <> 0
            /\ walletdb n' = walletdb n
                 ++ [{| voteID :=
                          vote_id (lookupProposal name_ (proposals (g_governance n)));
                        voteWeight := w |}])
      /\ (Forall (fun x => voteWeight x <> 0) (walletdb n) ->
          Forall (fun x => voteWeight x <> 0) (walletdb n')))
  /\ (forall (request : JSONRPCRequest) (vote_id decision : string)
      (current_time : Z) (svc : Service) (n n1 : Node)
      (end_ : list (nat * Votes)),
      params request = [vote_id; decision] ->
      postoffchainproposals request current_time svc n = (R_Return end_, n1) ->
      tally vote_id (votes (g_governance n1)) = Some 0 ->
      walletdb n1 = walletdb n
      /\ forall (decision' : string) (current_time' : Z) (svc' : Service) (w : Z),
           fst (postoffchainproposals
                  {| fHelp := false; params := [vote_id; decision'] |}
                  current_time' svc' n1) <> R_AlreadyVoted w)
  /\ (forall (ui : GuiInput) (name_ decision : string) (svc : Service)
      (n n1 : Node),
      selectedRow ui = Some name_ ->
      vote ui decision svc n = (G_Success 0, n1) ->
      walletdb n1 = walletdb n
      /\ forall (ui' : GuiInput) (name' decision' : string) (svc' : Service) (w : Z),
           selectedRow ui' = Some name' ->
           vote_id (lookupProposal name' (proposals (g_governance n1)))
           = vote_id (lookupProposal name_ (proposals (g_governance n))) ->
           fst (vote ui' decision' svc' n1) <> G_AlreadyVoted w)
  /\ (forall n : Node,
      reachable n -> Forall (fun x => voteWeight x <> 0) (walletdb n)).
Proof.
  split_and!; [| | | |intros n Hn; by apply reachable_ledger].
  - intros request t svc n n' e Hcall.
    pose proof (rpc_ledger_effect _ _ _ _ _ _ Hcall) as Heff.
    split; [done|]. intros Hinv.
    destruct Heff as [->|(v & d & pm & r & w & _ & _ & _ & _ & _ & Hw & ->)]; [done|].
    apply Forall_app. split; [done|]. by apply Forall_singleton.
  - intros ui d svc n n' e Hcall.
    pose proof (gui_ledger_effect _ _ _ _ _ _ Hcall) as Heff.
    split; [done|]. intros Hinv.
    destruct Heff as [->|(v & pm & r & w & _ & _ & _ & _ & _ & Hw & ->)]; [done|].
    apply Forall_app. split; [done|]. by apply Forall_singleton.
  - intros request v d t svc n n1 end_ Hpar Hcall Htally.
    destruct (rpc_return_inv _ _ _ _ _ _ _ _ Hpar Hcall)
      as (pm & r & w' & _ & Hnone & _ & _ & _ & Hw' & _ & Hn1).
    cbn zeta in Hn1.
    assert (w' = 0) as ->.
    { subst n1. rewrite (proj1 (proj2 (proj2 (storeVote_other _ _ _)))) in Htally.
      cbn [g_governance set_governance votes fill] in Htally. congruence. }
    rewrite storeVote_zero in Hn1. subst n1.
    cbn [walletdb set_governance SendRequests]. split; [done|].
    intros d' t' svc' w. by apply rpc_not_already_voted.
  - intros ui name_ d svc n n1 Hsel Hcall.
    destruct (gui_success_inv _ _ _ _ _ _ _ Hsel Hcall)
      as (pm & r & r' & _ & Hnone & _ & _ & _ & _ & _ & Hn1).
    cbn zeta in Hn1. rewrite storeVote_zero in Hn1. subst n1.
    cbn [walletdb set_governance SendRequests]. split; [done|].
    intros ui' name' d' svc' w Hsel' Hsame.
    apply (gui_not_already_voted _ name'); [done|].
    cbn [g_governance walletdb set_governance SendRequests] in Hsame |- *.
    by rewrite Hsame.
Qed.

(** ** BallotSigner *)

Lemma signBallot_inr (w : CWallet) (vote_id decision : string)
    (addrScript : CScript) (obj : string) :
  signBallot w vote_id decision addrScript = inr obj <->
  signedBallot w vote_id decision addrScript obj.
Proof.
  unfold signBallot, signedBallot, messageHash, strMessage. cbn zeta.
  destruct (IsValidDestination _); cbn [negb]; [|naive_solver].
  destruct (IsNull _); [naive_solver|].
  destruct (GetKey _ _) as [key|]; [|naive_solver].
  destruct (SignCompact _ _) as [vchSig|] eqn:Hsig; [|naive_solver].
  split.
  - intros [= <-]. eauto 10.
  - intros (_ & _ & key' & sig' & [= <-] & Hsig' & ->). congruence.
Qed.

Lemma signBallots_inr (w : CWallet) (vote_id decision : string)
    (addrs : list CScript) :
  forall (id : Z) (postMessage pm : string),
    signBallots w vote_id decision addrs id postMessage = inr pm ->
    Forall (fun a => exists obj, signedBallot w vote_id decision a obj) addrs.
Proof.
  induction addrs as [|a addrs IH]; intros id postMessage pm Hs; [constructor|].
  cbn [signBallots] in Hs.
  destruct (signBallot w vote_id decision a) as [e|obj] eqn:Ha; [discriminate|].
  constructor; [|by eapply IH].
  exists obj. by apply signBallot_inr.
Qed.

(** The loop stops at the first address it cannot sign for, with the
    error of that address. *)
Lemma signBallots_inl (w : CWallet) (vote_id decision : string)
    (addrs : list CScript) (e : SignError) :
  forall (id : Z) (postMessage : string),
    signBallots w vote_id decision addrs id postMessage = inl e <->
    exists pre a post,
      addrs = pre ++ a :: post
      /\ Forall (fun x => exists obj, signBallot w vote_id decision x = inr obj) pre
      /\ signBallot w vote_id decision a = inl e.
Proof.
  induction addrs as [|a addrs IH]; intros id postMessage; cbn [signBallots].
  - split; [discriminate|]. intros (pre & a & post & Heq & _).
    by destruct pre.
  - destruct (signBallot w vote_id decision a) as [e'|obj] eqn:Ha.
    + split.
      * intros [= ->]. exists [], a, addrs. by split_and!.
      * intros (pre & a' & post & Heq & Hpre & Ha').
        destruct pre as [|x pre]; simplify_eq/=; [congruence|].
        apply Forall_cons in Hpre as [[obj Hx] _]. congruence.
    + rewrite IH. split.
      * intros (pre & a' & post & -> & Hpre & Ha').
        exists (a :: pre), a', post. split_and!; [done| |done].
        constructor; eauto.
      * intros (pre & a' & post & Heq & Hpre & Ha').
        destruct pre as [|x pre]; simplify_eq/=; [congruence|].
        apply Forall_cons in Hpre as [_ Hpre]. eauto 10.
Qed.

Lemma signBallots_fails (w : CWallet) (vote_id decision : string)
    (addrs : list CScript) (a : CScript) (e : SignError) :
  a ∈ addrs ->
  signBallot w vote_id decision a = inl e ->
  forall (id : Z) (postMessage : string),
    exists e', signBallots w vote_id decision addrs id postMessage = inl e'.
Proof.
  induction 1 as [a addrs|a x addrs _ IH]; intros Ha id postMessage;
    cbn [signBallots].
  - rewrite Ha. eauto.
  - destruct (signBallot w vote_id decision x); eauto.
Qed.

(** ** What reaches the wire *)

Lemma rpc_wire (request : JSONRPCRequest) (vote_id decision : string)
    (current_time : Z) (svc : Service) (n n' : Node) (e : RpcExit) :
  params request = [vote_id; decision] ->
  postoffchainproposals request current_time svc n = (e, n') ->
  wire n' = wire n
  \/ exists postMessage,
       signBallots (pwallet n) vote_id decision
         (collectVotingAddresses (pwallet n) (skip_rpc current_time)) 0 "["
       = inr postMessage
       /\ wire n' = wire n
            ++ [{| req_type := CAST_VOTE; req_json := postMessage +:+ "]" |}].
Proof.
  intros Hpar Hcall. path_cases Hcall; try by left.
  all: right; eexists; split; [done|].
  all: by rewrite ?(proj2 (proj2 (proj2 (storeVote_other _ _ _)))).
Qed.

Lemma gui_wire (ui : GuiInput) (name_ decision : string)
    (svc : Service) (n n' : Node) (e : GuiExit) :
  selectedRow ui = Some name_ ->
  vote ui decision svc n = (e, n') ->
  wire n' = wire n
  \/ exists postMessage rest,
       signBallots (pwallet n)
         (vote_id (lookupProposal name_ (proposals (g_governance n)))) decision
         (collectVotingAddresses (pwallet n) skip_gui) 0 "["
       = inr postMessage
       /\ wire n' = wire n
            ++ {| req_type := CAST_VOTE; req_json := postMessage +:+ "]" |} :: rest
       /\ Forall (fun rq => req_type rq = GET_PROPOSALS) rest.
Proof.
  intros Hsel Hcall. path_cases Hcall; try by left.
  all: right.
  all: rewrite ?(proj2 (proj2 (proj2 (storeVote_other _ _ _)))).
  all: cbn [wire SendRequests set_governance]; rewrite <- ?app_assoc.
  all: try (eexists _, []; split_and!; [done|done|constructor]).
  all: eexists _, [_]; split_and!; [done|done|by repeat constructor].
Qed.

(** C6.  The message signed for a ballot is the vote identifier, an
    underscore and the decision token, byte for byte; every ballot either
    path puts into a [CAST_VOTE] request carries a signature made over the
    hash of the magic prefix followed by that message. *)
Theorem ballot_signed_over_tagged_message :
  list_byte_of_string (strMessage "abc" "1") = [x61; x62; x63; x5f; x31]
  /\ (forall vote_id decision : string,
        strMessage vote_id decision = vote_id +:+ "_" +:+ decision)
  /\ (forall (w : CWallet) (vote_id decision : string) (addrScript : CScript)
        (obj : string),
        signBallot w vote_id decision addrScript = inr obj ->
        exists (key : CKey) (vchSig : list byte),
          GetKey w (GetKeyForDestination w (ExtractDestination addrScript))
          = Some key
          /\ SignCompact key
               (GetHash (hash_write (hash_write hash_writer_new strMessageMagic)
                           (vote_id +:+ "_" +:+ decision)))
             = Some vchSig
          /\ obj = ballotJSON vote_id
                     (EncodeDestination (ExtractDestination addrScript))
                     (EncodeBase64 vchSig) decision)
  /\ (forall (request : JSONRPCRequest) (vote_id decision : string)
        (current_time : Z) (svc : Service) (n n' : Node) (e : RpcExit),
        params request = [vote_id; decision] ->
        postoffchainproposals request current_time svc n = (e, n') ->
        wire n' <> wire n ->
        Forall (fun a => exists obj, signedBallot (pwallet n) vote_id decision a obj)
          (collectVotingAddresses (pwallet n) (skip_rpc current_time)))
  /\ (forall (ui : GuiInput) (name_ decision : string) (svc : Service)
        (n n' : Node) (e : GuiExit),
        selectedRow ui = Some name_ ->
        vote ui decision svc n = (e, n') ->
        wire n' <> wire n ->
        Forall (fun a => exists obj,
                  signedBallot (pwallet n)
                    (vote_id (lookupProposal name_ (proposals (g_governance n))))
                    decision a obj)
          (collectVotingAddresses (pwallet n) skip_gui)).
Proof.
  split_and!.
  - reflexivity.
  - reflexivity.
  - intros w v d a obj Hs. apply signBallot_inr in Hs as (_ & _ & Hs). exact Hs.
  - intros request v d t svc n n' e Hpar Hcall Hsent.
    destruct (rpc_wire _ _ _ _ _ _ _ _ Hpar Hcall) as [?|(pm & Hpm & _)]; [done|].
    by eapply signBallots_inr.
  - intros ui name_ d svc n n' e Hsel Hcall Hsent.
    destruct (gui_wire _ _ _ _ _ _ _ Hsel Hcall) as [?|(pm & rest & Hpm & _)]; [done|].
    by eapply signBallots_inr.
Qed.

(** ** Signing failures *)

Lemma rpc_sign_failure (request : JSONRPCRequest) (vote_id decision : string)
    (current_time : Z) (svc : Service) (n : Node) (a : CScript) (e : SignError) :
  params request = [vote_id; decision] ->
  a ∈ collectVotingAddresses (pwallet n) (skip_rpc current_time) ->
  signBallot (pwallet n) vote_id decision a = inl e ->
  snd (postoffchainproposals request current_time svc n) = n
  /\ (fHelp request = false ->
      IsLocked (pwallet n) = false ->
      IsHDEnabled (pwallet n) && fUnlockForStakingOnly (pwallet n) = false ->
      findVoted vote_id (walletdb n) = None ->
      exists e',
        signBallots (pwallet n) vote_id decision
          (collectVotingAddresses (pwallet n) (skip_rpc current_time)) 0 "["
        = inl e'
        /\ postoffchainproposals request current_time svc n = (R_SignError e', n)).
Proof.
  intros Hpar Hin Ha.
  destruct (signBallots_fails _ _ _ _ _ _ Hin Ha 0 "[") as [e' He'].
  split.
  - destruct (postoffchainproposals _ _ _ _) as [x n'] eqn:Hcall.
    path_cases Hcall; done.
  - intros Hhelp Hlock Hstake Hnone. exists e'. split; [done|].
    unfold postoffchainproposals, ListGovernanceEntries.
    by rewrite Hhelp, Hpar, Hlock, Hstake, Hnone, He'.
Qed.

Lemma gui_sign_failure (ui : GuiInput) (name_ decision : string)
    (svc : Service) (n : Node) (a : CScript) (e : SignError) :
  selectedRow ui = Some name_ ->
  let vote_id := vote_id (lookupProposal name_ (proposals (g_governance n))) in
  a ∈ collectVotingAddresses (pwallet n) skip_gui ->
  signBallot (pwallet n) vote_id decision a = inl e ->
  snd (vote ui decision svc n) = n
  /\ (fInitialBlockDownload n = false ->
      unlockGranted ui = true ->
      findVoted vote_id (walletdb n) = None ->
      confirmed ui = true ->
      exists e',
        signBallots (pwallet n) vote_id decision
          (collectVotingAddresses (pwallet n) skip_gui) 0 "["
        = inl e'
        /\ vote ui decision svc n = (G_SignError e', n)).
Proof.
  intros Hsel vid Hin Ha.
  destruct (signBallots_fails _ _ _ _ _ _ Hin Ha 0 "[") as [e' He'].
  split.
  - subst vid. destruct (vote _ _ _ _) as [x n'] eqn:Hcall.
    path_cases Hcall; done.
  - intros Hibd Hunlock Hnone Hconf. exists e'. split; [done|].
    unfold vote, ListGovernanceEntries.
    rewrite Hsel, Hibd, Hunlock. cbn [negb]. fold vid.
    by rewrite Hnone, Hconf, He'.
Qed.

(** C9.  If one of the collected addresses cannot be signed for (its
    destination does not decode, no key is found for it, or the signing
    primitive declines), then on either path the call leaves the node as it
    was, so no [CAST_VOTE] request is sent; and a call that reaches the
    signing loop ends with the error of the first such address. *)
Theorem signing_failure_sends_nothing :
  (forall (request : JSONRPCRequest) (vote_id decision : string)
      (current_time : Z) (svc : Service) (n : Node) (a : CScript) (e : SignError),
      params request = [vote_id; decision] ->
      a ∈ collectVotingAddresses (pwallet n) (skip_rpc current_time) ->
      signBallot (pwallet n) vote_id decision a = inl e ->
      snd (postoffchainproposals request current_time svc n) = n
      /\ (fHelp request = false ->
          IsLocked (pwallet n) = false ->
          IsHDEnabled (pwallet n) && fUnlockForStakingOnly (pwallet n) = false ->
          findVoted vote_id (walletdb n) = None ->
          exists pre a' post e',
            collectVotingAddresses (pwallet n) (skip_rpc current_time)
            = pre ++ a' :: post
            /\ Forall (fun x => exists obj,
                         signBallot (pwallet n) vote_id decision x = inr obj) pre
            /\ signBallot (pwallet n) vote_id decision a' = inl e'
            /\ postoffchainproposals request current_time svc n
               = (R_SignError e', n)))
  /\ (forall (ui : GuiInput) (name_ decision : string) (svc : Service) (n : Node)
      (a : CScript) (e : SignError),
      selectedRow ui = Some name_ ->
      a ∈ collectVotingAddresses (pwallet n) skip_gui ->
      signBallot (pwallet n)
        (vote_id (lookupProposal name_ (proposals (g_governance n)))) decision a
      = inl e ->
      snd (vote ui decision svc n) = n
      /\ (fInitialBlockDownload n = false ->
          unlockGranted ui = true ->
          findVoted (vote_id (lookupProposal name_ (proposals (g_governance n))))
            (walletdb n) = None ->
          confirmed ui = true ->
          exists pre a' post e',
            collectVotingAddresses (pwallet n) skip_gui = pre ++ a' :: post
            /\ Forall (fun x => exists obj,
                         signBallot (pwallet n)
                           (vote_id (lookupProposal name_
                                       (proposals (g_governance n))))
                           decision x = inr obj) pre
            /\ signBallot (pwallet n)
                 (vote_id (lookupProposal name_ (proposals (g_governance n))))
                 decision a' = inl e'
            /\ vote ui decision svc n = (G_SignError e', n))).
Proof.
  split.
  - intros request v d t svc n a e Hpar Hin Ha.
    destruct (rpc_sign_failure _ _ _ _ svc _ _ _ Hpar Hin Ha) as [Hsame Hexit].
    split; [done|]. intros Hhelp Hlock Hstake Hnone.
    destruct (Hexit Hhelp Hlock Hstake Hnone) as (e' & He' & Hcall).
    apply signBallots_inl in He' as (pre & a' & post & Heq & Hpre & Ha').
    exists pre, a', post, e'. by split_and!.
  - intros ui name_ d svc n a e Hsel Hin Ha.
    destruct (gui_sign_failure _ _ _ svc _ _ _ Hsel Hin Ha) as [Hsame Hexit].
    split; [done|]. intros Hibd Hunlock Hnone Hconf.
    destruct (Hexit Hibd Hunlock Hnone Hconf) as (e' & He' & Hcall).
    apply signBallots_inl in He' as (pre & a' & post & Heq & Hpre & Ha').
    exists pre, a', post, e'. by split_and!.
Qed.

(** ** Which proposal a click votes on *)

Lemma lookupProposal_first (p : Proposals) (pre post : list Proposals) :
  Forall (fun q => name q <> name p) pre ->
  lookupProposal (name p) (pre ++ p :: post) = p.
Proof.
  unfold lookupProposal. induction 1 as [|q pre Hq _ IH]; cbn.
  - by rewrite String.eqb_refl.
  - destruct (String.eqb_spec (name p) (name q)) as [Heq|_]; [|exact IH].
    by destruct Hq.
Qed.

Lemma lookupProposal_none (name_ : string) (ps : list Proposals) :
  Forall (fun q => name q <> name_) ps ->
  lookupProposal name_ ps = Proposals_default.
Proof.
  unfold lookupProposal. induction 1 as [|q ps Hq _ IH]; cbn; [done|].
  destruct (String.eqb_spec name_ (name q)) as [Heq|_]; [|exact IH].
  by destruct Hq.
Qed.

(** C10.  The ballots of a cast started from a selected row carry
    the vote identifier of the first buffered proposal whose display name
    is the name in that row: the selected proposal's own identifier when
    that proposal is buffered and no proposal before it has the same
    name. *)
Theorem ballots_carry_first_match_by_name (ui : GuiInput) (decision : string)
    (svc : Service) (n n' : Node) (e : GuiExit)
    (p : Proposals) (pre post : list Proposals) :
  selectedRow ui = Some (name p) ->
  proposals (g_governance n) = pre ++ p :: post ->
  Forall (fun q => name q <> name p) pre ->
  vote ui decision svc n = (e, n') ->
  wire n' = wire n
  \/ exists postMessage rest,
       signBallots (pwallet n) (vote_id p) decision
         (collectVotingAddresses (pwallet n) skip_gui) 0 "["
       = inr postMessage
       /\ Forall (fun a => exists obj,
                    signedBallot (pwallet n) (vote_id p) decision a obj)
            (collectVotingAddresses (pwallet n) skip_gui)
       /\ wire n' = wire n
            ++ {| req_type := CAST_VOTE; req_json := postMessage +:+ "]" |} :: rest.
Proof.
  intros Hsel Hbuf Hfirst Hcall.
  destruct (gui_wire _ _ _ _ _ _ _ Hsel Hcall)
    as [?|(pm & rest & Hpm & Hwire & _)]; [by left|].
  rewrite Hbuf, lookupProposal_first in Hpm by done.
  right. exists pm, rest. split_and!; [done| |done].
  by eapply signBallots_inr.
Qed.

(** ** Synchronisation *)

Lemma gui_not_synced (ui : GuiInput) (name_ decision : string)
    (svc : Service) (n : Node) :
  selectedRow ui = Some name_ ->
  fInitialBlockDownload n = true ->
  vote ui decision svc n = (G_NotSynced, n).
Proof. intros Hsel Hibd. unfold vote. by rewrite Hsel, Hibd. Qed.

(** The RPC never looks at the synchronisation state. *)
Lemma rpc_ignores_sync (request : JSONRPCRequest) (current_time : Z)
    (svc : Service) (n : Node) (ibd : bool) :
  let n_ibd := {| fInitialBlockDownload := ibd; pwallet := pwallet n;
                  walletdb := walletdb n; g_governance := g_governance n;
                  wire := wire n |} in
  fst (postoffchainproposals request current_time svc n_ibd)
  = fst (postoffchainproposals request current_time svc n)
  /\ wire (snd (postoffchainproposals request current_time svc n_ibd))
     = wire (snd (postoffchainproposals request current_time svc n))
  /\ walletdb (snd (postoffchainproposals request current_time svc n_ibd))
     = walletdb (snd (postoffchainproposals request current_time svc n)).
Proof.
  cbn zeta. unfold postoffchainproposals, awaitReady, storeVote.
  cbn [pwallet walletdb g_governance wire SendRequests].
  repeat (case_match; simplify_eq/=); done.
Qed.

(** ** The eligibility window *)

Lemma rpc_window (w : CWallet) (current_time : Z) (s : CScript) :
  - 2 ^ 63 + vote_timeframe <= current_time < 2 ^ 63 ->
  s ∈ collectVotingAddresses w (skip_rpc current_time) <->
  exists mapping o, mapping ∈ mapWallet w
    /\ IsCoinStake (snd mapping) = true
    /\ current_time - vote_timeframe <= GetTxTime (snd mapping)
    /\ o ∈ vout (snd mapping) /\ eligibleOutput w s o.
Proof.
  intros Ht. rewrite collectVotingAddresses_elem. unfold skip_rpc.
  rewrite wrap64_small by (unfold vote_timeframe in *; lia).
  split.
  - intros (mp & o & Hmp & Hskip & Ho & He).
    apply orb_false_iff in Hskip as [Hcs Hlt].
    exists mp, o. split_and!; [done| | |done..].
    + by apply negb_false_iff.
    + by apply Z.ltb_ge.
  - intros (mp & o & Hmp & Hcs & Hge & Ho & He).
    exists mp, o. split_and!; [done| |done..].
    rewrite Hcs. cbn. by apply Z.ltb_ge.
Qed.

Lemma gui_no_window (w : CWallet) (s : CScript) :
  s ∈ collectVotingAddresses w skip_gui <->
  exists mapping o, mapping ∈ mapWallet w
    /\ IsCoinStake (snd mapping) = true
    /\ o ∈ vout (snd mapping) /\ eligibleOutput w s o.
Proof.
  rewrite collectVotingAddresses_elem. unfold skip_gui.
  split.
  - intros (mp & o & Hmp & Hskip & Ho & He).
    exists mp, o. split_and!; [done| |done..]. by apply negb_false_iff.
  - intros (mp & o & Hmp & Hcs & Ho & He).
    exists mp, o. split_and!; [done| |done..]. by rewrite Hcs.
Qed.

(** What each path collects: the distinct owned scripts outside the
    script-hash family that are paid by an output of a coinstake the path
    does not skip.  On the RPC path the coinstakes not skipped are those
    whose time is not earlier than 46 days before the current time; the GUI
    path collects at least the addresses of those coinstakes, and nothing
    but addresses of coinstakes. *)
Theorem voting_addresses_characterised (w : CWallet) (current_time : Z) :
  - 2 ^ 63 + vote_timeframe <= current_time < 2 ^ 63 ->
  let staked (windowed : bool) (s : CScript) : Prop :=
    exists mapping o, mapping ∈ mapWallet w
      /\ IsCoinStake (snd mapping) = true
      /\ (windowed = true ->
          current_time - 46 * 86400 <= GetTxTime (snd mapping))
      /\ o ∈ vout (snd mapping)
      /\ scriptPubKey o = s /\ IsMine w s = true
      /\ IsPayToScriptHashAny s = false in
  (forall s, s ∈ collectVotingAddresses w (skip_rpc current_time)
             <-> staked true s)
  /\ NoDup (collectVotingAddresses w (skip_rpc current_time))
  /\ (forall s, staked true s -> s ∈ collectVotingAddresses w skip_gui)
  /\ (forall s, s ∈ collectVotingAddresses w skip_gui -> staked false s)
  /\ NoDup (collectVotingAddresses w skip_gui).
Proof.
  intros Ht staked. subst staked. cbn beta.
  change (46 * 86400) with vote_timeframe.
  split_and!; try apply collectVotingAddresses_NoDup.
  - intros s. rewrite (rpc_window _ _ _ Ht). unfold eligibleOutput.
    split; intros (mp & o & Hmp & Hcs & Hrest); exists mp, o; naive_solver.
  - intros s (mp & o & Hmp & Hcs & _ & Ho & He). apply gui_no_window.
    exists mp, o. by split_and!.
  - intros s Hs. apply gui_no_window in Hs as (mp & o & Hmp & Hcs & Ho & He).
    exists mp, o. split_and!; try done. apply He. apply He. apply He.
Qed.

(** ** The request body *)

Lemma append_assoc (a b c : string) : (a +:+ b) +:+ c = a +:+ b +:+ c.
Proof.
  induction a as [|x a IH]; [done|].
  change (String x ((a +:+ b) +:+ c) = String x (a +:+ b +:+ c)).
  by rewrite IH.
Qed.

Lemma append_empty_r (a : string) : a +:+ EmptyString = a.
Proof.
  induction a as [|x a IH]; [done|].
  change (String x (a +:+ EmptyString) = String x a). by rewrite IH.
Qed.

Lemma joinBallots_concat (objs : list string) :
  joinBallots false objs = String.concat "," objs.
Proof.
  assert (forall l, l <> [] ->
            joinBallots true l = "," +:+ String.concat "," l) as Htail.
  { induction l as [|o l IH]; [done|]; intros _.
    cbn [joinBallots]. destruct l as [|o' l].
    - cbn [joinBallots String.concat]. by rewrite append_empty_r.
    - rewrite IH by done. reflexivity. }
  destruct objs as [|o l]; [done|].
  cbn [joinBallots]. destruct l as [|o' l].
  - cbn [joinBallots String.concat]. apply append_empty_r.
  - rewrite Htail by done. reflexivity.
Qed.

Lemma signBallots_body (w : CWallet) (vote_id decision : string)
    (addrs : list CScript) :
  forall (id : Z) (postMessage pm : string),
    0 <= id -> id + Z.of_nat (length addrs) <= INT_MAX ->
    signBallots w vote_id decision addrs id postMessage = inr pm ->
    exists objs,
      Forall2 (signedBallot w vote_id decision) addrs objs
      /\ pm = postMessage +:+ joinBallots (negb (id =? 0)) objs.
Proof.
  induction addrs as [|a addrs IH]; intros id postMessage pm Hid Hlen Hs.
  - injection Hs as <-. exists []. split; [constructor|].
    cbn. by rewrite append_empty_r.
  - cbn [signBallots] in Hs.
    destruct (signBallot w vote_id decision a) as [e|obj] eqn:Ha; [discriminate|].
    rewrite length_cons, Nat2Z.inj_succ in Hlen.
    assert (wrap32 (id + 1) = id + 1) as Hwrap.
    { unfold wrap32, wrap, INT_MAX in *. change (2 ^ (32 - 1)) with (2 ^ 31).
      rewrite Z.mod_small; lia. }
    rewrite Hwrap in Hs.
    apply IH in Hs as (objs & Hobjs & ->); [|lia..].
    exists (obj :: objs). split.
    + constructor; [by apply signBallot_inr|done].
    + destruct (Z.eqb_spec (id + 1) 0) as [?|_]; [lia|].
      cbn [joinBallots negb]. destruct (id =? 0); cbn [negb];
        by rewrite !append_assoc.
Qed.

(** The body of a [CAST_VOTE] request is a bracketed, comma-separated
    list with one signed ballot object per collected address. *)
Lemma cast_body (w : CWallet) (vote_id decision : string)
    (addrs : list CScript) (pm : string) :
  Z.of_nat (length addrs) <= INT_MAX ->
  signBallots w vote_id decision addrs 0 "[" = inr pm ->
  exists objs,
    Forall2 (signedBallot w vote_id decision) addrs objs
    /\ pm +:+ "]" = "[" +:+ String.concat "," objs +:+ "]".
Proof.
  intros Hlen Hs.
  apply signBallots_body in Hs as (objs & Hobjs & ->); [|lia..].
  exists objs. split; [done|].
  cbn [Z.eqb negb]. by rewrite joinBallots_concat, append_assoc.
Qed.

End Facts.

(** * The paths on sample data *)

Import Sample.

Lemma repeat_vote_rejected_witness :
  let n0 := nodeWith false wallet [] noVotes in
  let n1 := snd (postoffchainproposals (rpc "p1" "1") now
                   (serviceCounting records) n0) in
  postoffchainproposals (rpc "p1" "0") now (serviceCounting []) n1
  = (R_AlreadyVoted 15, n1).
Proof.
  cbn zeta.
  apply (proj1 (proj2 (proj2 repeat_vote_rejected))
           (rpc "p1" "1") "p1" "1" now (serviceCounting records)
           (nodeWith false wallet [] noVotes) _ (matchingVotes "p1" records)).
  - reflexivity.
  - vm_compute. reflexivity.
  - vm_compute. reflexivity.
  - discriminate.
Defined.

(** C1, as stated, fails: the first cast below is answered with
    status OK and no matching record, nothing is stored, and the second
    cast on the same identifier is not turned down and sends a second
    request. *)
Lemma second_cast_after_uncounted_vote :
  let svc := serviceCounting [] in
  let n0 := nodeWith false wallet [] noVotes in
  let r1 := postoffchainproposals (rpc "p1" "1") now svc n0 in
  let r2 := postoffchainproposals (rpc "p1" "1") now svc (snd r1) in
  (fst r1 = R_Return [] /\ walletdb (snd r1) = [])
  /\ (length (wire (snd r1)) = 1%nat /\ length (wire (snd r2)) = 2%nat)
  /\ ~ ((exists w, fst r2 = R_AlreadyVoted w) /\ wire (snd r2) = wire (snd r1)).
Proof.
  cbn zeta. split_and!; try (vm_compute; reflexivity).
  intros [[w Hw] _]. vm_compute in Hw. discriminate.
Qed.

Lemma ledger_written_only_on_counted_success_witness :
  let n0 := nodeWith false wallet [] noVotes in
  let r1 := postoffchainproposals (rpc "p1" "1") now (serviceCounting []) n0 in
  walletdb (snd r1) = walletdb n0
  /\ forall (decision' : string) (current_time' : Z) (svc' : Service) (w : Z),
       fst (postoffchainproposals (rpc "p1" decision') current_time' svc' (snd r1))
       <> R_AlreadyVoted w.
Proof.
  cbn zeta.
  apply (proj1 (proj2 (proj2 ledger_written_only_on_counted_success))
           (rpc "p1" "1") "p1" "1" now (serviceCounting [])
           (nodeWith false wallet [] noVotes) _ []).
  - reflexivity.
  - vm_compute. reflexivity.
  - vm_compute. reflexivity.
Defined.

Lemma ballot_signed_over_tagged_message_witness :
  Forall (fun a => exists obj, signedBallot wallet "p1" "1" a obj)
    (collectVotingAddresses wallet (skip_rpc now)).
Proof.
  apply (proj1 (proj2 (proj2 (proj2 ballot_signed_over_tagged_message)))
           (rpc "p1" "1") "p1" "1" now (serviceCounting records)
           (nodeWith false wallet [] noVotes) _ _ eq_refl (surjective_pairing _)).
  vm_compute. discriminate.
Defined.

Lemma signing_failure_sends_nothing_witness :
  let n := nodeWith false walletUnsignable [] noVotes in
  snd (postoffchainproposals (rpc "p1" "1") now (serviceCounting records) n) = n.
Proof.
  cbn zeta.
  apply (proj1 signing_failure_sends_nothing
           (rpc "p1" "1") "p1" "1" now (serviceCounting records)
           (nodeWith false walletUnsignable [] noVotes) sUnsignable SignFailed).
  - reflexivity.
  - vm_compute. apply list_elem_of_further, list_elem_of_here.
  - vm_compute. reflexivity.
Defined.

(** The whole batch is dropped: the two addresses that could be signed
    for are not submitted on their own. *)
Example unsignable_address_aborts_batch :
  let n := nodeWith false walletUnsignable [] noVotes in
  collectVotingAddresses walletUnsignable (skip_rpc now)
  = [sLegacy; sUnsignable; sBech32]
  /\ postoffchainproposals (rpc "p1" "1") now (serviceCounting records) n
     = (R_SignError SignFailed, n)
  /\ vote (click "Fund") "1" (serviceCounting records) n
     = (G_SignError SignFailed, n).
Proof. cbn zeta. split_and!; vm_compute; reflexivity. Qed.

Lemma ballots_carry_first_match_by_name_witness :
  let n := nodeWith false wallet [] twins in
  let n' := snd (vote (click "Fund") "1" (serviceCounting []) n) in
  wire n' = wire n
  \/ exists postMessage rest,
       signBallots wallet "v1" "1" (collectVotingAddresses wallet skip_gui) 0 "["
       = inr postMessage
       /\ Forall (fun a => exists obj, signedBallot wallet "v1" "1" a obj)
            (collectVotingAddresses wallet skip_gui)
       /\ wire n' = wire n
            ++ {| req_type := CAST_VOTE; req_json := postMessage +:+ "]" |} :: rest.
Proof.
  cbn zeta.
  apply (ballots_carry_first_match_by_name (click "Fund") "1" (serviceCounting [])
           (nodeWith false wallet [] twins) _ _
           (prop "Fund" "v1") [] [prop "Fund" "v2"]
           eq_refl eq_refl (Forall_nil_2 _) (surjective_pairing _)).
Defined.

(** C10, as stated, fails: with two buffered proposals shown under
    one name, a cast started from the row of the second sends ballots that
    carry the vote identifier of the first. *)
Lemma twin_names_vote_on_first :
  let p := prop "Fund" "v2" in
  let n := nodeWith false wallet [] twins in
  let n' := snd (vote (click (name p)) "1" (serviceCounting []) n) in
  p ∈ proposals (g_governance n)
  /\ (exists postMessage rest,
         signBallots wallet "v1" "1"
           (collectVotingAddresses wallet skip_gui) 0 "[" = inr postMessage
         /\ wire n' = {| req_type := CAST_VOTE; req_json := postMessage +:+ "]" |}
                      :: rest)
  /\ ~ (exists postMessage rest,
          signBallots wallet (vote_id p) "1"
            (collectVotingAddresses wallet skip_gui) 0 "[" = inr postMessage
          /\ wire n' = {| req_type := CAST_VOTE; req_json := postMessage +:+ "]" |}
                       :: rest).
Proof.
  cbn zeta. split_and!.
  - apply list_elem_of_further, list_elem_of_here.
  - eexists _, _. split; vm_compute; reflexivity.
  - intros (pm & rest & Hpm & Hwire).
    vm_compute in Hpm. injection Hpm as <-.
    vm_compute in Hwire. discriminate.
Qed.

(** A name that matches no buffered proposal is voted on under the
    empty vote identifier of a default-constructed [Proposals]. *)
Example unknown_name_votes_on_empty_id :
  let n := nodeWith false wallet [] twins in
  let n' := snd (vote (click "Nobody") "1" (serviceCounting []) n) in
  exists postMessage rest,
    signBallots wallet EmptyString "1"
      (collectVotingAddresses wallet skip_gui) 0 "[" = inr postMessage
    /\ wire n' = {| req_type := CAST_VOTE; req_json := postMessage +:+ "]" |} :: rest.
Proof. cbn zeta. eexists _, _. split; vm_compute; reflexivity. Qed.

Lemma voting_addresses_characterised_witness :
  sLegacy ∈ collectVotingAddresses wallet (skip_rpc now)
  /\ NoDup (collectVotingAddresses wallet (skip_rpc now)).
Proof.
  assert (- 2 ^ 63 + vote_timeframe <= now < 2 ^ 63) as Hnow by (vm_compute; intuition discriminate).
  destruct (voting_addresses_characterised wallet now Hnow)
    as (Hrpc & Hnodup & _).
  split; [|exact Hnodup]. apply Hrpc.
  exists (1, {| IsCoinStake := true; GetTxTime := now - 3600;
                vout := [out sLegacy; out sP2SH; out sForeign] |}), (out sLegacy).
  split_and!; try reflexivity.
  - apply list_elem_of_here.
  - intros _. vm_compute. discriminate.
  - apply list_elem_of_here.
Defined.

(** The cast on a weight that is no [int]: the request has gone out
    and the service has counted the vote, but [std::stoi] throws before
    anything is stored. *)
Example cast_throws_on_weight_beyond_int :
  let vs := [{| v_vote_id := "p1"; v_address := "a";
                weight := "2147483648" |}] in
  let n := nodeWith false wallet [] noVotes in
  let r := postoffchainproposals (rpc "p1" "1") now (serviceCounting vs) n in
  fst r = R_StoiThrows
  /\ length (wire (snd r)) = 1%nat
  /\ walletdb (snd r) = [].
Proof. cbn zeta. split_and!; vm_compute; reflexivity. Qed.

(** C4.  Outputs of transactions outside the eligibility window are
    collected on the GUI path: on a wallet whose coinstake of 47 days ago
    pays [sOld], [OffChainGovernance::vote] collects [sOld] and sends a
    ballot signed for it, while [postoffchainproposals], run at the same
    moment on the same wallet, keeps to the 46 days and leaves it out. *)
Theorem stale_stake_collected_by_gui :
  let n := nodeWith false wallet [] twins in
  (exists mapping, mapping ∈ mapWallet wallet
     /\ IsCoinStake (snd mapping) = true
     /\ GetTxTime (snd mapping) < now - vote_timeframe
     /\ out sOld ∈ vout (snd mapping))
  /\ collectVotingAddresses wallet skip_gui = [sLegacy; sBech32; sOld]
  /\ collectVotingAddresses wallet (skip_rpc now) = [sLegacy; sBech32]
  /\ (exists postMessage obj rest,
        signBallots wallet "v1" "1" [sLegacy; sBech32] 0 "[" = inr postMessage
        /\ signedBallot wallet "v1" "1" sOld obj
        /\ wire (snd (vote (click "Fund") "1" (serviceCounting []) n))
           = {| req_type := CAST_VOTE;
                req_json := postMessage +:+ "," +:+ obj +:+ "]" |} :: rest).
Proof.
  cbn zeta. split_and!.
  - eexists. split_and!.
    + do 2 apply list_elem_of_further. apply list_elem_of_here.
    + reflexivity.
    + reflexivity.
    + apply list_elem_of_here.
  - vm_compute. reflexivity.
  - vm_compute. reflexivity.
  - destruct (signBallot wallet "v1" "1" sOld) as [e|obj] eqn:Hobj;
      [vm_compute in Hobj; discriminate|].
    destruct (signBallots wallet "v1" "1" [sLegacy; sBech32] 0 "[")
      as [e|postMessage] eqn:Hpm; [vm_compute in Hpm; discriminate|].
    exists postMessage, obj, [{| req_type := GET_PROPOSALS; req_json := EmptyString |}].
    split; [reflexivity|]. split.
    + by apply signBallot_inr.
    + vm_compute in Hobj, Hpm. simplify_eq. vm_compute. reflexivity.
Qed.

(** C5.  Run on a node that is still in initial block download, the
    RPC path signs, sends its [CAST_VOTE] request and stores the vote; the
    GUI path on the same node stops with its not-synced message. *)
Theorem rpc_casts_while_syncing :
  let n := nodeWith true wallet [] noVotes in
  let r := postoffchainproposals (rpc "p1" "1") now (serviceCounting records) n in
  fInitialBlockDownload n = true
  /\ fst r = R_Return (matchingVotes "p1" records)
  /\ (exists body, wire (snd r) = [{| req_type := CAST_VOTE; req_json := body |}])
  /\ walletdb (snd r) = [{| voteID := "p1"; voteWeight := 15 |}]
  /\ vote (click "Fund") "1" (serviceCounting records) n = (G_NotSynced, n).
Proof.
  cbn zeta. split_and!; try (vm_compute; reflexivity).
  eexists. vm_compute. reflexivity.
Qed.

(** The end-to-end scenario: one eligible address, one ballot, the
    service counts 50 for it; the cast reports 50 and the ledger holds
    the entry. *)
Example cast_counts_fifty :
  let w := walletWith [ (1, {| IsCoinStake := true; GetTxTime := now - 3600;
                               vout := [out sLegacy] |}) ] in
  let reply := [ {| v_vote_id := "prop-7"; v_address := "vA"; weight := "50" |} ] in
  let n := nodeWith false w [] noVotes in
  let r := postoffchainproposals (rpc "prop-7" "1") now (serviceCounting reply) n in
  collectVotingAddresses w (skip_rpc now) = [sLegacy]
  /\ fst r = R_Return [(0%nat, {| v_vote_id := "prop-7"; v_address := "vA";
                                   weight := "50" |})]
  /\ walletdb (snd r) = [{| voteID := "prop-7"; voteWeight := 50 |}]
  /\ length (wire (snd r)) = 1%nat
  /\ fst (vote {| selectedRow := Some "Prop 7"; unlockGranted := true;
                  confirmed := true |} "1" (serviceCounting reply)
            (nodeWith false w []
               {| proposals := [prop "Prop 7" "prop-7"]; votes := [];
                  statusOK := true |}))
     = G_Success 50.
Proof. cbn zeta. split_and!; vm_compute; reflexivity. Qed.

(** * Further properties of the cast paths *)

Section CastFacts.

Context `{prim : Primitives}.

(** Unfold a path in a hypothesis and split on every test it makes. *)
Ltac split_path Hcall :=
  unfold vote, postoffchainproposals, ListGovernanceEntries in Hcall;
  repeat (case_match; simplify_eq/=);
  repeat match goal with
         | Hr : awaitReady _ _ _ = Some _ |- _ =>
             apply awaitReady_Some in Hr as (? & ? & ->)
         | Hb : negb _ = true |- _ => apply negb_true_iff in Hb
         | Hb : negb _ = false |- _ => apply negb_false_iff in Hb
         end;
  cbn [walletdb wire pwallet g_governance fInitialBlockDownload
       set_governance set_walletdb SendRequests req_type] in *.

(** ** No eligible address *)

Lemma rpc_empty_batch (request : JSONRPCRequest) (vote_id decision : string)
    (current_time : Z) (svc : Service) (n : Node) :
  fHelp request = false ->
  params request = [vote_id; decision] ->
  IsLocked (pwallet n) = false ->
  IsHDEnabled (pwallet n) && fUnlockForStakingOnly (pwallet n) = false ->
  findVoted vote_id (walletdb n) = None ->
  collectVotingAddresses (pwallet n) (skip_rpc current_time) = [] ->
  wire (snd (postoffchainproposals request current_time svc n))
  = wire n ++ [{| req_type := CAST_VOTE; req_json := "[]" |}].
Proof.
  intros Hhelp Hpar Hlock Hstake Hnone Hempty.
  destruct (postoffchainproposals _ _ _ _) as [e n'] eqn:Hcall. cbn [snd].
  split_path Hcall; try congruence.
  all: match goal with
       | Hs : signBallots _ _ _ _ _ _ = _ |- _ =>
           rewrite Hempty in Hs; cbn in Hs; simplify_eq
       end.
  all: by rewrite ?(proj2 (proj2 (proj2 (storeVote_other _ _ _)))).
Qed.

Lemma gui_empty_batch (ui : GuiInput) (name_ decision : string)
    (svc : Service) (n : Node) :
  selectedRow ui = Some name_ ->
  fInitialBlockDownload n = false ->
  unlockGranted ui = true ->
  findVoted (vote_id (lookupProposal name_ (proposals (g_governance n))))
    (walletdb n) = None ->
  confirmed ui = true ->
  collectVotingAddresses (pwallet n) skip_gui = [] ->
  exists rest,
    wire (snd (vote ui decision svc n))
    = wire n ++ {| req_type := CAST_VOTE; req_json := "[]" |} :: rest.
Proof.
  intros Hsel Hibd Hunlock Hnone Hconf Hempty.
  destruct (vote _ _ _ _) as [e n'] eqn:Hcall. cbn [snd].
  split_path Hcall; try congruence.
  all: match goal with
       | Hs : signBallots _ _ _ _ _ _ = _ |- _ =>
           rewrite Hempty in Hs; cbn in Hs; simplify_eq
       end.
  all: rewrite ?(proj2 (proj2 (proj2 (storeVote_other _ _ _))));
    cbn [wire SendRequests set_governance]; rewrite <- ?app_assoc; by eexists.
Qed.

(** X1.  A cast that finds no eligible address is not stopped: once
    past the ledger check (and, on the GUI path, the confirmation), either
    path sends a [CAST_VOTE] request whose body is the empty list. *)
Theorem empty_batch_is_submitted :
  (forall (request : JSONRPCRequest) (vote_id decision : string)
      (current_time : Z) (svc : Service) (n : Node),
      fHelp request = false ->
      params request = [vote_id; decision] ->
      IsLocked (pwallet n) = false ->
      IsHDEnabled (pwallet n) && fUnlockForStakingOnly (pwallet n) = false ->
      findVoted vote_id (walletdb n) = None ->
      collectVotingAddresses (pwallet n) (skip_rpc current_time) = [] ->
      wire (snd (postoffchainproposals request current_time svc n))
      = wire n ++ [{| req_type := CAST_VOTE; req_json := "[]" |}])
  /\ (forall (ui : GuiInput) (name_ decision : string) (svc : Service) (n : Node),
      selectedRow ui = Some name_ ->
      fInitialBlockDownload n = false ->
      unlockGranted ui = true ->
      findVoted (vote_id (lookupProposal name_ (proposals (g_governance n))))
        (walletdb n) = None ->
      confirmed ui = true ->
      collectVotingAddresses (pwallet n) skip_gui = [] ->
      exists rest,
        wire (snd (vote ui decision svc n))
        = wire n ++ {| req_type := CAST_VOTE; req_json := "[]" |} :: rest).
Proof. split; [apply rpc_empty_batch|apply gui_empty_batch]. Qed.

End CastFacts.

Section CastFacts2.

Context `{prim : Primitives}.

Ltac split_path Hcall :=
  unfold vote, postoffchainproposals, ListGovernanceEntries in Hcall;
  repeat (case_match; simplify_eq/=);
  repeat match goal with
         | Hr : awaitReady _ _ _ = Some _ |- _ =>
             apply awaitReady_Some in Hr as (? & ? & ->)
         | Hb : negb _ = true |- _ => apply negb_true_iff in Hb
         | Hb : negb _ = false |- _ => apply negb_false_iff in Hb
         end;
  cbn [walletdb wire pwallet g_governance fInitialBlockDownload
       set_governance set_walletdb SendRequests req_type] in *.

(** ** Other proposals *)

Lemma findVoted_app_other (id vote_id : string) (w : Z) (db : GovernanceLedger) :
  id <> vote_id ->
  findVoted id (db ++ [{| voteID := vote_id; voteWeight := w |}])
  = findVoted id db.
Proof.
  intros Hne. unfold findVoted. induction db as [|e db IH]; cbn.
  - destruct (String.eqb_spec id vote_id); done.
  - destruct (String.eqb id (voteID e)); [done|exact IH].
Qed.

Lemma findVoted_app_old (id : string) (e : CGovernanceEntry)
    (db extra : GovernanceLedger) :
  findVoted id db = Some e -> findVoted id (db ++ extra) = Some e.
Proof.
  unfold findVoted. induction db as [|x db IH]; cbn; [done|].
  destruct (String.eqb id (voteID x)); [done|exact IH].
Qed.

(** X2.  A cast on either path changes what the ledger holds for no
    vote identifier but its own: whatever it does, the entry found for any
    other identifier is the one that was found before, and an entry that
    was there for any identifier is still the one found. *)
Theorem cast_leaves_other_votes_alone :
  (forall (request : JSONRPCRequest) (vote_id decision : string)
      (current_time : Z) (svc : Service) (n : Node) (id : string),
      params request = [vote_id; decision] ->
      let n' := snd (postoffchainproposals request current_time svc n) in
      (id <> vote_id -> findVoted id (walletdb n') = findVoted id (walletdb n))
      /\ (forall e, findVoted id (walletdb n) = Some e ->
                    findVoted id (walletdb n') = Some e))
  /\ (forall (ui : GuiInput) (name_ decision : string) (svc : Service)
      (n : Node) (id : string),
      selectedRow ui = Some name_ ->
      let n' := snd (vote ui decision svc n) in
      (id <> vote_id (lookupProposal name_ (proposals (g_governance n))) ->
       findVoted id (walletdb n') = findVoted id (walletdb n))
      /\ (forall e, findVoted id (walletdb n) = Some e ->
                    findVoted id (walletdb n') = Some e)).
Proof.
  split.
  - intros request v d t svc n id Hpar n'. subst n'.
    destruct (postoffchainproposals request t svc n) as [x n'] eqn:Hcall.
    cbn [snd].
    destruct (rpc_ledger_effect _ _ _ _ _ _ Hcall)
      as [->|(v' & d' & pm & r & w & Hpar' & _ & _ & _ & _ & _ & ->)]; [done|].
    assert (v' = v) as -> by congruence.
    split; [apply findVoted_app_other|intros e; apply findVoted_app_old].
  - intros ui nm d svc n id Hsel n'. subst n'.
    destruct (vote ui d svc n) as [x n'] eqn:Hcall. cbn [snd].
    destruct (gui_ledger_effect _ _ _ _ _ _ Hcall)
      as [->|(nm' & pm & r & w & Hsel' & _ & _ & _ & _ & _ & ->)]; [done|].
    assert (nm' = nm) as -> by congruence.
    split; [apply findVoted_app_other|intros e; apply findVoted_app_old].
Qed.

(** ** A row that names no buffered proposal *)

(** X3.  When the name in the selected row is the display name of no
    buffered proposal, the GUI path does not stop.  It looks the ledger up
    under the empty vote identifier of a default-constructed [Proposals]
    and, finding an entry, turns the cast down with that entry's weight.
    Finding none it goes on: once confirmed it signs for the empty
    identifier and sends those ballots, and when the reply counts a nonzero
    weight for the empty identifier it stores that weight under it. *)
Theorem unknown_row_votes_under_empty_id (ui : GuiInput) (name_ decision : string)
    (svc : Service) (n : Node) :
  selectedRow ui = Some name_ ->
  fInitialBlockDownload n = false ->
  unlockGranted ui = true ->
  Forall (fun q => name q <> name_) (proposals (g_governance n)) ->
  (forall entry,
     findVoted EmptyString (walletdb n) = Some entry ->
     vote ui decision svc n = (G_AlreadyVoted (voteWeight entry), n))
  /\ (findVoted EmptyString (walletdb n) = None ->
      confirmed ui = true ->
      forall postMessage,
        signBallots (pwallet n) EmptyString decision
          (collectVotingAddresses (pwallet n) skip_gui) 0 "["
        = inr postMessage ->
        let rq := {| req_type := CAST_VOTE; req_json := postMessage +:+ "]" |} in
        (exists rest,
           wire (snd (vote ui decision svc n)) = wire n ++ rq :: rest)
        /\ forall (r : Reply) (w : Z),
             svc rq = Some r -> r_statusOK r = true ->
             tally EmptyString (r_votes r) = Some w -> w <> 0 ->
             walletdb (snd (vote ui decision svc n))
             = walletdb n ++ [{| voteID := EmptyString; voteWeight := w |}]).
Proof.
  intros Hsel Hibd Hunlock Hnone.
  pose proof (lookupProposal_none _ _ Hnone) as Hdef.
  split.
  - intros entry Hentry. unfold vote, ListGovernanceEntries.
    rewrite Hsel, Hibd, Hunlock, Hdef.
    cbn [negb vote_id Proposals_default]. by rewrite Hentry.
  - intros Hfresh Hconf postMessage Hsign. cbn zeta.
    destruct (vote ui decision svc n) as [e n'] eqn:Hcall. cbn [snd].
    unfold vote, ListGovernanceEntries in Hcall.
    rewrite Hsel, Hibd, Hunlock, Hdef in Hcall.
    cbn [negb vote_id Proposals_default] in Hcall.
    rewrite Hfresh, Hconf, Hsign in Hcall. cbn [negb] in Hcall.
    cbn zeta in Hcall. unfold awaitReady in Hcall.
    destruct (svc {| req_type := CAST_VOTE; req_json := postMessage +:+ "]" |})
      as [r|] eqn:Hr.
    2: { simplify_eq. cbn [wire SendRequests]. split; [by exists []|done]. }
    cbn [fill req_type set_governance g_governance statusOK votes SendRequests]
      in Hcall.
    destruct (r_statusOK r) eqn:Hok; cbn [negb] in Hcall.
    2: { simplify_eq. cbn [wire]. split; [by exists []|].
         intros r' w [= <-]. congruence. }
    destruct (tally EmptyString (r_votes r)) as [w|] eqn:Hw.
    2: { simplify_eq. cbn [wire]. split; [by exists []|].
         intros r' w' [= <-]. congruence. }
    match type of Hcall with
    | context [storeVote EmptyString w ?m] => set (n2 := m) in Hcall
    end.
    assert (wire (storeVote EmptyString w n2)
            = wire n ++ [{| req_type := CAST_VOTE;
                            req_json := postMessage +:+ "]" |}]) as Hwire
      by by rewrite (proj2 (proj2 (proj2 (storeVote_other _ _ _)))).
    assert (w <> 0 ->
            walletdb (storeVote EmptyString w n2)
            = walletdb n ++ [{| voteID := EmptyString; voteWeight := w |}])
      as Hdb by (intros Hw0; by rewrite storeVote_walletdb).
    destruct (svc {| req_type := GET_PROPOSALS; req_json := EmptyString |});
      simplify_eq; cbn [wire walletdb SendRequests set_governance];
      rewrite Hwire;
      (split; [rewrite <- app_assoc; by eexists|]);
      intros r' w' [= <-] _ Hw' Hw0; assert (w' = w) as -> by congruence;
      by apply Hdb.
Qed.

(** ** The body of the request *)

Lemma gui_wire_exact (ui : GuiInput) (name_ decision : string)
    (svc : Service) (n n' : Node) (e : GuiExit) :
  selectedRow ui = Some name_ ->
  vote ui decision svc n = (e, n') ->
  wire n' = wire n
  \/ exists postMessage rest,
       signBallots (pwallet n)
         (vote_id (lookupProposal name_ (proposals (g_governance n)))) decision
         (collectVotingAddresses (pwallet n) skip_gui) 0 "["
       = inr postMessage
       /\ wire n' = wire n
            ++ {| req_type := CAST_VOTE; req_json := postMessage +:+ "]" |} :: rest
       /\ (rest = []
           \/ rest = [{| req_type := GET_PROPOSALS; req_json := EmptyString |}]).
Proof.
  intros Hsel Hcall. split_path Hcall; try by left.
  all: right.
  all: rewrite ?(proj2 (proj2 (proj2 (storeVote_other _ _ _)))).
  all: cbn [wire SendRequests set_governance]; rewrite <- ?app_assoc.
  all: eexists _, _; split_and!; [done|done|auto].
Qed.

(** X4.  On either path, the body of the [CAST_VOTE] request is an
    opening bracket, one signed ballot object for each collected address in
    the order of collection, separated by commas, and a closing bracket. *)
Theorem cast_body_lists_one_ballot_per_address :
  (forall (request : JSONRPCRequest) (vote_id decision : string)
      (current_time : Z) (svc : Service) (n n' : Node) (e : RpcExit),
      params request = [vote_id; decision] ->
      Z.of_nat (length (collectVotingAddresses (pwallet n) (skip_rpc current_time)))
      <= INT_MAX ->
      postoffchainproposals request current_time svc n = (e, n') ->
      wire n' <> wire n ->
      exists objs,
        Forall2 (signedBallot (pwallet n) vote_id decision)
          (collectVotingAddresses (pwallet n) (skip_rpc current_time)) objs
        /\ wire n' = wire n
             ++ [{| req_type := CAST_VOTE;
                    req_json := "[" +:+ String.concat "," objs +:+ "]" |}])
  /\ (forall (ui : GuiInput) (name_ decision : string) (svc : Service)
      (n n' : Node) (e : GuiExit),
      selectedRow ui = Some name_ ->
      Z.of_nat (length (collectVotingAddresses (pwallet n) skip_gui)) <= INT_MAX ->
      vote ui decision svc n = (e, n') ->
      wire n' <> wire n ->
      exists objs rest,
        Forall2 (signedBallot (pwallet n)
                   (vote_id (lookupProposal name_ (proposals (g_governance n))))
                   decision)
          (collectVotingAddresses (pwallet n) skip_gui) objs
        /\ wire n' = wire n
             ++ {| req_type := CAST_VOTE;
                   req_json := "[" +:+ String.concat "," objs +:+ "]" |} :: rest
        /\ Forall (fun rq => rq = {| req_type := GET_PROPOSALS;
                                     req_json := EmptyString |}) rest
        /\ (length rest <= 1)%nat).
Proof.
  split.
  - intros request v d t svc n n' e Hpar Hlen Hcall Hsent.
    destruct (rpc_wire _ _ _ _ _ _ _ _ Hpar Hcall) as [?|(pm & Hpm & Hwire)]; [done|].
    destruct (cast_body _ _ _ _ _ Hlen Hpm) as (objs & Hobjs & Hbody).
    exists objs. split; [done|]. by rewrite Hwire, Hbody.
  - intros ui nm d svc n n' e Hsel Hlen Hcall Hsent.
    destruct (gui_wire_exact _ _ _ _ _ _ _ Hsel Hcall)
      as [?|(pm & rest & Hpm & Hwire & Hrest)]; [done|].
    destruct (cast_body _ _ _ _ _ Hlen Hpm) as (objs & Hobjs & Hbody).
    exists objs, rest. split_and!; [done|by rewrite Hwire, Hbody| |].
    all: destruct Hrest as [->| ->]; cbn; by repeat constructor.
Qed.

End CastFacts2.

Lemma empty_batch_is_submitted_witness :
  let n := nodeWith false (walletWith []) [] noVotes in
  wire (snd (postoffchainproposals (rpc "p1" "1") now (serviceCounting []) n))
  = wire n ++ [{| req_type := CAST_VOTE; req_json := "[]" |}].
Proof.
  cbn zeta.
  apply (proj1 empty_batch_is_submitted (rpc "p1" "1") "p1" "1" now
           (serviceCounting []) (nodeWith false (walletWith []) [] noVotes));
    reflexivity.
Defined.

Lemma cast_leaves_other_votes_alone_witness :
  let n := nodeWith false wallet [{| voteID := "p2"; voteWeight := 7 |}] noVotes in
  let n' := snd (postoffchainproposals (rpc "p1" "1") now
                   (serviceCounting records) n) in
  findVoted "p2" (walletdb n') = findVoted "p2" (walletdb n).
Proof.
  cbn zeta.
  apply (proj1 (proj1 cast_leaves_other_votes_alone (rpc "p1" "1") "p1" "1" now
                  (serviceCounting records)
                  (nodeWith false wallet
                     [{| voteID := "p2"; voteWeight := 7 |}] noVotes)
                  "p2" eq_refl)).
  discriminate.
Defined.

Lemma unknown_row_votes_under_empty_id_witness :
  let n := nodeWith false wallet [] twins in
  let svc := serviceCounting
               [{| v_vote_id := EmptyString; v_address := "a"; weight := "9" |}] in
  exists postMessage,
    signBallots wallet EmptyString "1"
      (collectVotingAddresses wallet skip_gui) 0 "[" = inr postMessage
    /\ (exists rest,
          wire (snd (vote (click "Nobody") "1" svc n))
          = wire n
            ++ {| req_type := CAST_VOTE; req_json := postMessage +:+ "]" |}
               :: rest)
    /\ walletdb (snd (vote (click "Nobody") "1" svc n))
       = [{| voteID := EmptyString; voteWeight := 9 |}].
Proof.
  cbn zeta.
  destruct (signBallots wallet EmptyString "1"
              (collectVotingAddresses wallet skip_gui) 0 "[")
    as [e|postMessage] eqn:Hsign; [vm_compute in Hsign; discriminate|].
  exists postMessage. split; [reflexivity|].
  destruct (proj2 (unknown_row_votes_under_empty_id (click "Nobody") "Nobody" "1"
                     (serviceCounting
                        [{| v_vote_id := EmptyString; v_address := "a";
                            weight := "9" |}])
                     (nodeWith false wallet [] twins)
                     eq_refl eq_refl eq_refl
                     ltac:(repeat constructor; discriminate))
              eq_refl eq_refl postMessage Hsign) as [Hwire Hdb].
  split; [exact Hwire|].
  apply (Hdb {| r_statusOK := true; r_proposals := [];
                r_votes := [{| v_vote_id := EmptyString; v_address := "a";
                               weight := "9" |}] |} 9);
    [reflexivity|reflexivity|reflexivity|discriminate].
Defined.

Lemma cast_body_lists_one_ballot_per_address_witness :
  let n := nodeWith false wallet [] noVotes in
  let n' := snd (postoffchainproposals (rpc "p1" "1") now (serviceCounting records) n) in
  exists objs,
    Forall2 (signedBallot wallet "p1" "1")
      (collectVotingAddresses wallet (skip_rpc now)) objs
    /\ wire n' = wire n
         ++ [{| req_type := CAST_VOTE;
                req_json := "[" +:+ String.concat "," objs +:+ "]" |}].
Proof.
  cbn zeta.
  refine (proj1 cast_body_lists_one_ballot_per_address (rpc "p1" "1") "p1" "1" now
            (serviceCounting records) (nodeWith false wallet [] noVotes)
            (snd (postoffchainproposals (rpc "p1" "1") now
                    (serviceCounting records) (nodeWith false wallet [] noVotes)))
            (fst (postoffchainproposals (rpc "p1" "1") now
                    (serviceCounting records) (nodeWith false wallet [] noVotes)))
            eq_refl _ _ _).
  - vm_compute. discriminate.
  - apply surjective_pairing.
  - vm_compute. discriminate.
Defined.

(** * The proposal table *)

Section TableFacts.

Context `{prim : Primitives} `{disp : Display}.

(** ** How often the table is redrawn *)

Section Spacing.

Variable rd : nat -> Z.
Hypothesis rd_mono : forall i j : nat, (i <= j)%nat -> rd i <= rd j.
Hypothesis rd_range : forall k : nat, 0 <= rd k < 2 ^ 62.
Hypothesis cooldown_range : 0 <= FILTER_COOLDOWN_SECONDS < 2 ^ 31.
Hypothesis update_range : 0 <= UPDATE_SECONDS < 2 ^ 31.

Lemma readBefore_le (g : Gui) (x : Z) (k : nat) :
  readBefore rd g x -> (reads (clock g) <= k)%nat -> x <= rd k.
Proof. intros (i & Hi & ->) Hk. apply rd_mono. lia. Qed.

Lemma readBefore_range (g : Gui) (x : Z) : readBefore rd g x -> 0 <= x < 2 ^ 62.
Proof. intros (i & _ & ->). apply rd_range. Qed.

Lemma sinceRedraw_filter (last : option Z) (s : string) (g : Gui) :
  sinceRedraw rd last g -> sinceRedraw rd last (on_filterLineEdit_textChanged s g).
Proof.
  intros [Hrd Hlast]. unfold on_filterLineEdit_textChanged, GetTime.
  split; [done|]. cbn. destruct last as [r|]; [|done].
  destruct Hlast as (HL & Hr & _). split_and!; [done| |intros _; split].
  - destruct Hr as (i & Hi & ->). exists i. cbn. split; [lia|done].
  - rewrite Hrd. by apply (readBefore_le g).
  - exists (reads (clock g)). cbn. split; [lia|by rewrite Hrd].
Qed.

Lemma sinceRedraw_update (last : option Z) (l a : bool) (svc : Service)
    (g g' : Gui) (e : UpdateExit) :
  sinceRedraw rd last g ->
  updateProposalList l a svc g = (e, g') ->
  match e with
  | U_NoLock | U_Wait _ => sinceRedraw rd last g'
  | U_Threw | U_Done =>
      exists t', nTimeListUpdated (widget g') = Some t'
        /\ match last with
           | Some r => r + Z.min UPDATE_SECONDS FILTER_COOLDOWN_SECONDS <= t'
           | None => True
           end
        /\ sinceRedraw rd (Some t') g'
  end.
Proof.
  intros [Hrd Hlast] Hcall. unfold updateProposalList in Hcall.
  destruct l; cbn [negb] in Hcall; [|by simplify_eq].
  destruct last as [r|].
  - destruct Hlast as (HL & Hr & HF). rewrite HL in Hcall.
    unfold GetTime in Hcall. cbn [reading reads] in Hcall. rewrite Hrd in Hcall.
    set (k := reads (clock g)) in *.
    pose proof (readBefore_range _ _ Hr) as Hrr.
    pose proof (readBefore_le _ _ k Hr (le_n _)) as Hrk.
    pose proof (rd_range k) as Hk. pose proof (rd_mono k (S k) (le_S _ _ (le_n _))) as Hkk.
    pose proof (rd_range (S k)) as HSk.
    destruct (fFilterUpdated (widget g)) eqn:Hflag.
    + destruct (HF eq_refl) as [HrF HFb].
      pose proof (readBefore_range _ _ HFb) as HFr.
      rewrite (wrap64_small (nTimeFilterUpdated (widget g) - rd k)) in Hcall by lia.
      rewrite wrap64_small in Hcall by lia.
      destruct (Z.ltb_spec 0 (nTimeFilterUpdated (widget g) - rd k
                              + FILTER_COOLDOWN_SECONDS)) as [Hw|Hw].
      * simplify_eq. split; [done|]. cbn.
        split_and!; [done| |intros _; split; [done|]].
        -- destruct Hr as (i & Hi & ->). exists i. cbn. split; [fold k; lia|done].
        -- destruct HFb as (i & Hi & ->). exists i. cbn. split; [fold k; lia|done].
      * destruct (insertRows _ _ _) as [table fin]. 
        assert (e = U_Done \/ e = U_Threw) as He by (destruct fin; simplify_eq; auto).
        assert (g' = {| clock := {| reading := rd; reads := S (S k) |};
                        widget := widget g'; node := node g' |}
                /\ nTimeListUpdated (widget g') = Some (rd (S k))
                /\ fFilterUpdated (widget g') = false) as (Hg' & HL' & Hfl').
        { destruct fin; simplify_eq; done. }
        assert (exists t', nTimeListUpdated (widget g') = Some t'
                  /\ r + Z.min UPDATE_SECONDS FILTER_COOLDOWN_SECONDS <= t'
                  /\ sinceRedraw rd (Some t') g') as Hgoal.
        { exists (rd (S k)). split_and!; [done|lia|].
          rewrite Hg'. split; [done|]. cbn. rewrite HL', Hfl'.
          split_and!; [done| |done]. exists (S k). cbn. split; [lia|done]. }
        by destruct He as [-> | ->].
    + rewrite (wrap64_small (r - rd k)) in Hcall by lia.
      rewrite wrap64_small in Hcall by lia.
      destruct (Z.ltb_spec 0 (r - rd k + UPDATE_SECONDS)) as [Hw|Hw].
      * simplify_eq. split; [done|]. cbn.
        split_and!; [done| |done].
        destruct Hr as (i & Hi & ->). exists i. cbn. split; [fold k; lia|done].
      * destruct (insertRows _ _ _) as [table fin].
        assert (e = U_Done \/ e = U_Threw) as He by (destruct fin; simplify_eq; auto).
        assert (g' = {| clock := {| reading := rd; reads := S (S k) |};
                        widget := widget g'; node := node g' |}
                /\ nTimeListUpdated (widget g') = Some (rd (S k))
                /\ fFilterUpdated (widget g') = false) as (Hg' & HL' & Hfl').
        { destruct fin; simplify_eq; done. }
        assert (exists t', nTimeListUpdated (widget g') = Some t'
                  /\ r + Z.min UPDATE_SECONDS FILTER_COOLDOWN_SECONDS <= t'
                  /\ sinceRedraw rd (Some t') g') as Hgoal.
        { exists (rd (S k)). split_and!; [done|lia|].
          rewrite Hg'. split; [done|]. cbn. rewrite HL', Hfl'.
          split_and!; [done| |done]. exists (S k). cbn. split; [lia|done]. }
        by destruct He as [-> | ->].
  - clear Hlast.
    destruct (nTimeListUpdated (widget g)) as [L|];
      unfold GetTime in Hcall; cbn [reading reads] in Hcall; rewrite Hrd in Hcall.
    all: match type of Hcall with
         | context [if 0 <? ?w then _ else _] => destruct (0 <? w)
         end.
    all: try (simplify_eq; by split).
    all: destruct (insertRows _ _ _) as [table fin].
    all: destruct fin; simplify_eq; eexists; split_and!; try done.
    all: split; [done|]; cbn; split_and!; try done.
    all: eexists; cbn; split; [|reflexivity]; lia.
Qed.

Lemma spacedFrom_session (svc : Service) (evs : list UiEvent) :
  forall (last : option Z) (g : Gui),
    sinceRedraw rd last g ->
    spacedFrom (Z.min UPDATE_SECONDS FILTER_COOLDOWN_SECONDS) last
      (fst (session svc evs g)).
Proof.
  induction evs as [|ev evs IH]; intros last g Hinv; [done|].
  destruct ev as [l a|s|l a]; cbn [session].
  - destruct (updateProposalList l a svc g) as [e g'] eqn:Hcall.
    pose proof (sinceRedraw_update _ _ _ _ _ _ _ Hinv Hcall) as Hstep.
    destruct e.
    + by apply IH.
    + by apply IH.
    + destruct Hstep as (t' & -> & Hgap & _). by cbn.
    + destruct Hstep as (t' & HL' & Hgap & Hinv').
      specialize (IH (Some t') g' Hinv').
      destruct (session svc evs g') as [ts g'']. rewrite HL'. by cbn.
  - apply IH. by apply sinceRedraw_filter.
  - unfold on_refreshListButton_clicked.
    destruct (awaitReady svc _ _) as [n2|]; [|done].
    destruct (updateProposalList l a svc _) as [e g'] eqn:Hcall.
    assert (sinceRedraw rd last {| clock := clock g; widget := widget g; node := n2 |})
      as Hinv2 by (destruct Hinv as [? Hl]; split; [done|];
                   destruct last; [|done]; exact Hl).
    pose proof (sinceRedraw_update _ _ _ _ _ _ _ Hinv2 Hcall) as Hstep.
    destruct e.
    + by apply IH.
    + by apply IH.
    + destruct Hstep as (t' & -> & Hgap & _). by cbn.
    + destruct Hstep as (t' & HL' & Hgap & Hinv').
      specialize (IH (Some t') g' Hinv').
      destruct (session svc evs g') as [ts g'']. rewrite HL'. by cbn.
Qed.

End Spacing.

(** X5.  Over any session of the table (timer calls, filter changes and
    refresh clicks in any order) on a clock that does not run backwards,
    two successive redraws by [updateProposalList], and so the requests it
    sends before them, lie at least the smaller of the two intervals
    apart. *)
Theorem redraws_are_spaced (svc : Service) (evs : list UiEvent) (g : Gui) :
  (forall i j : nat, (i <= j)%nat -> reading (clock g) i <= reading (clock g) j) ->
  (forall k : nat, 0 <= reading (clock g) k < 2 ^ 62) ->
  0 <= FILTER_COOLDOWN_SECONDS < 2 ^ 31 ->
  0 <= UPDATE_SECONDS < 2 ^ 31 ->
  spacedFrom (Z.min UPDATE_SECONDS FILTER_COOLDOWN_SECONDS) None
    (fst (session svc evs g)).
Proof.
  intros Hmono Hrange HC HU.
  apply (spacedFrom_session (reading (clock g)) Hmono Hrange HC HU).
  by split.
Qed.

(** ** Filter changes hold the redraw back *)

Lemma filter_then_update_waits (rd : nat -> Z) (s : string) (l a : bool)
    (svc : Service) (g : Gui) :
  (forall i j : nat, (i <= j)%nat -> rd i <= rd j) ->
  (forall k : nat, 0 <= rd k < 2 ^ 62) ->
  0 <= FILTER_COOLDOWN_SECONDS < 2 ^ 31 ->
  (forall k : nat, rd (S (S k)) < rd k + FILTER_COOLDOWN_SECONDS) ->
  reading (clock g) = rd ->
  let r := updateProposalList l a svc (on_filterLineEdit_textChanged s g) in
  (fst r = U_NoLock \/ exists w, fst r = U_Wait w)
  /\ reading (clock (snd r)) = rd
  /\ node (snd r) = node g
  /\ rows (widget (snd r)) = rows (widget g).
Proof.
  intros Hmono Hrange HC Hfast Hrd. cbn zeta.
  unfold updateProposalList, on_filterLineEdit_textChanged, GetTime.
  destruct l; cbn [negb]; [|split_and!; by eauto].
  cbn [widget clock reading reads nTimeListUpdated fFilterUpdated
       nTimeFilterUpdated]. rewrite Hrd.
  set (k := reads (clock g)).
  pose proof (Hrange k) as Hk. pose proof (Hrange (S k)) as Hk1.
  pose proof (Hrange (S (S k))) as Hk2. pose proof (Hfast k) as Hf.
  pose proof (Hmono (S k) (S (S k)) (le_S _ _ (le_n _))) as Hm.
  destruct (nTimeListUpdated (widget g)) as [L|]; cbn [reading reads].
  - rewrite (wrap64_small (rd k - rd (S k))) by lia.
    rewrite wrap64_small by lia.
    destruct (Z.ltb_spec 0 (rd k - rd (S k) + FILTER_COOLDOWN_SECONDS)); [|lia].
    split_and!; by eauto.
  - rewrite (wrap64_small (rd k - rd (S (S k)))) by lia.
    rewrite wrap64_small by lia.
    destruct (Z.ltb_spec 0 (rd k - rd (S (S k)) + FILTER_COOLDOWN_SECONDS)); [|lia].
    split_and!; by eauto.
Qed.

(** X6.  While the filter text changes before every call of
    [updateProposalList] and any three successive readings of the clock
    span less than the filter cooldown, the table is never redrawn and no
    request is sent, however long ago the list was last updated. *)
Theorem filter_changes_hold_back_redraw (svc : Service)
    (rounds : list (string * bool * bool)) (g : Gui) :
  (forall i j : nat, (i <= j)%nat -> reading (clock g) i <= reading (clock g) j) ->
  (forall k : nat, 0 <= reading (clock g) k < 2 ^ 62) ->
  0 <= FILTER_COOLDOWN_SECONDS < 2 ^ 31 ->
  (forall k : nat,
     reading (clock g) (S (S k)) < reading (clock g) k + FILTER_COOLDOWN_SECONDS) ->
  let evs :=
    flat_map (fun '(s, l, a) => [EvFilter s; EvUpdate l a]) rounds in
  fst (session svc evs g) = []
  /\ node (snd (session svc evs g)) = node g
  /\ rows (widget (snd (session svc evs g))) = rows (widget g).
Proof.
  intros Hmono Hrange HC Hfast. cbn zeta.
  remember (reading (clock g)) as rd eqn:Hrd. symmetry in Hrd.
  revert g Hrd. induction rounds as [|[[s l] a] rounds IH]; intros g Hrd; [done|].
  cbn [flat_map app session].
  pose proof (filter_then_update_waits rd s l a svc g Hmono Hrange HC Hfast Hrd)
    as (He & Hrd' & Hnode & Hrows). cbn zeta in *.
  destruct (updateProposalList l a svc (on_filterLineEdit_textChanged s g))
    as [e g'] eqn:Hcall. cbn [fst snd] in *.
  specialize (IH g' Hrd'). rewrite <- Hnode, <- Hrows.
  destruct He as [->|[w ->]]; exact IH.
Qed.

(** ** What a redraw shows *)

Lemma insertRows_all (filter : string) (ps : list Proposals) :
  forall table : list Row,
    Forall (fun p => is_Some (stoi (end_time p))) ps ->
    insertRows filter ps table
    = (rev (omap (shownRow filter) ps) ++ table, true).
Proof.
  induction ps as [|p ps IH]; intros table Hall; [done|].
  apply Forall_cons in Hall as [[t Ht] Hall].
  cbn [insertRows omap list_omap]. unfold shownRow at 1. rewrite Ht. cbn zeta.
  rewrite <- negb_orb.
  destruct (_ || _); cbn [negb]; rewrite IH by done; [|done].
  cbn [rev]. by rewrite <- app_assoc.
Qed.

Lemma insertRows_stops (filter : string) (ps : list Proposals) :
  forall (table table' : list Row),
    insertRows filter ps table = (table', false) ->
    exists pre bad post,
      ps = pre ++ bad :: post
      /\ Forall (fun p => is_Some (stoi (end_time p))) pre
      /\ stoi (end_time bad) = None
      /\ table' = rev (omap (shownRow filter) pre) ++ table.
Proof.
  induction ps as [|p ps IH]; intros table table' Hins; [done|].
  cbn [insertRows] in Hins.
  destruct (stoi (end_time p)) as [t|] eqn:Ht.
  - cbn zeta in Hins. rewrite <- negb_orb in Hins.
    destruct (_ || _) eqn:Hkeep; cbn [negb] in Hins;
      apply IH in Hins as (pre & bad & post & -> & Hpre & Hbad & ->);
      exists (p :: pre), bad, post; split_and!; try done.
    + constructor; [by eexists|done].
    + cbn [omap list_omap]. unfold shownRow at 2. rewrite Ht. cbn zeta.
      rewrite Hkeep. cbn [rev]. by rewrite <- app_assoc.
    + constructor; [by eexists|done].
    + cbn [omap list_omap]. unfold shownRow at 2. rewrite Ht. cbn zeta.
      by rewrite Hkeep.
  - simplify_eq. exists [], p, ps. by split_and!.
Qed.

Lemma insertRows_finished (filter : string) (ps : list Proposals)
    (table table' : list Row) :
  insertRows filter ps table = (table', true) ->
  Forall (fun p => is_Some (stoi (end_time p))) ps.
Proof.
  revert table. induction ps as [|p ps IH]; intros table Hins; [done|].
  cbn [insertRows] in Hins.
  destruct (stoi (end_time p)) as [t|] eqn:Ht; [|done].
  cbn zeta in Hins. constructor; [by eexists|].
  destruct (_ && _); by eapply IH.
Qed.

Lemma omap_shownRow_all (ps : list Proposals) :
  Forall (fun p => is_Some (stoi (end_time p))) ps ->
  length (omap (shownRow EmptyString) ps) = length ps.
Proof.
  induction 1 as [|p ps [t Ht] _ IH]; [done|].
  cbn [omap list_omap]. unfold shownRow at 1. rewrite Ht. cbn. by rewrite IH.
Qed.

(** What a call that got past its deadline did before the loop. *)
Lemma update_redraw_inv (l a : bool) (svc : Service) (g g' : Gui) (e : UpdateExit) :
  updateProposalList l a svc g = (e, g') ->
  e = U_Done \/ e = U_Threw ->
  let rq := {| req_type := GET_PROPOSALS; req_json := EmptyString |} in
  node g' = landing a svc rq (SendRequests rq (node g))
  /\ wire (node g') = wire (node g) ++ [rq]
  /\ walletdb (node g') = walletdb (node g)
  /\ fFilterUpdated (widget g') = false
  /\ strCurrentFilter (widget g') = strCurrentFilter (widget g)
  /\ insertRows (strCurrentFilter (widget g))
       (proposals (g_governance (node g'))) []
     = (rows (widget g'), match e with U_Done => true | _ => false end)
  /\ sortingEnabled (widget g') = match e with U_Done => true | _ => false end
  /\ countLabel (widget g')
     = match e with
       | U_Done => LabelRows (length (rows (widget g')))
       | _ => LabelUpdating
       end.
Proof.
  intros Hcall He. cbn zeta. unfold updateProposalList in Hcall.
  destruct l; cbn [negb] in Hcall; [|destruct He; by simplify_eq].
  destruct (match nTimeListUpdated (widget g) with
            | Some t => (t, clock g) | None => GetTime (clock g) end)
    as [L c1].
  destruct (GetTime c1) as [t c2].
  destruct (0 <? _); [destruct He; by simplify_eq|].
  destruct (GetTime c2) as [t' c3].
  destruct (insertRows _ _ _) as [table fin] eqn:Hins.
  assert (wire (landing a svc {| req_type := GET_PROPOSALS; req_json := EmptyString |}
                  (SendRequests {| req_type := GET_PROPOSALS; req_json := EmptyString |}
                     (node g)))
          = wire (node g) ++ [{| req_type := GET_PROPOSALS; req_json := EmptyString |}]
          /\ walletdb (landing a svc {| req_type := GET_PROPOSALS; req_json := EmptyString |}
                  (SendRequests {| req_type := GET_PROPOSALS; req_json := EmptyString |}
                     (node g))) = walletdb (node g)) as [Hwire Hdb].
  { unfold landing. destruct a; [|done]. by destruct (svc _). }
  destruct fin; simplify_eq; cbn; by split_and!.
Qed.

(** X7.  A call of [updateProposalList] that runs to its end leaves in
    the table, for the proposals the client holds at that moment, the rows
    of exactly those whose filter text contains the current filter (all of
    them when the filter is empty), and shows their number. *)
Theorem redraw_shows_matching_rows (l a : bool) (svc : Service) (g g' : Gui) :
  updateProposalList l a svc g = (U_Done, g') ->
  let ps := proposals (g_governance (node g')) in
  Forall (fun p => is_Some (stoi (end_time p))) ps
  /\ rows (widget g') = rev (omap (shownRow (strCurrentFilter (widget g))) ps)
  /\ countLabel (widget g') = LabelRows (length (rows (widget g')))
  /\ (strCurrentFilter (widget g) = EmptyString ->
      length (rows (widget g')) = length ps)
  /\ (forall r, r ∈ rows (widget g') <->
        exists p t, p ∈ ps /\ stoi (end_time p) = Some t /\ r = rowOf p t
          /\ (strCurrentFilter (widget g) = EmptyString
              \/ contains (strToFilter r) (strCurrentFilter (widget g)) = true)).
Proof.
  intros Hcall. cbn zeta.
  destruct (update_redraw_inv _ _ _ _ _ _ Hcall (or_introl eq_refl))
    as (_ & _ & _ & _ & _ & Hins & _ & Hlabel).
  pose proof (insertRows_finished _ _ _ _ Hins) as Hall.
  rewrite (insertRows_all _ _ _ Hall), app_nil_r in Hins.
  injection Hins as Hrows. split_and!; [done|done|done| |].
  - intros Hempty. rewrite <- Hrows, Hempty, length_rev.
    by apply omap_shownRow_all.
  - intros r. rewrite <- Hrows, list_elem_of_In, <- in_rev, <- list_elem_of_In, list_elem_of_omap.
    unfold shownRow. split.
    + intros (p & Hp & Hr). destruct (stoi (end_time p)) as [t|] eqn:Ht; [|done].
      cbn zeta in Hr. destruct (String.eqb_spec (strCurrentFilter (widget g)) EmptyString)
        as [Hf|Hf]; cbn [orb] in Hr.
      * simplify_eq. exists p, t. split_and!; auto.
      * destruct (contains _ _) eqn:Hc; simplify_eq. exists p, t.
        split_and!; auto.
    + intros (p & t & Hp & Ht & -> & Hkeep). exists p. split; [done|].
      rewrite Ht. cbn zeta.
      destruct Hkeep as [-> | ->]; [done|]. by rewrite orb_true_r.
Qed.

(** X8.  The redraw throws exactly when the client holds a proposal
    whose [end_time] is not a number [std::stoi] accepts.  By then the
    request has gone out and the deadline has been restarted; the label is
    left at "Updating...", sorting stays disabled, and the table holds the
    rows of the proposals before the first such one. *)
Theorem redraw_throws_on_bad_end_time (l a : bool) (svc : Service)
    (g g' : Gui) (e : UpdateExit) :
  updateProposalList l a svc g = (e, g') ->
  e = U_Done \/ e = U_Threw ->
  let ps := proposals (g_governance (node g')) in
  (e = U_Threw <-> Exists (fun p => stoi (end_time p) = None) ps)
  /\ (e = U_Threw ->
      wire (node g')
      = wire (node g) ++ [{| req_type := GET_PROPOSALS; req_json := EmptyString |}]
      /\ fFilterUpdated (widget g') = false
      /\ countLabel (widget g') = LabelUpdating
      /\ sortingEnabled (widget g') = false
      /\ exists pre bad post,
           ps = pre ++ bad :: post
           /\ Forall (fun p => is_Some (stoi (end_time p))) pre
           /\ stoi (end_time bad) = None
           /\ rows (widget g')
              = rev (omap (shownRow (strCurrentFilter (widget g))) pre)).
Proof.
  intros Hcall He. cbn zeta.
  destruct (update_redraw_inv _ _ _ _ _ _ Hcall He)
    as (_ & Hwire & _ & Hflag & _ & Hins & Hsort & Hlabel).
  split.
  - destruct He as [-> | ->].
    + apply insertRows_finished in Hins. split; [done|].
      intros Hbad. apply Exists_exists in Hbad as (p & Hp & Hnone).
      rewrite Forall_forall in Hins. destruct (Hins p Hp) as [t Ht]. congruence.
    + apply insertRows_stops in Hins as (pre & bad & post & -> & _ & Hbad & _).
      split; [intros _|done]. apply Exists_app. right. by constructor.
  - intros ->.
    apply insertRows_stops in Hins as (pre & bad & post & Hps & Hpre & Hbad & Hrows).
    rewrite app_nil_r in Hrows. split_and!; try done.
    exists pre, bad, post. by split_and!.
Qed.

(** ** The refresh button *)

(** X9.  A click on the refresh button sends its request whatever the
    deadlines say and waits for the reply.  The redraw that follows is
    still bound by them: while they have not passed, the client holds the
    reply and the table keeps its former rows; once they have, a second
    request goes out. *)
Theorem refresh_click_fetches_but_may_not_redraw (l a : bool) (svc : Service)
    (g g' : Gui) (e : RefreshExit) :
  on_refreshListButton_clicked l a svc g = (e, g') ->
  let rq := {| req_type := GET_PROPOSALS; req_json := EmptyString |} in
  walletdb (node g') = walletdb (node g)
  /\ match e with
     | Rf_Spins => wire (node g') = wire (node g) ++ [rq] /\ svc rq = None
     | Rf_Updated U_NoLock | Rf_Updated (U_Wait _) =>
         wire (node g') = wire (node g) ++ [rq]
         /\ rows (widget g') = rows (widget g)
         /\ exists r, svc rq = Some r
              /\ proposals (g_governance (node g')) = r_proposals r
     | Rf_Updated U_Done | Rf_Updated U_Threw =>
         wire (node g') = wire (node g) ++ [rq; rq]
     end.
Proof.
  intros Hcall. cbn zeta. unfold on_refreshListButton_clicked in Hcall.
  destruct (awaitReady svc _ _) as [n2|] eqn:Hready.
  - apply awaitReady_Some in Hready as (r & Hr & ->).
    destruct (updateProposalList l a svc _) as [x g2] eqn:Hupd.
    simplify_eq.
    destruct x as [|w| |].
    + unfold updateProposalList in Hupd.
      destruct l; cbn [negb] in Hupd; [|simplify_eq; cbn; eauto 10].
      repeat case_match; simplify_eq.
    + unfold updateProposalList in Hupd.
      destruct l; cbn [negb] in Hupd; [|simplify_eq].
      repeat case_match; simplify_eq; cbn; eauto 10.
    + destruct (update_redraw_inv _ _ _ _ _ _ Hupd (or_intror eq_refl))
        as (_ & Hwire & Hdb & _). cbn in Hwire, Hdb.
      split; [done|]. by rewrite Hwire, <- app_assoc.
    + destruct (update_redraw_inv _ _ _ _ _ _ Hupd (or_introl eq_refl))
        as (_ & Hwire & Hdb & _). cbn in Hwire, Hdb.
      split; [done|]. by rewrite Hwire, <- app_assoc.
  - simplify_eq. cbn. split; [done|]. split; [done|].
    unfold awaitReady in Hready. by destruct (svc _).
Qed.

(** ** The description dialog *)

Lemma stoi_empty : stoi EmptyString = None.
Proof. reflexivity. Qed.

(** X10.  A double click on a row whose name is the display name of no
    buffered proposal throws, [std::stoi] being given the empty [end_time]
    of a default-constructed [Proposals]; otherwise the dialog describes
    the first buffered proposal of that name, provided its [end_time] is
    a number. *)
Theorem double_click_describes_first_match_or_throws
    (name_ : string) (others : list string) (n : Node) :
  (Forall (fun q => name q <> name_) (proposals (g_governance n)) ->
   on_tableWidgetProposals_doubleClicked (name_ :: others) n = D_Threw)
  /\ (forall (p : Proposals) (pre post : list Proposals),
        proposals (g_governance n) = pre ++ p :: post ->
        name p = name_ ->
        Forall (fun q => name q <> name_) pre ->
        match stoi (end_time p) with
        | None =>
            on_tableWidgetProposals_doubleClicked (name_ :: others) n = D_Threw
        | Some t =>
            exists d,
              on_tableWidgetProposals_doubleClicked (name_ :: others) n = D_Shown d
              /\ windowTitle d = name_
              /\ dialogText d =
                 "Name: " +:+ name p +:+ nl +:+ nl
                 +:+ "Details: " +:+ details p +:+ nl +:+ nl
                 +:+ "Address: " +:+ address p +:+ nl +:+ nl
                 +:+ "Amount: " +:+ amount p +:+ nl +:+ nl
                 +:+ "TxID: " +:+ txid p +:+ nl +:+ nl
                 +:+ "Expiration: " +:+ DateTimeStrFormat t +:+ nl +:+ nl
                 +:+ "Votes Affirm: " +:+ votes_affirm p +:+ nl +:+ nl
                 +:+ "Votes Oppose: " +:+ votes_oppose p +:+ nl
        end).
Proof.
  split.
  - intros Hnone. unfold on_tableWidgetProposals_doubleClicked.
    by rewrite (lookupProposal_none _ _ Hnone).
  - intros p pre post Hbuf <- Hpre.
    unfold on_tableWidgetProposals_doubleClicked.
    rewrite Hbuf, (lookupProposal_first _ _ _ Hpre).
    destruct (stoi (end_time p)) as [t|]; [|done]. by eexists.
Qed.

(** X11.  Expanding a selection of several rows does not describe each
    of them: every dialog it opens is the one of the first selected row,
    and there are as many as rows selected, unless that one throws. *)
Theorem expand_repeats_first_row (selection : list string) (n : Node) :
  on_expandProposalButton_clicked true selection n
  = match on_tableWidgetProposals_doubleClicked selection n with
    | D_NoSelection => []
    | D_Threw => [D_Threw]
    | D_Shown d => replicate (length selection) (D_Shown d)
    end.
Proof.
  unfold on_expandProposalButton_clicked. cbn [negb].
  destruct (on_tableWidgetProposals_doubleClicked selection n) as [| |d] eqn:Hd.
  - destruct selection; [done|]. unfold on_tableWidgetProposals_doubleClicked in Hd.
    by destruct (stoi _).
  - destruct selection as [|x rest]; [done|]. cbn [expandEach]. by rewrite Hd.
  - generalize selection at 1 3 as indices.
    induction indices as [|x rest IH]; [done|].
    cbn [expandEach length replicate]. by rewrite Hd, IH.
Qed.

End TableFacts.

Import Scenario.

Lemma redraws_are_spaced_witness :
  spacedFrom 3 None
    (fst (session (Scenario.serviceListing Scenario.listed)
            [EvUpdate true true; EvUpdate true true; EvFilter "Fu";
             EvUpdate true true; EvRefresh true true; EvUpdate true true]
            (Scenario.gui 40 Scenario.constructed []))).
Proof.
  apply (@redraws_are_spaced prims Scenario.display
           (Scenario.serviceListing Scenario.listed)
           [EvUpdate true true; EvUpdate true true; EvFilter "Fu";
            EvUpdate true true; EvRefresh true true; EvUpdate true true]
           (Scenario.gui 40 Scenario.constructed [])).
  - intros i j Hij. cbv [Scenario.gui Scenario.clockEvery clock reading now]. lia.
  - intros k. cbv [Scenario.gui Scenario.clockEvery clock reading now FILTER_COOLDOWN_SECONDS Scenario.display]. lia.
  - cbn. lia.
  - cbn. lia.
Defined.

Lemma filter_changes_hold_back_redraw_witness :
  let g := Scenario.gui 1 (Scenario.idle 100 EmptyString) [] in
  let evs := [EvFilter "F"; EvUpdate true true; EvFilter "Fu"; EvUpdate true true] in
  fst (session (Scenario.serviceListing Scenario.listed) evs g) = []
  /\ node (snd (session (Scenario.serviceListing Scenario.listed) evs g)) = node g
  /\ rows (widget (snd (session (Scenario.serviceListing Scenario.listed) evs g)))
     = rows (widget g).
Proof.
  cbn zeta.
  apply (@filter_changes_hold_back_redraw prims Scenario.display
           (Scenario.serviceListing Scenario.listed)
           [("F", true, true); ("Fu", true, true)]
           (Scenario.gui 1 (Scenario.idle 100 EmptyString) [])).
  - intros i j Hij. cbv [Scenario.gui Scenario.clockEvery clock reading now]. lia.
  - intros k. cbv [Scenario.gui Scenario.clockEvery clock reading now FILTER_COOLDOWN_SECONDS Scenario.display]. lia.
  - cbn. lia.
  - intros k. cbv [Scenario.gui Scenario.clockEvery clock reading now FILTER_COOLDOWN_SECONDS Scenario.display]. lia.
Defined.

Lemma redraw_shows_matching_rows_witness :
  let g := Scenario.gui 40 (Scenario.idle 100 "Fund") [] in
  let g' := snd (updateProposalList true true
                   (Scenario.serviceListing Scenario.listed) g) in
  rows (widget g')
  = rev (omap (shownRow "Fund") (proposals (g_governance (node g')))).
Proof.
  cbn zeta.
  refine (proj1 (proj2 (@redraw_shows_matching_rows prims Scenario.display
            true true (Scenario.serviceListing Scenario.listed)
            (Scenario.gui 40 (Scenario.idle 100 "Fund") []) _ _))).
  reflexivity.
Defined.

Lemma redraw_throws_on_bad_end_time_witness :
  let ps := [prop "Fund" "v1"; Scenario.undated "Park"; prop "Pool" "v3"] in
  let g := Scenario.gui 40 (Scenario.idle 100 EmptyString) [] in
  let g' := snd (updateProposalList true true (Scenario.serviceListing ps) g) in
  countLabel (widget g') = LabelUpdating
  /\ sortingEnabled (widget g') = false
  /\ length (rows (widget g')) = 1%nat.
Proof.
  cbn zeta.
  destruct (proj2 (@redraw_throws_on_bad_end_time prims Scenario.display
              true true
              (Scenario.serviceListing
                 [prop "Fund" "v1"; Scenario.undated "Park"; prop "Pool" "v3"])
              (Scenario.gui 40 (Scenario.idle 100 EmptyString) []) _ U_Threw
              eq_refl (or_intror eq_refl)) eq_refl)
    as (_ & _ & Hlabel & Hsort & _).
  split; [exact Hlabel|]. split; [exact Hsort|]. reflexivity.
Defined.

Lemma refresh_click_fetches_but_may_not_redraw_witness :
  let g := Scenario.gui 1 (Scenario.idle 0 EmptyString) [] in
  let g' := snd (on_refreshListButton_clicked true true
                   (Scenario.serviceListing Scenario.listed) g) in
  rows (widget g') = []
  /\ proposals (g_governance (node g')) = Scenario.listed.
Proof.
  cbn zeta.
  destruct (@refresh_click_fetches_but_may_not_redraw prims Scenario.display
              true true (Scenario.serviceListing Scenario.listed)
              (Scenario.gui 1 (Scenario.idle 0 EmptyString) []) _
              (Rf_Updated (U_Wait 60)) eq_refl)
    as (_ & _ & Hrows & r & Hr & Hps).
  split; [exact Hrows|]. injection Hr as <-. exact Hps.
Defined.

Lemma double_click_describes_first_match_or_throws_witness :
  on_tableWidgetProposals_doubleClicked ["Gone"]
    (node (Scenario.gui 1 (Scenario.idle 100 EmptyString) Scenario.listed))
  = D_Threw.
Proof.
  apply (proj1 (@double_click_describes_first_match_or_throws prims
                  Scenario.display "Gone" []
                  (node (Scenario.gui 1 (Scenario.idle 100 EmptyString)
                           Scenario.listed)))).
  repeat constructor; discriminate.
Defined.

(** * The governance RPCs beside the cast *)

Section RpcFacts.

Context `{prim : Primitives} `{chain : ChainView}.

(** ** [getvoteweight] *)

Lemma weighOutputs_gain (w : CWallet) (height : Z) (outs : list CTxOut) :
  forall acc : Z,
    - 2 ^ 63 <= acc < 2 ^ 63 ->
    weighOutputs w height outs acc
    = wrap64 (acc + foldr Z.add 0 (map (gainOfOutput w height) outs)).
Proof.
  unfold weighOutputs.
  induction outs as [|o outs IH]; intros acc Hacc; cbn [fold_left map foldr].
  - rewrite Z.add_0_r. symmetry. by apply wrap64_small.
  - unfold gainOfOutput at 1.
    destruct (IsMine w (scriptPubKey o)); cbn [negb];
      [|rewrite IH by done; f_equal; lia].
    destruct (IsPayToScriptHashAny (scriptPubKey o));
      [rewrite IH by done; f_equal; lia|].
    destruct (_ || _); rewrite IH by apply wrap64_range;
      rewrite wrap64_add_l; f_equal; lia.
Qed.

Lemma weighWallet_gain (w : CWallet) (start_time end_time : Z)
    (m : list (uint256 * CWalletTx)) :
  forall acc : Z,
    - 2 ^ 63 <= acc < 2 ^ 63 ->
    weighWallet w start_time end_time m acc
    = wrap64 (acc + foldr Z.add 0 (map (gainOfTx w start_time end_time) m)).
Proof.
  unfold weighWallet.
  induction m as [|mp m IH]; intros acc Hacc; cbn [fold_left map foldr].
  - rewrite Z.add_0_r. symmetry. by apply wrap64_small.
  - unfold gainOfTx at 1.
    destruct (inWindow start_time end_time mp); cbn [negb].
    + rewrite weighOutputs_gain by done. rewrite IH by apply wrap64_range.
      rewrite wrap64_add_l. apply (f_equal wrap64). cbn zeta. lia.
    + rewrite IH by done. apply (f_equal wrap64). lia.
Qed.

Lemma gainOfTx_split (w : CWallet) (a b c : Z) (mp : uint256 * CWalletTx) :
  a <= b + 1 -> b <= c ->
  gainOfTx w a c mp = gainOfTx w a b mp + gainOfTx w (b + 1) c mp.
Proof.
  intros Hab Hbc. unfold gainOfTx, inWindow.
  destruct (IsCoinStake (snd mp) && IsInMainChain (fst mp)); cbn [andb]; [|done].
  set (t := GetTxTime (snd mp)).
  destruct (Z.leb_spec a t), (Z.leb_spec t c), (Z.leb_spec t b),
    (Z.leb_spec (b + 1) t); cbn [andb]; lia.
Qed.

Lemma gainOfWallet_split (w : CWallet) (a b c : Z) :
  a <= b + 1 -> b <= c ->
  gainOfWallet w a c = gainOfWallet w a b + gainOfWallet w (b + 1) c.
Proof.
  intros Hab Hbc. unfold gainOfWallet.
  induction (mapWallet w) as [|mp m IH]; [done|].
  cbn [map foldr]. rewrite IH, (gainOfTx_split w a b c mp Hab Hbc). lia.
Qed.

Lemma gainOfTx_empty (w : CWallet) (a c : Z) (mp : uint256 * CWalletTx) :
  c < a -> gainOfTx w a c mp = 0.
Proof.
  intros Hca. unfold gainOfTx, inWindow.
  destruct (IsCoinStake (snd mp) && IsInMainChain (fst mp)); cbn [andb]; [|done].
  destruct (Z.leb_spec a (GetTxTime (snd mp))),
    (Z.leb_spec (GetTxTime (snd mp)) c); cbn [andb]; try done; lia.
Qed.

(** X12.  The weight [getvoteweight] reports for a window is, in 64-bit
    arithmetic, the sum of what it reports for two windows that split it
    at a second, both ends of a window counting; a window that ends
    before it starts weighs nothing. *)
Theorem vote_weight_adds_over_adjacent_windows (w : CWallet) (a b c : Z) :
  a <= b + 1 -> b <= c ->
  exists x y : Z,
    getvoteweight false [a; b] w = W_Return x
    /\ getvoteweight false [b + 1; c] w = W_Return y
    /\ getvoteweight false [a; c] w = W_Return (wrap64 (x + y))
    /\ (forall s e : Z, e < s -> getvoteweight false [s; e] w = W_Return 0).
Proof.
  intros Hab Hbc. unfold getvoteweight.
  eexists _, _. split_and!; try reflexivity.
  - f_equal. rewrite !weighWallet_gain by lia. rewrite !Z.add_0_l.
    rewrite wrap64_add_l, wrap64_add_r. f_equal.
    apply (gainOfWallet_split w a b c Hab Hbc).
  - intros s e Hes. f_equal. rewrite weighWallet_gain by lia.
    rewrite Z.add_0_l.
    replace (foldr Z.add 0 (map (gainOfTx w s e) (mapWallet w))) with 0;
      [done|].
    induction (mapWallet w) as [|mp m IH]; [done|].
    cbn [map foldr]. rewrite <- IH, gainOfTx_empty by done. done.
Qed.

Lemma weighOutputs_none (w : CWallet) (height : Z) (outs : list CTxOut) (acc : Z) :
  Forall (fun o => IsMine w (scriptPubKey o) = false
                   \/ IsPayToScriptHashAny (scriptPubKey o) = true) outs ->
  weighOutputs w height outs acc = acc.
Proof.
  unfold weighOutputs. induction 1 as [|o outs [Ho|Ho] _ IH]; [done| |];
    cbn [fold_left]; rewrite Ho; cbn [negb]; [done|].
  by destruct (IsMine w (scriptPubKey o)).
Qed.

(** X13.  A wallet for which [postoffchainproposals] would collect no
    voting address has no weight either, over any window that starts
    within the 46 days the cast looks back. *)
Theorem no_voting_address_no_weight (w : CWallet)
    (current_time start_time end_time : Z) :
  collectVotingAddresses w (skip_rpc current_time) = [] ->
  wrap64 (current_time - vote_timeframe) <= start_time ->
  getvoteweight false [start_time; end_time] w = W_Return 0.
Proof.
  intros Hnone Hstart. unfold getvoteweight. f_equal.
  assert (Hall : forall mp, mp ∈ mapWallet w ->
            inWindow start_time end_time mp = true ->
            Forall (fun o => IsMine w (scriptPubKey o) = false
                     \/ IsPayToScriptHashAny (scriptPubKey o) = true)
                   (vout (snd mp))).
  { intros mp Hmp Hwin. apply Forall_forall. intros o Ho.
    destruct (IsMine w (scriptPubKey o)) eqn:Hmine; [|by left].
    destruct (IsPayToScriptHashAny (scriptPubKey o)) eqn:Hp2sh; [by right|].
    exfalso.
    assert (scriptPubKey o ∈ collectVotingAddresses w (skip_rpc current_time))
      as Hin.
    { apply collectVotingAddresses_elem. exists mp, o.
      split_and!; try done.
      unfold inWindow in Hwin. unfold skip_rpc.
      apply andb_prop in Hwin as [Hwin _].
      apply andb_prop in Hwin as [Hwin Hge].
      apply andb_prop in Hwin as [-> _]. cbn [negb orb].
      apply Z.ltb_ge. apply Z.leb_le in Hge. clear - Hge Hstart. lia. }
    rewrite Hnone in Hin. by apply elem_of_nil in Hin. }
  unfold weighWallet. generalize 0 as acc.
  induction (mapWallet w) as [|mp m IH]; intros acc; [done|].
  cbn [fold_left].
  destruct (inWindow start_time end_time mp) eqn:Hwin; cbn [negb].
  - rewrite weighOutputs_none by (apply Hall; [apply list_elem_of_here|done]).
    apply IH. intros mp' Hmp'. apply Hall. by apply list_elem_of_further.
  - apply IH. intros mp' Hmp'. apply Hall. by apply list_elem_of_further.
Qed.

(** ** [erasegoventries] *)

Lemma eraseEach_done (refused : CGovernanceEntry -> bool)
    (govEntries : list CGovernanceEntry) :
  forall (db db' : GovernanceLedger) (i k : Z),
    eraseEach refused govEntries db i = (Some k, db') ->
    Forall (fun e => refused e = false) govEntries
    /\ db' = List.filter
               (fun x => negb (existsb (fun e => String.eqb (voteID x) (voteID e))
                                 govEntries)) db
    /\ (0 <= i -> i + Z.of_nat (length govEntries) < 2 ^ 31 ->
        k = i + Z.of_nat (length govEntries)).
Proof.
  induction govEntries as [|e rest IH]; intros db db' i k Hrun;
    cbn [eraseEach] in Hrun.
  - simplify_eq. split_and!; [done| |cbn; lia].
    cbn [existsb negb]. induction db' as [|x db' IHdb]; [done|].
    cbn [List.filter]. by rewrite <- IHdb.
  - unfold EraseGovernanceEntry in Hrun.
    destruct (refused e) eqn:Href; cbn [negb] in Hrun; [done|].
    apply IH in Hrun as (Hall & -> & Hk). split_and!.
    + by constructor.
    + clear. induction db as [|x db IHdb]; [done|].
      cbn [List.filter existsb].
      destruct (String.eqb (voteID x) (voteID e)); cbn [negb orb];
        [done|]. cbn [List.filter].
      destruct (negb (existsb _ rest)); by rewrite IHdb.
    + intros Hi Hlen. cbn [length] in Hlen.
      unfold wrap32, wrap in Hk. change (2 ^ (32 - 1)) with (2 ^ 31) in Hk.
      rewrite Z.mod_small in Hk by lia. cbn [length]. lia.
Qed.

Lemma eraseEach_failed (refused : CGovernanceEntry -> bool)
    (govEntries : list CGovernanceEntry) :
  forall (db db' : GovernanceLedger) (i : Z),
    eraseEach refused govEntries db i = (None, db') ->
    exists pre bad post,
      govEntries = pre ++ bad :: post
      /\ Forall (fun e => refused e = false) pre
      /\ refused bad = true
      /\ db' = List.filter
                 (fun x => negb (existsb (fun e => String.eqb (voteID x) (voteID e))
                                   pre)) db.
Proof.
  induction govEntries as [|e rest IH]; intros db db' i Hrun;
    cbn [eraseEach] in Hrun; [done|].
  unfold EraseGovernanceEntry in Hrun.
  destruct (refused e) eqn:Href; cbn [negb] in Hrun.
  - simplify_eq. exists [], e, rest. split_and!; try done.
    cbn [existsb negb]. induction db' as [|x db' IHdb]; [done|].
    cbn [List.filter]. by rewrite <- IHdb.
  - apply IH in Hrun as (pre & bad & post & -> & Hpre & Hbad & ->).
    exists (e :: pre), bad, post. split_and!; try done; [by constructor|].
    clear. induction db as [|x db IHdb]; [done|].
    cbn [List.filter existsb].
    destruct (String.eqb (voteID x) (voteID e)); cbn [negb orb];
      [done|]. cbn [List.filter].
    destruct (negb (existsb _ pre)); by rewrite IHdb.
Qed.

Lemma filter_own_ids (db : GovernanceLedger) :
  List.filter
    (fun x => negb (existsb (fun e => String.eqb (voteID x) (voteID e)) db)) db
  = [].
Proof.
  assert (forall l : GovernanceLedger, Forall (fun x => x ∈ db) l ->
            List.filter
              (fun x => negb (existsb (fun e => String.eqb (voteID x) (voteID e)) db))
              l = []) as Hgen.
  { induction 1 as [|x l Hx _ IH]; [done|]. cbn [List.filter].
    replace (existsb (fun e => String.eqb (voteID x) (voteID e)) db) with true;
      [done|].
    symmetry. apply existsb_exists. exists x. split; [by apply list_elem_of_In|].
    apply String.eqb_refl. }
  apply Hgen. by apply Forall_forall.
Qed.

Lemma filter_prefix_ids (pre rest : GovernanceLedger) :
  NoDup (map voteID (pre ++ rest)) ->
  List.filter
    (fun x => negb (existsb (fun e => String.eqb (voteID x) (voteID e)) pre))
    (pre ++ rest)
  = rest.
Proof.
  intros Hnd. rewrite List.filter_app.
  assert (forall l : GovernanceLedger, Forall (fun x => x ∈ pre) l ->
            List.filter
              (fun x => negb (existsb (fun e => String.eqb (voteID x) (voteID e)) pre))
              l = []) as Hin.
  { induction 1 as [|x l Hx _ IH]; [done|]. cbn [List.filter].
    replace (existsb (fun e => String.eqb (voteID x) (voteID e)) pre) with true;
      [done|].
    symmetry. apply existsb_exists. exists x. split; [by apply list_elem_of_In|].
    apply String.eqb_refl. }
  rewrite Hin by by apply Forall_forall. cbn [app].
  rewrite map_app in Hnd. apply NoDup_app in Hnd as (_ & Hdisj & _).
  assert (forall l : GovernanceLedger,
            Forall (fun x => ~ (voteID x ∈ map voteID pre)) l ->
            List.filter
              (fun x => negb (existsb (fun e => String.eqb (voteID x) (voteID e)) pre))
              l = l) as Hout.
  { induction 1 as [|x l Hx _ IH]; [done|]. cbn [List.filter].
    replace (existsb (fun e => String.eqb (voteID x) (voteID e)) pre) with false.
    - cbn [negb]. by rewrite IH.
    - symmetry. apply not_true_is_false. intros Hex.
      apply existsb_exists in Hex as (e & He & Heq).
      apply String.eqb_eq in Heq. apply Hx. rewrite Heq.
      apply list_elem_of_fmap_2. by apply list_elem_of_In. }
  apply Hout. apply Forall_forall. intros x Hx Hpre.
  apply (Hdisj (voteID x)); [done|]. by apply list_elem_of_fmap_2.
Qed.

(** X14.  When [erasegoventries] returns, the ledger is empty, as after
    the ledger's erase-all, the count returned is the number of entries
    there were, nothing else of the node has changed, and a cast on any
    proposal is no longer refused as already voted. *)
Theorem erase_returns_with_empty_ledger (refused : CGovernanceEntry -> bool)
    (request : JSONRPCRequest) (n n' : Node) (k : Z) :
  erasegoventries refused request n = (E_Return k, n') ->
  n' = set_walletdb (EraseAll (walletdb n)) n
  /\ (Z.of_nat (length (walletdb n)) < 2 ^ 31 ->
      k = Z.of_nat (length (walletdb n)))
  /\ Forall (fun e => refused e = false) (walletdb n)
  /\ EnsureWalletIsUnlocked (pwallet n) = None
  /\ forall (vote_id decision : string) (current_time : Z) (svc : Service)
            (weight : Z),
       fst (postoffchainproposals
              {| fHelp := false; params := [vote_id; decision] |}
              current_time svc n')
       <> R_AlreadyVoted weight.
Proof.
  intros Hcall. unfold erasegoventries, ListGovernanceEntries in Hcall.
  destruct (fHelp request || _); [done|].
  destruct (EnsureWalletIsUnlocked (pwallet n)) eqn:Hlock; [done|].
  destruct (eraseEach refused (walletdb n) (walletdb n) 0) as [[i|] db'] eqn:Hrun;
    [|done].
  simplify_eq. apply eraseEach_done in Hrun as (Hall & -> & Hk).
  rewrite filter_own_ids. split_and!; try done.
  - intros Hlen. apply Hk; lia.
  - intros vote_id decision current_time svc weight.
    by apply rpc_not_already_voted.
Qed.

(** X15.  When the database refuses an erasure, [erasegoventries] throws
    with the entries before the refused one already erased: nothing is
    rolled back, and the refused entry and those after it stay. *)
Theorem erase_failure_keeps_the_rest (refused : CGovernanceEntry -> bool)
    (request : JSONRPCRequest) (n n' : Node) :
  NoDup (map voteID (walletdb n)) ->
  erasegoventries refused request n = (E_EraseFailed, n') ->
  exists pre bad post,
    walletdb n = pre ++ bad :: post
    /\ Forall (fun e => refused e = false) pre
    /\ refused bad = true
    /\ n' = set_walletdb (bad :: post) n.
Proof.
  intros Hnd Hcall. unfold erasegoventries, ListGovernanceEntries in Hcall.
  destruct (fHelp request || _); [done|].
  destruct (EnsureWalletIsUnlocked (pwallet n)) eqn:Hlock; [done|].
  destruct (eraseEach refused (walletdb n) (walletdb n) 0) as [[i|] db'] eqn:Hrun;
    [done|].
  simplify_eq. apply eraseEach_failed in Hrun as (pre & bad & post & Hdb & Hpre & Hbad & ->).
  exists pre, bad, post. split_and!; try done.
  rewrite Hdb in Hnd |- *. by rewrite filter_prefix_ids.
Qed.

(** ** [getoffchainproposals] *)

Lemma proposalsFrom_spec (ps : list Proposals) :
  forall i : nat,
    map snd (proposalsFrom ps i) = ps
    /\ map fst (proposalsFrom ps i) = seq i (length ps).
Proof.
  induction ps as [|p ps IH]; intros i; [done|].
  cbn [proposalsFrom map length seq fst snd].
  destruct (IH (S i)) as [-> ->]. done.
Qed.

(** X16.  What [getoffchainproposals] returns are the proposals of the
    service's reply, in its order and numbered from 0, and only when the
    reply reports success.  The call sends one request, leaves the ledger
    and the buffered votes alone, and leaves the reply's proposals in the
    client the GUI reads. *)
Theorem listing_returns_the_reply (request : JSONRPCRequest) (svc : Service)
    (n n' : Node) (end_ : list (nat * Proposals)) :
  getoffchainproposals request svc n = (P_Return end_, n') ->
  let rq := {| req_type := GET_PROPOSALS; req_json := EmptyString |} in
  exists r : Reply,
    svc rq = Some r /\ r_statusOK r = true
    /\ map snd end_ = r_proposals r
    /\ map fst end_ = seq 0 (length (r_proposals r))
    /\ proposals (g_governance n') = r_proposals r
    /\ votes (g_governance n') = votes (g_governance n)
    /\ wire n' = wire n ++ [rq]
    /\ walletdb n' = walletdb n.
Proof.
  intros Hcall. cbn zeta. unfold getoffchainproposals in Hcall.
  destruct (fHelp request || _); [done|].
  destruct (awaitReady svc _ _) as [n2|] eqn:Hready; [|done].
  apply awaitReady_Some in Hready as (r & Hr & ->).
  cbn in Hcall. destruct (r_statusOK r) eqn:Hok; cbn [negb] in Hcall; [|done].
  simplify_eq. exists r. cbn.
  destruct (proposalsFrom_spec (r_proposals r) 0) as [-> ->].
  by split_and!.
Qed.

End RpcFacts.

Import SampleChain.

Lemma vote_weight_adds_over_adjacent_windows_witness :
  exists x y : Z,
    getvoteweight false [now - 7200; now - 3601] wallet = W_Return x
    /\ getvoteweight false [now - 3601 + 1; now] wallet = W_Return y
    /\ getvoteweight false [now - 7200; now] wallet = W_Return (wrap64 (x + y)).
Proof.
  destruct (@vote_weight_adds_over_adjacent_windows prims view wallet
              (now - 7200) (now - 3601) now)
    as (x & y & Hx & Hy & Hxy & _).
  - unfold now. lia.
  - unfold now. lia.
  - exists x, y. split; [exact Hx|]. split; [exact Hy|exact Hxy].
Defined.

Lemma no_voting_address_no_weight_witness :
  getvoteweight false [now - 100; now]
    (walletWith [(3, {| IsCoinStake := true; GetTxTime := now - 47 * 86400;
                        vout := [out sOld] |})])
  = W_Return 0.
Proof.
  apply (@no_voting_address_no_weight prims view _ now).
  - reflexivity.
  - vm_compute. discriminate.
Defined.

Lemma erase_returns_with_empty_ledger_witness :
  let n := nodeWith false wallet
             [{| voteID := "p1"; voteWeight := 15 |};
              {| voteID := "p2"; voteWeight := 7 |}] noVotes in
  walletdb (snd (erasegoventries (fun _ => false)
                   {| fHelp := false; params := [] |} n)) = [].
Proof.
  cbn zeta.
  pose proof (@erase_returns_with_empty_ledger prims (fun _ => false)
                {| fHelp := false; params := [] |}
                (nodeWith false wallet
                   [{| voteID := "p1"; voteWeight := 15 |};
                    {| voteID := "p2"; voteWeight := 7 |}] noVotes)
                (snd (erasegoventries (fun _ => false)
                        {| fHelp := false; params := [] |}
                        (nodeWith false wallet
                           [{| voteID := "p1"; voteWeight := 15 |};
                            {| voteID := "p2"; voteWeight := 7 |}] noVotes)))
                2 eq_refl) as (Hn & _).
  exact (f_equal walletdb Hn).
Defined.

Lemma erase_failure_keeps_the_rest_witness :
  let n := nodeWith false wallet
             [{| voteID := "p1"; voteWeight := 15 |};
              {| voteID := "p2"; voteWeight := 7 |};
              {| voteID := "p3"; voteWeight := 9 |}] noVotes in
  exists pre bad post,
    walletdb n = pre ++ bad :: post
    /\ snd (erasegoventries (fun e => String.eqb (voteID e) "p2")
              {| fHelp := false; params := [] |} n)
       = set_walletdb (bad :: post) n.
Proof.
  cbn zeta.
  destruct (@erase_failure_keeps_the_rest prims
              (fun e => String.eqb (voteID e) "p2")
              {| fHelp := false; params := [] |}
              (nodeWith false wallet
                 [{| voteID := "p1"; voteWeight := 15 |};
                  {| voteID := "p2"; voteWeight := 7 |};
                  {| voteID := "p3"; voteWeight := 9 |}] noVotes)
              (snd (erasegoventries (fun e => String.eqb (voteID e) "p2")
                      {| fHelp := false; params := [] |}
                      (nodeWith false wallet
                         [{| voteID := "p1"; voteWeight := 15 |};
                          {| voteID := "p2"; voteWeight := 7 |};
                          {| voteID := "p3"; voteWeight := 9 |}] noVotes))))
    as (pre & bad & post & Hdb & _ & _ & Hn).
  - apply (bool_decide_eq_true_1 (NoDup _)). vm_compute. reflexivity.
  - reflexivity.
  - exists pre, bad, post. split; [exact Hdb|exact Hn].
Defined.

Lemma listing_returns_the_reply_witness :
  exists r : Reply,
    serviceListing listed {| req_type := GET_PROPOSALS; req_json := EmptyString |}
    = Some r
    /\ proposals (g_governance
         (snd (getoffchainproposals {| fHelp := false; params := [] |}
                 (serviceListing listed) (nodeWith false wallet [] noVotes))))
       = r_proposals r.
Proof.
  destruct (@listing_returns_the_reply prims
              {| fHelp := false; params := [] |} (serviceListing listed)
              (nodeWith false wallet [] noVotes)
              (snd (getoffchainproposals {| fHelp := false; params := [] |}
                      (serviceListing listed) (nodeWith false wallet [] noVotes)))
              (proposalsFrom listed 0) eq_refl)
    as (r & Hr & _ & _ & _ & Hps & _).
  exists r. split; [exact Hr|exact Hps].
Defined.

(** * The wallet a request is served on *)

Lemma find_first {A : Type} (f : A -> bool) (l : list A) (x : A) :
  List.find f l = Some x ->
  exists pre post,
    l = pre ++ x :: post /\ f x = true /\ Forall (fun y => f y = false) pre.
Proof.
  induction l as [|y l IH]; [done|]. cbn [List.find].
  destruct (f y) eqn:Hy.
  - intros [= ->]. by exists [], l.
  - intros Hfind. destruct (IH Hfind) as (pre & post & -> & Hx & Hpre).
    exists (y :: pre), post. split_and!; [done|done|by constructor].
Qed.

Lemma find_nowhere {A : Type} (f : A -> bool) (l : list A) :
  List.find f l = None -> Forall (fun y => f y = false) l.
Proof.
  induction l as [|y l IH]; [done|]. cbn [List.find].
  destruct (f y) eqn:Hy; [done|]. intros Hfind. constructor; auto.
Qed.

Lemma endpoint_used (URI : string) :
  String.eqb (substring 0 (String.length WALLET_ENDPOINT_BASE) URI)
    WALLET_ENDPOINT_BASE = true ->
  URI = WALLET_ENDPOINT_BASE
        +:+ substr_from (String.length WALLET_ENDPOINT_BASE) URI.
Proof.
  unfold WALLET_ENDPOINT_BASE. intros Hpre.
  apply String.eqb_eq in Hpre. cbn in Hpre.
  do 8 (destruct URI as [|? URI]; cbn in Hpre; [discriminate|]).
  cbn in Hpre |- *. by simplify_eq.
Qed.

Lemma endpoint_not_used (URI rest : string) :
  String.eqb (substring 0 (String.length WALLET_ENDPOINT_BASE) URI)
    WALLET_ENDPOINT_BASE = false ->
  URI <> WALLET_ENDPOINT_BASE +:+ rest.
Proof.
  unfold WALLET_ENDPOINT_BASE. intros Hpre ->.
  apply String.eqb_neq in Hpre. apply Hpre.
  cbn. by destruct rest.
Qed.

(** X17.  How a wallet handler that opens with
    [GetWalletForJSONRPCRequest] and [EnsureWalletIsAvailable] finds its
    wallet.  Through the wallet endpoint it is the first loaded wallet of
    the decoded name, or the request is refused.  Without the endpoint a
    call is served only when exactly one wallet is loaded and refused
    otherwise; a request for help takes the first wallet, and returns null
    when none is loaded. *)
Theorem wallet_of_request_resolution {Wallet : Type} (GetName : Wallet -> string)
    (urlDecode : string -> string) (URI : string) (fHelp : bool)
    (vpwallets : list Wallet) :
  let named rest v := GetName v = urlDecode rest in
  let plain := forall rest, URI <> WALLET_ENDPOINT_BASE +:+ rest in
  match walletOfRequest GetName urlDecode URI fHelp vpwallets with
  | inr (Some pwallet) =>
      (exists rest pre post,
         URI = WALLET_ENDPOINT_BASE +:+ rest
         /\ vpwallets = pre ++ pwallet :: post
         /\ named rest pwallet
         /\ Forall (fun v => ~ named rest v) pre)
      \/ (plain
          /\ (vpwallets = [pwallet]
              \/ (fHelp = true /\ head vpwallets = Some pwallet)))
  | inr None => plain /\ fHelp = true /\ vpwallets = []
  | inl RPC_WALLET_NOT_FOUND =>
      exists rest,
        URI = WALLET_ENDPOINT_BASE +:+ rest
        /\ Forall (fun v => ~ named rest v) vpwallets
  | inl RPC_METHOD_NOT_FOUND => plain /\ fHelp = false /\ vpwallets = []
  | inl RPC_WALLET_NOT_SPECIFIED =>
      plain /\ fHelp = false /\ (2 <= length vpwallets)%nat
  end.
Proof.
  cbn zeta. unfold walletOfRequest, GetWalletForJSONRPCRequest.
  destruct (String.eqb (substring 0 _ URI) _) eqn:Hpre.
  - apply endpoint_used in Hpre.
    set (rest := substr_from (String.length WALLET_ENDPOINT_BASE) URI) in *.
    destruct (List.find _ vpwallets) as [pwallet|] eqn:Hfind.
    + cbn [EnsureWalletIsAvailable].
      apply find_first in Hfind as (pre & post & -> & Hname & Hpre').
      left. exists rest, pre, post. split_and!; try done.
      * by apply String.eqb_eq.
      * eapply Forall_impl; [exact Hpre'|]. intros v Hv Heq. cbn in Hv.
        apply String.eqb_neq in Hv. done.
    + exists rest. split; [done|]. apply find_nowhere in Hfind.
      eapply Forall_impl; [exact Hfind|]. intros v Hv Heq. cbn in Hv.
      apply String.eqb_neq in Hv. done.
  - pose proof (fun rest => endpoint_not_used URI rest Hpre) as Hplain.
    destruct vpwallets as [|v [|v' rest]]; cbn [length head Nat.eqb Nat.ltb
      Nat.leb orb andb EnsureWalletIsAvailable].
    + rewrite andb_false_r. cbn [EnsureWalletIsAvailable].
      destruct fHelp; by split_and!.
    + right. split; [done|]. by left.
    + destruct fHelp; cbn [andb EnsureWalletIsAvailable].
      * right. split; [done|]. right. done.
      * split_and!; [done|done|]. cbn. lia.
Qed.

(** * Locked coins *)

Section LockFacts.

Context `{prim : Primitives} `{locks : CoinLocks}.

Lemma checkOutput_inr (w : CWallet) (s : LockedCoins) (fUnlock : bool)
    (o : OutputParam) (outpt : COutPoint) :
  checkOutput w s fUnlock o = inr outpt <->
  lockable w s fUnlock o /\ outpt = outPointOf o.
Proof.
  unfold checkOutput, lockable, outPointOf. cbn [hash n].
  destruct (IsHex (o_txid o)); cbn [negb]; [|naive_solver].
  destruct (Z.ltb_spec (o_vout o) 0) as [Hneg|Hpos].
  { split; [done|]. intros [(_ & (trans & _ & Hn) & _) _]. lia. }
  destruct (mapWallet_find _ _) as [trans|]; [|naive_solver].
  destruct (Z.leb_spec (Z.of_nat (length (vout trans))) (o_vout o)) as [Hout|Hin].
  { split; [done|]. intros [(_ & (trans' & [= <-] & Hn) & _) _]. lia. }
  destruct (IsSpent _ _); [naive_solver|].
  destruct (IsLockedCoin s _ _), fUnlock; cbn [andb negb];
    split; try done; try naive_solver.
  all: intros [= <-]; split_and!; try done; exists trans; split; [done|lia].
Qed.

Lemma checkOutputs_inr (w : CWallet) (s : LockedCoins) (fUnlock : bool)
    (ops : list OutputParam) :
  forall acc outputs : list COutPoint,
    checkOutputs w s fUnlock ops acc = inr outputs <->
    Forall (lockable w s fUnlock) ops /\ outputs = acc ++ map outPointOf ops.
Proof.
  induction ops as [|o ops IH]; intros acc outputs; cbn [checkOutputs map].
  - rewrite app_nil_r. split; [intros [= <-]; by split|intros [_ ->]; done].
  - destruct (checkOutput w s fUnlock o) as [e|outpt] eqn:Hone.
    + split; [done|]. intros [Hall _]. apply Forall_cons in Hall as [Ho _].
      assert (checkOutput w s fUnlock o = inr (outPointOf o)) as Hok
        by by apply checkOutput_inr.
      congruence.
    + apply checkOutput_inr in Hone as [Ho ->]. rewrite IH, <- app_assoc.
      cbn [app]. rewrite Forall_cons. naive_solver.
Qed.

Lemma checkOutputs_inl (w : CWallet) (s : LockedCoins) (fUnlock : bool)
    (ops : list OutputParam) (acc : list COutPoint) :
  ~ Forall (lockable w s fUnlock) ops ->
  exists e, checkOutputs w s fUnlock ops acc = inl e.
Proof.
  intros Hnot. destruct (checkOutputs w s fUnlock ops acc) as [e|outs] eqn:Hrun;
    [by exists e|].
  apply checkOutputs_inr in Hrun as [Hall _]. done.
Qed.

Section WithSetLaws.

Context `{!CoinLocksSet}.

Lemma setLockStatus_locked (fUnlock : bool) (outputs : list COutPoint) :
  forall (s : LockedCoins) (h : uint256) (k : Z),
    IsLockedCoin (setLockStatus fUnlock outputs s) h k
    = if bool_decide ({| hash := h; n := k |} ∈ outputs) then negb fUnlock
      else IsLockedCoin s h k.
Proof.
  unfold setLockStatus.
  induction outputs as [|o outputs IH]; intros s h k; cbn [fold_left]; [done|].
  rewrite IH. clear IH.
  destruct (decide ({| hash := h; n := k |} ∈ outputs)) as [Hin|Hout].
  - rewrite !bool_decide_eq_true_2; [done| |done]. by apply list_elem_of_further.
  - rewrite (bool_decide_eq_false_2 _ Hout).
    destruct (decide (o = {| hash := h; n := k |})) as [->|Hne].
    + rewrite bool_decide_eq_true_2 by apply list_elem_of_here.
      destruct fUnlock; [rewrite locked_UnlockCoin|rewrite locked_LockCoin];
        by rewrite bool_decide_eq_true_2.
    + rewrite (bool_decide_eq_false_2 (_ ∈ o :: outputs)).
      * destruct fUnlock; [rewrite locked_UnlockCoin|rewrite locked_LockCoin];
          by rewrite bool_decide_eq_false_2.
      * intros [Heq|Hin]%elem_of_cons; [by apply Hne|done].
Qed.

(** X18.  [lockunspent] with a list of outputs changes all of them or
    none.  When every listed output is of a known transaction, within its
    outputs, unspent, and locked exactly if the request is to unlock, the
    call returns true and precisely the listed outpoints change status;
    otherwise it throws and no coin changes status. *)
Theorem lock_request_is_all_or_nothing (fUnlock : bool)
    (ops : list OutputParam) (w : CWallet) (s : LockedCoins) :
  (Forall (lockable w s fUnlock) ops ->
   fst (lockunspent false fUnlock (Some ops) w s) = L_True
   /\ forall (h : uint256) (k : Z),
        IsLockedCoin (snd (lockunspent false fUnlock (Some ops) w s)) h k
        = if bool_decide ({| hash := h; n := k |} ∈ map outPointOf ops)
          then negb fUnlock else IsLockedCoin s h k)
  /\ (~ Forall (lockable w s fUnlock) ops ->
      exists e,
        lockunspent false fUnlock (Some ops) w s = (L_Error e, s)).
Proof.
  unfold lockunspent. split.
  - intros Hall.
    assert (checkOutputs w s fUnlock ops [] = inr (map outPointOf ops)) as ->
      by by apply checkOutputs_inr.
    cbn [fst snd]. split; [done|]. intros h k. apply setLockStatus_locked.
  - intros Hnot. destruct (checkOutputs_inl w s fUnlock ops [] Hnot) as [e ->].
    by exists e.
Qed.

(** X19.  Outputs that [lockunspent] has locked can be unlocked by the
    same list, which puts every coin back to the status it had; asking to
    lock them a second time is refused for its first output. *)
Theorem lock_then_unlock_restores (ops : list OutputParam) (w : CWallet)
    (s s1 : LockedCoins) :
  lockunspent false false (Some ops) w s = (L_True, s1) ->
  (exists s2,
     lockunspent false true (Some ops) w s1 = (L_True, s2)
     /\ forall (h : uint256) (k : Z), IsLockedCoin s2 h k = IsLockedCoin s h k)
  /\ (ops <> [] ->
      lockunspent false false (Some ops) w s1 = (L_Error OutputAlreadyLocked, s1)).
Proof.
  intros Hlock. unfold lockunspent in Hlock.
  destruct (checkOutputs w s false ops []) as [e|outs] eqn:Hrun; [done|].
  apply checkOutputs_inr in Hrun as [Hall ->]. cbn [app] in Hlock.
  injection Hlock as <-.
  assert (forall o, o ∈ ops ->
            IsLockedCoin (setLockStatus false (map outPointOf ops) s)
              (uint256S (o_txid o)) (o_vout o) = true) as Hnow.
  { intros o Ho. rewrite setLockStatus_locked, bool_decide_eq_true_2; [done|].
    by apply (list_elem_of_fmap_2 outPointOf). }
  split.
  - assert (Forall (lockable w (setLockStatus false (map outPointOf ops) s) true)
              ops) as Hall'.
    { apply Forall_forall. intros o Ho.
      rewrite Forall_forall in Hall. destruct (Hall o Ho) as (? & ? & ? & _).
      unfold lockable. split_and!; auto. }
    eexists. unfold lockunspent.
    assert (checkOutputs w (setLockStatus false (map outPointOf ops) s) true
              ops [] = inr (map outPointOf ops)) as ->
      by by apply checkOutputs_inr.
    split; [reflexivity|]. intros h k. rewrite !setLockStatus_locked.
    case_bool_decide as Hin; [|done]. cbn [negb].
    apply list_elem_of_fmap in Hin as (o & Heq & Ho).
    rewrite Forall_forall in Hall. destruct (Hall o Ho) as (_ & _ & _ & Hwas).
    unfold outPointOf in Heq. injection Heq as -> ->. by rewrite Hwas.
  - intros Hne. destruct ops as [|o ops]; [done|].
    unfold lockunspent. cbn [checkOutputs].
    apply Forall_cons in Hall as [(Hhex & (trans & Hfind & Hn) & Hspent & _) _].
    unfold checkOutput. cbn [hash n]. rewrite Hhex. cbn [negb].
    destruct (Z.ltb_spec (o_vout o) 0); [lia|].
    rewrite Hfind.
    destruct (Z.leb_spec (Z.of_nat (length (vout trans))) (o_vout o)); [lia|].
    rewrite Hspent, (Hnow o) by apply list_elem_of_here. done.
Qed.

(** X20.  Every output [lockunspent] has locked is listed by
    [listlockunspent], and after a request to unlock that names no output
    the list is empty. *)
Theorem locked_outputs_are_listed (ops : list OutputParam) (w : CWallet)
    (s s1 : LockedCoins) :
  lockunspent false false (Some ops) w s = (L_True, s1) ->
  Forall (fun o => o_vout o <= INT_MAX) ops ->
  (forall o, o ∈ ops -> (uint256S (o_txid o), o_vout o) ∈ listlockunspent s1)
  /\ listlockunspent (snd (lockunspent false true None w s1)) = [].
Proof.
  intros Hlock Hint. unfold lockunspent in Hlock.
  destruct (checkOutputs w s false ops []) as [e|outs] eqn:Hrun; [done|].
  apply checkOutputs_inr in Hrun as [Hall ->]. cbn [app] in Hlock.
  injection Hlock as <-. split.
  - intros o Ho. unfold listlockunspent.
    rewrite Forall_forall in Hall, Hint.
    destruct (Hall o Ho) as (_ & (trans & _ & Hn) & _).
    specialize (Hint o Ho).
    apply list_elem_of_fmap. exists (outPointOf o). split.
    + unfold outPointOf. cbn [hash n]. f_equal. symmetry.
      unfold wrap32, wrap, INT_MAX in *. change (2 ^ (32 - 1)) with (2 ^ 31).
      rewrite Z.mod_small; lia.
    + apply locked_ListLockedCoins. unfold outPointOf. cbn [hash n].
      rewrite setLockStatus_locked, bool_decide_eq_true_2; [done|].
      by apply (list_elem_of_fmap_2 outPointOf).
  - unfold lockunspent, listlockunspent. cbn [snd].
    rewrite (elem_of_nil_inv (ListLockedCoins _)); [done|].
    intros o Ho%locked_ListLockedCoins.
    by rewrite locked_UnlockAllCoins in Ho.
Qed.

End WithSetLaws.

End LockFacts.

(** * The staking average *)

Lemma sampledHeights_elem (nHeight it : Z) :
  0 <= nHeight < 2 ^ 31 ->
  it ∈ sampledHeights nHeight <-> nHeight - Z.min 500 nHeight <= it < nHeight.
Proof.
  intros Hh. unfold sampledHeights. cbn zeta. rewrite elem_of_seqZ.
  unfold wrap32, wrap. change (2 ^ (32 - 1)) with (2 ^ 31).
  destruct (Z.ltb_spec nHeight 500).
  - replace (nHeight - nHeight) with 0 by lia. rewrite Z.mod_small by lia. lia.
  - rewrite Z.mod_small by lia. lia.
Qed.

(** X21.  [getstakingaverage] samples the blocks of the heights from
    [min(500, h)] below the tip up to the one just below it: neither the
    tip nor any older block has a part in the result.  When none of the
    sampled blocks can be read, as on a chain of height 0, the average
    divides by zero. *)
Theorem staking_average_samples_below_tip (COIN nHeight : Z)
    (readBlock readBlock' : Z -> option Z) :
  0 <= nHeight < 2 ^ 31 ->
  (forall it, nHeight - Z.min 500 nHeight <= it < nHeight ->
     readBlock' it = readBlock it) ->
  getstakingaverage COIN false 0 false nHeight readBlock'
  = getstakingaverage COIN false 0 false nHeight readBlock
  /\ (getstakingaverage COIN false 0 false nHeight readBlock = S_DivisionByZero
      <-> forall it, nHeight - Z.min 500 nHeight <= it < nHeight ->
            readBlock it = None).
Proof.
  intros Hh Hsame. unfold getstakingaverage. cbn [orb Nat.ltb Nat.leb].
  assert (omap readBlock' (sampledHeights nHeight)
          = omap readBlock (sampledHeights nHeight)) as ->.
  { apply list_omap_ext. apply Forall2_same_length_lookup_2; [done|].
    intros i x y Hx Hy. assert (x = y) as <- by congruence.
    apply Hsame, sampledHeights_elem; [done|]. by eapply list_elem_of_lookup_2. }
  split; [done|].
  assert (omap readBlock (sampledHeights nHeight) = []
          <-> forall it, nHeight - Z.min 500 nHeight <= it < nHeight ->
                readBlock it = None) as <-.
  { split.
    - intros Hnil it Hit. apply (sampledHeights_elem nHeight it Hh) in Hit.
      destruct (readBlock it) as [v|] eqn:Hv; [|done].
      assert (v ∈ omap readBlock (sampledHeights nHeight)) as Hin
        by (apply list_elem_of_omap; eauto).
      rewrite Hnil in Hin. by apply elem_of_nil in Hin.
    - intros Hnone. apply elem_of_nil_inv. intros v Hv.
      apply list_elem_of_omap in Hv as (it & Hit & Hread).
      apply (sampledHeights_elem nHeight it Hh) in Hit.
      rewrite (Hnone it Hit) in Hread. done. }
  destruct (omap readBlock (sampledHeights nHeight)); [done|].
  split; done.
Qed.

(** * Unlocking the wallet *)

Section PassphraseFacts.

Context `{prim : Primitives} `{keys : !KeyStore}.

(** X22.  A negative timeout is refused before the passphrase is tried.
    A call that returns has either armed the relock timer, for the
    timeout given and never for more than 2^30 seconds, or, for a timeout
    of 0 with [stakingonly] set, left the wallet unlocked with no timer
    at all. *)
Theorem unlock_timeout_is_bounded (passphrase : string) (timeout : Z)
    (stakingonly : option bool) (now : Z) (ws ws' : WalletSession)
    (e : PassphraseExit) :
  walletpassphrase false passphrase timeout stakingonly now ws = (e, ws') ->
  (timeout < 0 -> ws' = ws /\ (e = WP_NegativeTimeout \/ e = WP_WrongEncState))
  /\ (e = WP_Null ->
      0 <= timeout
      /\ fst (Unlock (c_str passphrase) (wallet_ ws)) = true
      /\ match lockTimer ws' with
         | Some t =>
             t = Z.min timeout (2 ^ 30)
             /\ nRelockTime ws' = wrap64 (now + t)
             /\ (timeout = 0 -> stakingonly <> Some true)
         | None =>
             timeout = 0 /\ stakingonly = Some true /\ nRelockTime ws' = 0
         end).
Proof.
  intros Hcall. unfold walletpassphrase in Hcall.
  destruct (IsCrypted (wallet_ ws)); cbn [negb] in Hcall;
    [|simplify_eq; split; [auto|done]].
  destruct (Z.ltb_spec timeout 0) as [Hneg|Hpos];
    [simplify_eq; split; [auto|done]|].
  split; [lia|]. intros ->.
  destruct (0 <? String.length (c_str passphrase))%nat; [|done].
  destruct (Unlock (c_str passphrase) (wallet_ ws)) as [ok w1] eqn:Hun.
  destruct ok; cbn [negb] in Hcall; [|done].
  split; [done|]. split; [done|].
  assert ((if 2 ^ 30 <? timeout then 2 ^ 30 else timeout)
          = Z.min timeout (2 ^ 30)) as Hclamp
    by (destruct (Z.ltb_spec (2 ^ 30) timeout); lia).
  rewrite Hclamp in Hcall. clear Hclamp.
  destruct (Z.ltb_spec 0 (Z.min timeout (2 ^ 30))) as [Hpos'|Hzero];
    cbn [orb] in Hcall.
  - simplify_eq. cbn [lockTimer nRelockTime]. split_and!; [done|done|lia].
  - assert (timeout = 0) as -> by lia.
    destruct stakingonly as [[]|]; cbn [from_option id negb orb] in Hcall; simplify_eq;
      cbn [lockTimer nRelockTime]; split_and!; done.
Qed.

(** X23.  Unlocking for staking only, with no timeout, restricts an HD
    wallet: [EnsureWalletIsUnlocked] then refuses with "staking only".
    On a wallet that is not HD the same call leaves the wallet unlocked
    for everything, and for good: the guard passes and no relock is
    scheduled. *)
Theorem staking_only_binds_hd_wallets_only `{!KeyStoreLaws}
    (passphrase : string) (now : Z) (ws ws' : WalletSession) :
  walletpassphrase false passphrase 0 (Some true) now ws = (WP_Null, ws') ->
  lockTimer ws' = None
  /\ EnsureWalletIsUnlocked (wallet_ ws')
     = if IsHDEnabled (wallet_ ws) then Some StakingOnly else None.
Proof.
  intros Hcall. unfold walletpassphrase in Hcall.
  destruct (IsCrypted (wallet_ ws)); cbn [negb] in Hcall; [|done].
  change (0 <? 0) with false in Hcall.
  change (2 ^ 30 <? 0) with false in Hcall.
  cbn [negb from_option id orb] in Hcall.
  destruct (0 <? String.length (c_str passphrase))%nat; [|done].
  destruct (Unlock (c_str passphrase) (wallet_ ws)) as [ok w1] eqn:Hun.
  destruct ok; cbn [negb] in Hcall; [|done].
  apply Unlock_unlocks in Hun as [Hlocked Hhd].
  destruct (TopUpKeyPool_keeps w1) as (Hlocked' & Hhd' & _).
  change (0 <? 0) with false in Hcall. cbn [orb] in Hcall.
  simplify_eq. cbn [lockTimer wallet_]. split; [done|].
  unfold EnsureWalletIsUnlocked. rewrite Hhd', Hhd.
  destruct (IsHDEnabled (wallet_ ws)) eqn:Hw.
  - cbn. by rewrite Hlocked', Hlocked, Hhd', Hhd.
  - by rewrite Hlocked', Hlocked, Hhd', Hhd.
Qed.

End PassphraseFacts.

(** * The properties on the sample stores *)

Module SampleLaws.

Import SampleStores.

#[export] Instance coins_are_a_set : CoinLocksSet.
Proof.
  split.
  - intros o s h k. cbn. rewrite <- bool_decide_or. apply bool_decide_ext.
    set_solver.
  - intros o s h k. cbn. rewrite <- bool_decide_not, <- bool_decide_and.
    apply bool_decide_ext. set_solver.
  - intros s h k. cbn. apply bool_decide_eq_false_2. set_solver.
  - intros s [h k]. cbn. rewrite elem_of_elements, bool_decide_eq_true. done.
Qed.

#[export] Instance keys_keep_their_word : KeyStoreLaws.
Proof.
  split.
  - intros p w w'. cbn. destruct (String.eqb p "secret"); [|done].
    intros [= <-]. done.
  - done.
Qed.

End SampleLaws.

Import SampleStores SampleLaws.

Lemma lock_request_is_all_or_nothing_witness :
  fst (lockunspent false false
         (Some [{| o_txid := "01"; o_vout := 0 |};
                {| o_txid := "02"; o_vout := 1 |}]) wallet ∅)
  = L_True.
Proof.
  apply (proj1 (@lock_request_is_all_or_nothing prims coins coins_are_a_set
                  false
                  [{| o_txid := "01"; o_vout := 0 |};
                   {| o_txid := "02"; o_vout := 1 |}] wallet ∅)).
  repeat constructor; try reflexivity;
    eexists; (split; [reflexivity|cbn; lia]).
Defined.

Lemma lock_then_unlock_restores_witness :
  exists s2,
    lockunspent false true (Some [{| o_txid := "01"; o_vout := 0 |}]) wallet
      (snd (lockunspent false false
              (Some [{| o_txid := "01"; o_vout := 0 |}]) wallet ∅))
    = (L_True, s2)
    /\ forall (h : uint256) (k : Z), IsLockedCoin s2 h k = IsLockedCoin ∅ h k.
Proof.
  apply (@lock_then_unlock_restores prims coins coins_are_a_set
           [{| o_txid := "01"; o_vout := 0 |}] wallet ∅).
  reflexivity.
Defined.

Lemma locked_outputs_are_listed_witness :
  (1, 0) ∈ listlockunspent
             (snd (lockunspent false false
                     (Some [{| o_txid := "01"; o_vout := 0 |}]) wallet ∅)).
Proof.
  refine (proj1 (@locked_outputs_are_listed prims coins coins_are_a_set
                   [{| o_txid := "01"; o_vout := 0 |}] wallet ∅
                   (snd (lockunspent false false
                           (Some [{| o_txid := "01"; o_vout := 0 |}]) wallet ∅))
                   _ _)
            {| o_txid := "01"; o_vout := 0 |} _).
  - reflexivity.
  - repeat constructor. unfold INT_MAX. cbn. lia.
  - apply list_elem_of_here.
Defined.

Lemma staking_average_samples_below_tip_witness :
  getstakingaverage 100000000 false 0 false 3 (fun _ => Some 500000000)
  = getstakingaverage 100000000 false 0 false 3
      (fun it => if it <? 3 then Some 500000000 else None).
Proof.
  apply (staking_average_samples_below_tip 100000000 3
           (fun it => if it <? 3 then Some 500000000 else None)
           (fun _ => Some 500000000)).
  - lia.
  - intros it Hit. destruct (Z.ltb_spec it 3); [done|lia].
Defined.

Lemma unlock_timeout_is_bounded_witness :
  let ws' := snd (walletpassphrase false "secret" (2 ^ 40) None now
                    (atRest true)) in
  0 <= 2 ^ 40
  /\ fst (Unlock (c_str "secret") (wallet_ (atRest true))) = true
  /\ match lockTimer ws' with
     | Some t =>
         t = Z.min (2 ^ 40) (2 ^ 30)
         /\ nRelockTime ws' = wrap64 (now + t)
         /\ (2 ^ 40 = 0 -> None <> Some true)
     | None => 2 ^ 40 = 0 /\ None = Some true /\ nRelockTime ws' = 0
     end.
Proof.
  cbn zeta.
  refine (proj2 (@unlock_timeout_is_bounded prims keys "secret" (2 ^ 40)
                   None now (atRest true)
                   (snd (walletpassphrase false "secret" (2 ^ 40) None now
                           (atRest true)))
                   WP_Null _) eq_refl).
  reflexivity.
Defined.

Lemma staking_only_binds_hd_wallets_only_witness :
  EnsureWalletIsUnlocked
    (wallet_ (snd (walletpassphrase false "secret" 0 (Some true) now
                     (atRest false))))
  = None.
Proof.
  refine (proj2 (@staking_only_binds_hd_wallets_only prims keys
                   keys_keep_their_word "secret" now (atRest false)
                   (snd (walletpassphrase false "secret" 0 (Some true) now
                           (atRest false)))
                   _)).
  reflexivity.
Defined.

(** * Locking the wallet *)

Section WalletLockFacts.

Context `{prim : Primitives} `{keys : !KeyStore}.

(** X24.  Once [walletlock] has returned, the governance calls that need
    the keys are refused on that wallet before they do anything:
    [erasegoventries] erases no entry and [postoffchainproposals] sends
    no request, both asking for the passphrase.  The relock timer is left
    as it was. *)
Theorem wallet_lock_blocks_governance_calls (ws ws' : WalletSession) (n : Node) :
  (forall w, IsLocked (Lock w) = true) ->
  walletlock false 0 ws = (WL_Null, ws') ->
  pwallet n = wallet_ ws' ->
  lockTimer ws' = lockTimer ws
  /\ (forall (refused : CGovernanceEntry -> bool),
        erasegoventries refused {| fHelp := false; params := [] |} n
        = (E_Locked PassphraseNeeded, n))
  /\ (forall (vote_id decision : string) (current_time : Z) (svc : Service),
        postoffchainproposals
          {| fHelp := false; params := [vote_id; decision] |} current_time svc n
        = (R_UnlockNeeded, n)).
Proof.
  intros Hlock Hcall Hw. unfold walletlock in Hcall. cbn [orb negb Nat.eqb] in Hcall.
  destruct (IsCrypted (wallet_ ws)); cbn [negb] in Hcall; [|done].
  simplify_eq. cbn [wallet_ lockTimer] in *. split; [done|].
  split.
  - intros refused. unfold erasegoventries, EnsureWalletIsUnlocked.
    cbn [fHelp params length orb]. by rewrite Hw, Hlock.
  - intros vote_id decision current_time svc. unfold postoffchainproposals.
    cbn [fHelp params]. by rewrite Hw, Hlock.
Qed.

End WalletLockFacts.

Lemma wallet_lock_blocks_governance_calls_witness :
  let w := wallet_ (snd (walletlock false 0
                           {| wallet_ := wallet; nRelockTime := now + 60;
                              lockTimer := Some 60 |})) in
  postoffchainproposals {| fHelp := false; params := ["p1"; "1"] |} now
    (serviceCounting records) (nodeWith false w [] noVotes)
  = (R_UnlockNeeded, nodeWith false w [] noVotes).
Proof.
  cbn zeta.
  refine (proj2 (proj2 (@wallet_lock_blocks_governance_calls prims keys
            {| wallet_ := wallet; nRelockTime := now + 60; lockTimer := Some 60 |}
            (snd (walletlock false 0
                    {| wallet_ := wallet; nRelockTime := now + 60;
                       lockTimer := Some 60 |}))
            (nodeWith false
               (wallet_ (snd (walletlock false 0
                                {| wallet_ := wallet; nRelockTime := now + 60;
                                   lockTimer := Some 60 |}))) [] noVotes)
            _ _ _)) "p1" "1" now (serviceCounting records)).
  - intros w. reflexivity.
  - reflexivity.
  - reflexivity.
Defined.
